(** * Boot facts and topology of the UCQCF boot pipeline

    A shallow embedding of [boot/early_init.c] (the architecture-neutral
    boot orchestration), of the two SMT probes of
    [arch/x86_64/boot_probe.c], and of the cache-isolation part of
    [topology/topology_contract.h].

    Conventions.
    - A [uint32_t] or [uint64_t] is a [Z]; a value coming back from a
      probe is normalised with [u32] / [u64], so every stored integer is
      in the range of its C type.
    - A C function that writes through a pointer and returns [bool] is a
      function from the old contents of the pointee to the new contents
      and the returned flag.
    - [printf] output is not part of the state and is left out. *)

From Stdlib Require Import ZArith List Bool String Lia.
From stdpp Require Import base option list pretty.
Import ListNotations.

Local Open Scope Z_scope.

(** ** Machine integers *)

Definition u32 (z : Z) : Z := z mod 2 ^ 32.
Definition u64 (z : Z) : Z := z mod 2 ^ 64.

Module Boot.

(** ** Data model ([boot_contract.h]) *)

(** Modelled from the spec: the header [boot/boot_contract.h] that declares
    the types of this section is not among the sources.  The fields are
    those that [early_init.c] and [boot_probe.c] read and write, grouped as
    in the description of the BootFacts record; the zero value of
    [cpu_vendor_t] is taken to be [CPU_VENDOR_UNKNOWN]. *)

Inductive cpu_vendor_t : Type :=
| CPU_VENDOR_UNKNOWN
| CPU_VENDOR_INTEL
| CPU_VENDOR_AMD.

Record cpu_info_t : Type := mk_cpu_info {
  vendor : cpu_vendor_t;
  family : Z;
  model : Z;
  stepping : Z;
  brand_string : string;
  cpu_info_valid : bool
}.

Record cache_info_t : Type := mk_cache_info {
  level : Z;
  line_size : Z;
  ways : Z;
  size_kb : Z;
  shared : bool;
  inclusive : bool;
  cache_info_valid : bool
}.

Record cache_topology_t : Type := mk_cache_topology {
  levels : list cache_info_t;
  level_count : Z
}.

Record constant_time_support_t : Type := mk_constant_time {
  aes_ni : bool;
  rdrand : bool;
  rdseed : bool;
  constant_time_mul : bool;
  constant_time_cmp : bool;
  constant_time_valid : bool
}.

Record cache_control_t : Type := mk_cache_control {
  clflush : bool;
  clflushopt : bool;
  clwb : bool;
  cat : bool;
  cdp : bool;
  cache_control_valid : bool
}.

Record memory_protection_t : Type := mk_memory_protection {
  nx : bool;
  smep : bool;
  smap : bool;
  pku : bool;
  tme : bool;
  memory_protection_valid : bool
}.

Record side_channel_mitigation_t : Type := mk_side_channel {
  ibrs : bool;
  stibp : bool;
  ssbd : bool;
  md_clear : bool;
  side_channel_valid : bool
}.

(** [x->valid = false] for each feature group. *)

Definition clear_constant_time_valid (c : constant_time_support_t) :=
  {| aes_ni := aes_ni c; rdrand := rdrand c; rdseed := rdseed c;
     constant_time_mul := constant_time_mul c;
     constant_time_cmp := constant_time_cmp c;
     constant_time_valid := false |}.

Definition clear_cache_control_valid (c : cache_control_t) :=
  {| clflush := clflush c; clflushopt := clflushopt c; clwb := clwb c;
     cat := cat c; cdp := cdp c; cache_control_valid := false |}.

Definition clear_memory_protection_valid (m : memory_protection_t) :=
  {| nx := nx m; smep := smep m; smap := smap m; pku := pku m; tme := tme m;
     memory_protection_valid := false |}.

Definition clear_side_channel_valid (s : side_channel_mitigation_t) :=
  {| ibrs := ibrs s; stibp := stibp s; ssbd := ssbd s;
     md_clear := md_clear s; side_channel_valid := false |}.

(** The record of boot facts.  The last three fields are the lifecycle
    flags. *)

Record boot_facts_t : Type := mk_boot_facts {
  cpu_info : cpu_info_t;
  cache_topology : cache_topology_t;
  cpu_count : Z;
  numa_nodes : Z;
  smt_enabled : bool;
  threads_per_core : Z;
  constant_time : constant_time_support_t;
  constant_time_supported : bool;
  cache_control : cache_control_t;
  cache_partitioning_supported : bool;
  memory_protection : memory_protection_t;
  memory_encryption_supported : bool;
  side_channel_mitigation : side_channel_mitigation_t;
  side_channel_mitigations_available : bool;
  trng_available : bool;
  total_memory_mb : Z;
  uefi_boot : bool;
  secure_boot_enabled : bool;
  probed : bool;
  validated : bool;
  sealed : bool
}.

Definition set_cpu_info (v : cpu_info_t) (facts : boot_facts_t) : boot_facts_t :=
  {| cpu_info := v; cache_topology := cache_topology facts;
     cpu_count := cpu_count facts; numa_nodes := numa_nodes facts;
     smt_enabled := smt_enabled facts;
     threads_per_core := threads_per_core facts;
     constant_time := constant_time facts;
     constant_time_supported := constant_time_supported facts;
     cache_control := cache_control facts;
     cache_partitioning_supported := cache_partitioning_supported facts;
     memory_protection := memory_protection facts;
     memory_encryption_supported := memory_encryption_supported facts;
     side_channel_mitigation := side_channel_mitigation facts;
     side_channel_mitigations_available := side_channel_mitigations_available facts;
     trng_available := trng_available facts;
     total_memory_mb := total_memory_mb facts; uefi_boot := uefi_boot facts;
     secure_boot_enabled := secure_boot_enabled facts;
     probed := probed facts; validated := validated facts;
     sealed := sealed facts |}.

Definition set_cache_topology (v : cache_topology_t) (facts : boot_facts_t) : boot_facts_t :=
  {| cpu_info := cpu_info facts; cache_topology := v;
     cpu_count := cpu_count facts; numa_nodes := numa_nodes facts;
     smt_enabled := smt_enabled facts;
     threads_per_core := threads_per_core facts;
     constant_time := constant_time facts;
     constant_time_supported := constant_time_supported facts;
     cache_control := cache_control facts;
     cache_partitioning_supported := cache_partitioning_supported facts;
     memory_protection := memory_protection facts;
     memory_encryption_supported := memory_encryption_supported facts;
     side_channel_mitigation := side_channel_mitigation facts;
     side_channel_mitigations_available := side_channel_mitigations_available facts;
     trng_available := trng_available facts;
     total_memory_mb := total_memory_mb facts; uefi_boot := uefi_boot facts;
     secure_boot_enabled := secure_boot_enabled facts;
     probed := probed facts; validated := validated facts;
     sealed := sealed facts |}.

Definition set_cpu_count (v : Z) (facts : boot_facts_t) : boot_facts_t :=
  {| cpu_info := cpu_info facts; cache_topology := cache_topology facts;
     cpu_count := v; numa_nodes := numa_nodes facts;
     smt_enabled := smt_enabled facts;
     threads_per_core := threads_per_core facts;
     constant_time := constant_time facts;
     constant_time_supported := constant_time_supported facts;
     cache_control := cache_control facts;
     cache_partitioning_supported := cache_partitioning_supported facts;
     memory_protection := memory_protection facts;
     memory_encryption_supported := memory_encryption_supported facts;
     side_channel_mitigation := side_channel_mitigation facts;
     side_channel_mitigations_available := side_channel_mitigations_available facts;
     trng_available := trng_available facts;
     total_memory_mb := total_memory_mb facts; uefi_boot := uefi_boot facts;
     secure_boot_enabled := secure_boot_enabled facts;
     probed := probed facts; validated := validated facts;
     sealed := sealed facts |}.

Definition set_numa_nodes (v : Z) (facts : boot_facts_t) : boot_facts_t :=
  {| cpu_info := cpu_info facts; cache_topology := cache_topology facts;
     cpu_count := cpu_count facts; numa_nodes := v;
     smt_enabled := smt_enabled facts;
     threads_per_core := threads_per_core facts;
     constant_time := constant_time facts;
     constant_time_supported := constant_time_supported facts;
     cache_control := cache_control facts;
     cache_partitioning_supported := cache_partitioning_supported facts;
     memory_protection := memory_protection facts;
     memory_encryption_supported := memory_encryption_supported facts;
     side_channel_mitigation := side_channel_mitigation facts;
     side_channel_mitigations_available := side_channel_mitigations_available facts;
     trng_available := trng_available facts;
     total_memory_mb := total_memory_mb facts; uefi_boot := uefi_boot facts;
     secure_boot_enabled := secure_boot_enabled facts;
     probed := probed facts; validated := validated facts;
     sealed := sealed facts |}.

Definition set_smt_enabled (v : bool) (facts : boot_facts_t) : boot_facts_t :=
  {| cpu_info := cpu_info facts; cache_topology := cache_topology facts;
     cpu_count := cpu_count facts; numa_nodes := numa_nodes facts;
     smt_enabled := v; threads_per_core := threads_per_core facts;
     constant_time := constant_time facts;
     constant_time_supported := constant_time_supported facts;
     cache_control := cache_control facts;
     cache_partitioning_supported := cache_partitioning_supported facts;
     memory_protection := memory_protection facts;
     memory_encryption_supported := memory_encryption_supported facts;
     side_channel_mitigation := side_channel_mitigation facts;
     side_channel_mitigations_available := side_channel_mitigations_available facts;
     trng_available := trng_available facts;
     total_memory_mb := total_memory_mb facts; uefi_boot := uefi_boot facts;
     secure_boot_enabled := secure_boot_enabled facts;
     probed := probed facts; validated := validated facts;
     sealed := sealed facts |}.

Definition set_threads_per_core (v : Z) (facts : boot_facts_t) : boot_facts_t :=
  {| cpu_info := cpu_info facts; cache_topology := cache_topology facts;
     cpu_count := cpu_count facts; numa_nodes := numa_nodes facts;
     smt_enabled := smt_enabled facts; threads_per_core := v;
     constant_time := constant_time facts;
     constant_time_supported := constant_time_supported facts;
     cache_control := cache_control facts;
     cache_partitioning_supported := cache_partitioning_supported facts;
     memory_protection := memory_protection facts;
     memory_encryption_supported := memory_encryption_supported facts;
     side_channel_mitigation := side_channel_mitigation facts;
     side_channel_mitigations_available := side_channel_mitigations_available facts;
     trng_available := trng_available facts;
     total_memory_mb := total_memory_mb facts; uefi_boot := uefi_boot facts;
     secure_boot_enabled := secure_boot_enabled facts;
     probed := probed facts; validated := validated facts;
     sealed := sealed facts |}.

Definition set_constant_time (v : constant_time_support_t) (facts : boot_facts_t) : boot_facts_t :=
  {| cpu_info := cpu_info facts; cache_topology := cache_topology facts;
     cpu_count := cpu_count facts; numa_nodes := numa_nodes facts;
     smt_enabled := smt_enabled facts;
     threads_per_core := threads_per_core facts; constant_time := v;
     constant_time_supported := constant_time_supported facts;
     cache_control := cache_control facts;
     cache_partitioning_supported := cache_partitioning_supported facts;
     memory_protection := memory_protection facts;
     memory_encryption_supported := memory_encryption_supported facts;
     side_channel_mitigation := side_channel_mitigation facts;
     side_channel_mitigations_available := side_channel_mitigations_available facts;
     trng_available := trng_available facts;
     total_memory_mb := total_memory_mb facts; uefi_boot := uefi_boot facts;
     secure_boot_enabled := secure_boot_enabled facts;
     probed := probed facts; validated := validated facts;
     sealed := sealed facts |}.

Definition set_constant_time_supported (v : bool) (facts : boot_facts_t) : boot_facts_t :=
  {| cpu_info := cpu_info facts; cache_topology := cache_topology facts;
     cpu_count := cpu_count facts; numa_nodes := numa_nodes facts;
     smt_enabled := smt_enabled facts;
     threads_per_core := threads_per_core facts;
     constant_time := constant_time facts; constant_time_supported := v;
     cache_control := cache_control facts;
     cache_partitioning_supported := cache_partitioning_supported facts;
     memory_protection := memory_protection facts;
     memory_encryption_supported := memory_encryption_supported facts;
     side_channel_mitigation := side_channel_mitigation facts;
     side_channel_mitigations_available := side_channel_mitigations_available facts;
     trng_available := trng_available facts;
     total_memory_mb := total_memory_mb facts; uefi_boot := uefi_boot facts;
     secure_boot_enabled := secure_boot_enabled facts;
     probed := probed facts; validated := validated facts;
     sealed := sealed facts |}.

Definition set_cache_control (v : cache_control_t) (facts : boot_facts_t) : boot_facts_t :=
  {| cpu_info := cpu_info facts; cache_topology := cache_topology facts;
     cpu_count := cpu_count facts; numa_nodes := numa_nodes facts;
     smt_enabled := smt_enabled facts;
     threads_per_core := threads_per_core facts;
     constant_time := constant_time facts;
     constant_time_supported := constant_time_supported facts;
     cache_control := v;
     cache_partitioning_supported := cache_partitioning_supported facts;
     memory_protection := memory_protection facts;
     memory_encryption_supported := memory_encryption_supported facts;
     side_channel_mitigation := side_channel_mitigation facts;
     side_channel_mitigations_available := side_channel_mitigations_available facts;
     trng_available := trng_available facts;
     total_memory_mb := total_memory_mb facts; uefi_boot := uefi_boot facts;
     secure_boot_enabled := secure_boot_enabled facts;
     probed := probed facts; validated := validated facts;
     sealed := sealed facts |}.

Definition set_cache_partitioning_supported (v : bool) (facts : boot_facts_t) : boot_facts_t :=
  {| cpu_info := cpu_info facts; cache_topology := cache_topology facts;
     cpu_count := cpu_count facts; numa_nodes := numa_nodes facts;
     smt_enabled := smt_enabled facts;
     threads_per_core := threads_per_core facts;
     constant_time := constant_time facts;
     constant_time_supported := constant_time_supported facts;
     cache_control := cache_control facts; cache_partitioning_supported := v;
     memory_protection := memory_protection facts;
     memory_encryption_supported := memory_encryption_supported facts;
     side_channel_mitigation := side_channel_mitigation facts;
     side_channel_mitigations_available := side_channel_mitigations_available facts;
     trng_available := trng_available facts;
     total_memory_mb := total_memory_mb facts; uefi_boot := uefi_boot facts;
     secure_boot_enabled := secure_boot_enabled facts;
     probed := probed facts; validated := validated facts;
     sealed := sealed facts |}.

Definition set_memory_protection (v : memory_protection_t) (facts : boot_facts_t) : boot_facts_t :=
  {| cpu_info := cpu_info facts; cache_topology := cache_topology facts;
     cpu_count := cpu_count facts; numa_nodes := numa_nodes facts;
     smt_enabled := smt_enabled facts;
     threads_per_core := threads_per_core facts;
     constant_time := constant_time facts;
     constant_time_supported := constant_time_supported facts;
     cache_control := cache_control facts;
     cache_partitioning_supported := cache_partitioning_supported facts;
     memory_protection := v;
     memory_encryption_supported := memory_encryption_supported facts;
     side_channel_mitigation := side_channel_mitigation facts;
     side_channel_mitigations_available := side_channel_mitigations_available facts;
     trng_available := trng_available facts;
     total_memory_mb := total_memory_mb facts; uefi_boot := uefi_boot facts;
     secure_boot_enabled := secure_boot_enabled facts;
     probed := probed facts; validated := validated facts;
     sealed := sealed facts |}.

Definition set_memory_encryption_supported (v : bool) (facts : boot_facts_t) : boot_facts_t :=
  {| cpu_info := cpu_info facts; cache_topology := cache_topology facts;
     cpu_count := cpu_count facts; numa_nodes := numa_nodes facts;
     smt_enabled := smt_enabled facts;
     threads_per_core := threads_per_core facts;
     constant_time := constant_time facts;
     constant_time_supported := constant_time_supported facts;
     cache_control := cache_control facts;
     cache_partitioning_supported := cache_partitioning_supported facts;
     memory_protection := memory_protection facts;
     memory_encryption_supported := v;
     side_channel_mitigation := side_channel_mitigation facts;
     side_channel_mitigations_available := side_channel_mitigations_available facts;
     trng_available := trng_available facts;
     total_memory_mb := total_memory_mb facts; uefi_boot := uefi_boot facts;
     secure_boot_enabled := secure_boot_enabled facts;
     probed := probed facts; validated := validated facts;
     sealed := sealed facts |}.

Definition set_side_channel_mitigation (v : side_channel_mitigation_t) (facts : boot_facts_t) : boot_facts_t :=
  {| cpu_info := cpu_info facts; cache_topology := cache_topology facts;
     cpu_count := cpu_count facts; numa_nodes := numa_nodes facts;
     smt_enabled := smt_enabled facts;
     threads_per_core := threads_per_core facts;
     constant_time := constant_time facts;
     constant_time_supported := constant_time_supported facts;
     cache_control := cache_control facts;
     cache_partitioning_supported := cache_partitioning_supported facts;
     memory_protection := memory_protection facts;
     memory_encryption_supported := memory_encryption_supported facts;
     side_channel_mitigation := v;
     side_channel_mitigations_available := side_channel_mitigations_available facts;
     trng_available := trng_available facts;
     total_memory_mb := total_memory_mb facts; uefi_boot := uefi_boot facts;
     secure_boot_enabled := secure_boot_enabled facts;
     probed := probed facts; validated := validated facts;
     sealed := sealed facts |}.

Definition set_side_channel_mitigations_available (v : bool) (facts : boot_facts_t) : boot_facts_t :=
  {| cpu_info := cpu_info facts; cache_topology := cache_topology facts;
     cpu_count := cpu_count facts; numa_nodes := numa_nodes facts;
     smt_enabled := smt_enabled facts;
     threads_per_core := threads_per_core facts;
     constant_time := constant_time facts;
     constant_time_supported := constant_time_supported facts;
     cache_control := cache_control facts;
     cache_partitioning_supported := cache_partitioning_supported facts;
     memory_protection := memory_protection facts;
     memory_encryption_supported := memory_encryption_supported facts;
     side_channel_mitigation := side_channel_mitigation facts;
     side_channel_mitigations_available := v;
     trng_available := trng_available facts;
     total_memory_mb := total_memory_mb facts; uefi_boot := uefi_boot facts;
     secure_boot_enabled := secure_boot_enabled facts;
     probed := probed facts; validated := validated facts;
     sealed := sealed facts |}.

Definition set_trng_available (v : bool) (facts : boot_facts_t) : boot_facts_t :=
  {| cpu_info := cpu_info facts; cache_topology := cache_topology facts;
     cpu_count := cpu_count facts; numa_nodes := numa_nodes facts;
     smt_enabled := smt_enabled facts;
     threads_per_core := threads_per_core facts;
     constant_time := constant_time facts;
     constant_time_supported := constant_time_supported facts;
     cache_control := cache_control facts;
     cache_partitioning_supported := cache_partitioning_supported facts;
     memory_protection := memory_protection facts;
     memory_encryption_supported := memory_encryption_supported facts;
     side_channel_mitigation := side_channel_mitigation facts;
     side_channel_mitigations_available := side_channel_mitigations_available facts;
     trng_available := v; total_memory_mb := total_memory_mb facts;
     uefi_boot := uefi_boot facts;
     secure_boot_enabled := secure_boot_enabled facts;
     probed := probed facts; validated := validated facts;
     sealed := sealed facts |}.

Definition set_total_memory_mb (v : Z) (facts : boot_facts_t) : boot_facts_t :=
  {| cpu_info := cpu_info facts; cache_topology := cache_topology facts;
     cpu_count := cpu_count facts; numa_nodes := numa_nodes facts;
     smt_enabled := smt_enabled facts;
     threads_per_core := threads_per_core facts;
     constant_time := constant_time facts;
     constant_time_supported := constant_time_supported facts;
     cache_control := cache_control facts;
     cache_partitioning_supported := cache_partitioning_supported facts;
     memory_protection := memory_protection facts;
     memory_encryption_supported := memory_encryption_supported facts;
     side_channel_mitigation := side_channel_mitigation facts;
     side_channel_mitigations_available := side_channel_mitigations_available facts;
     trng_available := trng_available facts; total_memory_mb := v;
     uefi_boot := uefi_boot facts;
     secure_boot_enabled := secure_boot_enabled facts;
     probed := probed facts; validated := validated facts;
     sealed := sealed facts |}.

Definition set_uefi_boot (v : bool) (facts : boot_facts_t) : boot_facts_t :=
  {| cpu_info := cpu_info facts; cache_topology := cache_topology facts;
     cpu_count := cpu_count facts; numa_nodes := numa_nodes facts;
     smt_enabled := smt_enabled facts;
     threads_per_core := threads_per_core facts;
     constant_time := constant_time facts;
     constant_time_supported := constant_time_supported facts;
     cache_control := cache_control facts;
     cache_partitioning_supported := cache_partitioning_supported facts;
     memory_protection := memory_protection facts;
     memory_encryption_supported := memory_encryption_supported facts;
     side_channel_mitigation := side_channel_mitigation facts;
     side_channel_mitigations_available := side_channel_mitigations_available facts;
     trng_available := trng_available facts;
     total_memory_mb := total_memory_mb facts; uefi_boot := v;
     secure_boot_enabled := secure_boot_enabled facts;
     probed := probed facts; validated := validated facts;
     sealed := sealed facts |}.

Definition set_secure_boot_enabled (v : bool) (facts : boot_facts_t) : boot_facts_t :=
  {| cpu_info := cpu_info facts; cache_topology := cache_topology facts;
     cpu_count := cpu_count facts; numa_nodes := numa_nodes facts;
     smt_enabled := smt_enabled facts;
     threads_per_core := threads_per_core facts;
     constant_time := constant_time facts;
     constant_time_supported := constant_time_supported facts;
     cache_control := cache_control facts;
     cache_partitioning_supported := cache_partitioning_supported facts;
     memory_protection := memory_protection facts;
     memory_encryption_supported := memory_encryption_supported facts;
     side_channel_mitigation := side_channel_mitigation facts;
     side_channel_mitigations_available := side_channel_mitigations_available facts;
     trng_available := trng_available facts;
     total_memory_mb := total_memory_mb facts; uefi_boot := uefi_boot facts;
     secure_boot_enabled := v; probed := probed facts;
     validated := validated facts; sealed := sealed facts |}.

Definition set_probed (v : bool) (facts : boot_facts_t) : boot_facts_t :=
  {| cpu_info := cpu_info facts; cache_topology := cache_topology facts;
     cpu_count := cpu_count facts; numa_nodes := numa_nodes facts;
     smt_enabled := smt_enabled facts;
     threads_per_core := threads_per_core facts;
     constant_time := constant_time facts;
     constant_time_supported := constant_time_supported facts;
     cache_control := cache_control facts;
     cache_partitioning_supported := cache_partitioning_supported facts;
     memory_protection := memory_protection facts;
     memory_encryption_supported := memory_encryption_supported facts;
     side_channel_mitigation := side_channel_mitigation facts;
     side_channel_mitigations_available := side_channel_mitigations_available facts;
     trng_available := trng_available facts;
     total_memory_mb := total_memory_mb facts; uefi_boot := uefi_boot facts;
     secure_boot_enabled := secure_boot_enabled facts; probed := v;
     validated := validated facts; sealed := sealed facts |}.

Definition set_validated (v : bool) (facts : boot_facts_t) : boot_facts_t :=
  {| cpu_info := cpu_info facts; cache_topology := cache_topology facts;
     cpu_count := cpu_count facts; numa_nodes := numa_nodes facts;
     smt_enabled := smt_enabled facts;
     threads_per_core := threads_per_core facts;
     constant_time := constant_time facts;
     constant_time_supported := constant_time_supported facts;
     cache_control := cache_control facts;
     cache_partitioning_supported := cache_partitioning_supported facts;
     memory_protection := memory_protection facts;
     memory_encryption_supported := memory_encryption_supported facts;
     side_channel_mitigation := side_channel_mitigation facts;
     side_channel_mitigations_available := side_channel_mitigations_available facts;
     trng_available := trng_available facts;
     total_memory_mb := total_memory_mb facts; uefi_boot := uefi_boot facts;
     secure_boot_enabled := secure_boot_enabled facts;
     probed := probed facts; validated := v; sealed := sealed facts |}.

Definition set_sealed (v : bool) (facts : boot_facts_t) : boot_facts_t :=
  {| cpu_info := cpu_info facts; cache_topology := cache_topology facts;
     cpu_count := cpu_count facts; numa_nodes := numa_nodes facts;
     smt_enabled := smt_enabled facts;
     threads_per_core := threads_per_core facts;
     constant_time := constant_time facts;
     constant_time_supported := constant_time_supported facts;
     cache_control := cache_control facts;
     cache_partitioning_supported := cache_partitioning_supported facts;
     memory_protection := memory_protection facts;
     memory_encryption_supported := memory_encryption_supported facts;
     side_channel_mitigation := side_channel_mitigation facts;
     side_channel_mitigations_available := side_channel_mitigations_available facts;
     trng_available := trng_available facts;
     total_memory_mb := total_memory_mb facts; uefi_boot := uefi_boot facts;
     secure_boot_enabled := secure_boot_enabled facts;
     probed := probed facts; validated := validated facts; sealed := v |}.

(** ** Initialisation: [boot_init] *)

(** [memset(facts, 0, sizeof(boot_facts_t))]: every integer is 0, every
    flag false, every string empty, every enum its first enumerator. *)

Definition cpu_info_zero : cpu_info_t :=
  mk_cpu_info CPU_VENDOR_UNKNOWN 0 0 0 EmptyString false.

Definition cache_topology_zero : cache_topology_t :=
  mk_cache_topology
    (repeat (mk_cache_info 0 0 0 0 false false false) 4) 0.

Definition memset_zero (_ : boot_facts_t) : boot_facts_t :=
  {| cpu_info := cpu_info_zero;
     cache_topology := cache_topology_zero;
     cpu_count := 0; numa_nodes := 0;
     smt_enabled := false; threads_per_core := 0;
     constant_time := mk_constant_time false false false false false false;
     constant_time_supported := false;
     cache_control := mk_cache_control false false false false false false;
     cache_partitioning_supported := false;
     memory_protection :=
       mk_memory_protection false false false false false false;
     memory_encryption_supported := false;
     side_channel_mitigation := mk_side_channel false false false false false;
     side_channel_mitigations_available := false;
     trng_available := false; total_memory_mb := 0;
     uefi_boot := false; secure_boot_enabled := false;
     probed := false; validated := false; sealed := false |}.

Definition boot_init (facts : boot_facts_t) : boot_facts_t :=
  let facts := memset_zero facts in
  let facts := set_probed false facts in
  let facts := set_validated false facts in
  set_sealed false facts.

(** ** The probe provider

    [boot_probe] delegates every measurement to the architecture layer
    ([boot_probe_cpu_info], [boot_probe_cpu_count], ...), linked in as
    weak symbols.  A provider is the collection of these functions.  The
    ones taking a pointer map the current contents of the target
    structure to its contents after the call and the returned flag, so a
    probe that fails half way may leave partial writes behind. *)

Record probe_provider : Type := mk_provider {
  boot_probe_cpu_info : cpu_info_t -> cpu_info_t * bool;
  boot_probe_cache_topology : cache_topology_t -> cache_topology_t * bool;
  boot_probe_cpu_count : Z;
  boot_probe_numa_node_count : Z;
  boot_probe_smt_enabled : bool;
  boot_probe_threads_per_core : Z;
  boot_probe_constant_time_support :
    constant_time_support_t -> constant_time_support_t * bool;
  boot_probe_cache_control : cache_control_t -> cache_control_t * bool;
  boot_probe_memory_protection :
    memory_protection_t -> memory_protection_t * bool;
  boot_probe_side_channel_mitigation :
    side_channel_mitigation_t -> side_channel_mitigation_t * bool;
  boot_probe_trng_available : bool;
  boot_probe_total_memory_mb : Z;
  boot_probe_uefi_boot : bool;
  boot_probe_secure_boot_enabled : bool
}.

(** One entry per call into the provider, with the response it gave. *)

Inductive probe_event : Type :=
| EvCpuInfo (r : cpu_info_t) (ok : bool)
| EvCacheTopology (r : cache_topology_t) (ok : bool)
| EvCpuCount (n : Z)
| EvNumaNodeCount (n : Z)
| EvSmtEnabled (b : bool)
| EvThreadsPerCore (n : Z)
| EvConstantTime (r : constant_time_support_t) (ok : bool)
| EvCacheControl (r : cache_control_t) (ok : bool)
| EvMemoryProtection (r : memory_protection_t) (ok : bool)
| EvSideChannel (r : side_channel_mitigation_t) (ok : bool)
| EvTrng (b : bool)
| EvTotalMemory (n : Z)
| EvUefiBoot (b : bool)
| EvSecureBoot (b : bool).

(** The twelve steps named in the comments of [boot_probe]. *)

Inductive probe_step : Type :=
| StepCpuInfo | StepCacheTopology | StepCpuCount | StepNuma | StepSmt
| StepConstantTime | StepCacheControl | StepMemoryProtection
| StepSideChannel | StepTrng | StepTotalMemory | StepBootMode.

Definition step_of_event (e : probe_event) : probe_step :=
  match e with
  | EvCpuInfo _ _ => StepCpuInfo
  | EvCacheTopology _ _ => StepCacheTopology
  | EvCpuCount _ => StepCpuCount
  | EvNumaNodeCount _ => StepNuma
  | EvSmtEnabled _ | EvThreadsPerCore _ => StepSmt
  | EvConstantTime _ _ => StepConstantTime
  | EvCacheControl _ _ => StepCacheControl
  | EvMemoryProtection _ _ => StepMemoryProtection
  | EvSideChannel _ _ => StepSideChannel
  | EvTrng _ => StepTrng
  | EvTotalMemory _ => StepTotalMemory
  | EvUefiBoot _ | EvSecureBoot _ => StepBootMode
  end.

Definition probe_step_eqb (a b : probe_step) : bool :=
  match a, b with
  | StepCpuInfo, StepCpuInfo | StepCacheTopology, StepCacheTopology
  | StepCpuCount, StepCpuCount | StepNuma, StepNuma | StepSmt, StepSmt
  | StepConstantTime, StepConstantTime | StepCacheControl, StepCacheControl
  | StepMemoryProtection, StepMemoryProtection
  | StepSideChannel, StepSideChannel | StepTrng, StepTrng
  | StepTotalMemory, StepTotalMemory | StepBootMode, StepBootMode => true
  | _, _ => false
  end.

(** Consecutive calls that belong to one step count once. *)

Fixpoint steps_of (tr : list probe_event) : list probe_step :=
  match tr with
  | [] => []
  | e :: tr' =>
      match steps_of tr' with
      | s :: rest =>
          if probe_step_eqb (step_of_event e) s then s :: rest
          else step_of_event e :: s :: rest
      | [] => [step_of_event e]
      end
  end.

Definition probe_sequence : list probe_step :=
  [StepCpuInfo; StepCacheTopology; StepCpuCount; StepNuma; StepSmt;
   StepConstantTime; StepCacheControl; StepMemoryProtection;
   StepSideChannel; StepTrng; StepTotalMemory; StepBootMode].

(** ** A small monad for [boot_probe]

    The body of [boot_probe] updates the record in place, calls the
    provider and may [return] early.  A computation takes the record and
    the trace of provider calls so far and either goes on with a value
    ([inl]) or has returned from the function ([inr]). *)

Record probe_state : Type := mk_probe_state {
  ps_facts : boot_facts_t;
  ps_trace : list probe_event
}.

Definition probe_m (A : Type) : Type := probe_state -> (A + bool) * probe_state.

Definition pure {A} (a : A) : probe_m A := fun s => (inl a, s).

Definition bind {A B} (m : probe_m A) (k : A -> probe_m B) : probe_m B :=
  fun s =>
    match m s with
    | (inl a, s') => k a s'
    | (inr b, s') => (inr b, s')
    end.

Definition return_ {A} (b : bool) : probe_m A := fun s => (inr b, s).

Definition load {A} (proj : boot_facts_t -> A) : probe_m A :=
  fun s => (inl (proj (ps_facts s)), s).

Definition store (upd : boot_facts_t -> boot_facts_t) : probe_m unit :=
  fun s => (inl tt, mk_probe_state (upd (ps_facts s)) (ps_trace s)).

(** [f(&facts->field)] for a provider function with an out-parameter. *)

Definition call_out {A} (proj : boot_facts_t -> A)
    (upd : A -> boot_facts_t -> boot_facts_t)
    (f : A -> A * bool) (ev : A -> bool -> probe_event) : probe_m bool :=
  fun s =>
    let '(r, ok) := f (proj (ps_facts s)) in
    (inl ok, mk_probe_state (upd r (ps_facts s)) (ps_trace s ++ [ev r ok])).

(** [f()] for a provider function that returns its result. *)

Definition call_val {A} (v : A) (ev : A -> probe_event) : probe_m A :=
  fun s => (inl v, mk_probe_state (ps_facts s) (ps_trace s ++ [ev v])).

Declare Scope probe_scope.
Delimit Scope probe_scope with probe.
Notation "x <- m ;; k" := (bind m (fun x => k))
  (at level 90, m at next level, right associativity) : probe_scope.
Notation "m ;;; k" := (bind m (fun _ => k))
  (at level 90, right associativity) : probe_scope.
Notation "'when_' c 'then_' m" := (if c then m else pure tt)
  (at level 80, c at level 70) : probe_scope.

(** ** Probing: [boot_probe] *)

Definition boot_probe_body (p : probe_provider) : probe_m unit :=
 (is_sealed <- load sealed ;;
  when_ is_sealed then_ return_ false ;;;
  (* Step 1: CPU information *)
  ok <- call_out cpu_info set_cpu_info (boot_probe_cpu_info p) EvCpuInfo ;;
  when_ negb ok then_ return_ false ;;;
  (* Step 2: cache topology *)
  ok <- call_out cache_topology set_cache_topology
          (boot_probe_cache_topology p) EvCacheTopology ;;
  when_ negb ok then_ return_ false ;;;
  (* Step 3: core count *)
  n <- call_val (u32 (boot_probe_cpu_count p)) EvCpuCount ;;
  store (set_cpu_count n) ;;;
  n <- load cpu_count ;;
  when_ n =? 0 then_ return_ false ;;;
  (* Step 4: NUMA *)
  n <- call_val (u32 (boot_probe_numa_node_count p)) EvNumaNodeCount ;;
  store (set_numa_nodes n) ;;;
  n <- load numa_nodes ;;
  when_ n =? 0 then_ store (set_numa_nodes 1) ;;;
  (* Step 5: SMT *)
  b <- call_val (boot_probe_smt_enabled p) EvSmtEnabled ;;
  store (set_smt_enabled b) ;;;
  b <- load smt_enabled ;;
  (if b then
     n <- call_val (u32 (boot_probe_threads_per_core p)) EvThreadsPerCore ;;
     store (set_threads_per_core n)
   else
     store (set_threads_per_core 1)) ;;;
  (* Step 6: constant-time support *)
  ok <- call_out constant_time set_constant_time
          (boot_probe_constant_time_support p) EvConstantTime ;;
  when_ negb ok then_
    store (fun f => set_constant_time
                      (clear_constant_time_valid (constant_time f)) f) ;;;
  store (fun f => set_constant_time_supported
                    (constant_time_valid (constant_time f)
                     && aes_ni (constant_time f)
                     && rdrand (constant_time f)) f) ;;;
  (* Step 7: cache control *)
  ok <- call_out cache_control set_cache_control
          (boot_probe_cache_control p) EvCacheControl ;;
  when_ negb ok then_
    store (fun f => set_cache_control
                      (clear_cache_control_valid (cache_control f)) f) ;;;
  store (fun f => set_cache_partitioning_supported
                    (cache_control_valid (cache_control f)
                     && (cat (cache_control f) || cdp (cache_control f))) f) ;;;
  (* Step 8: memory protection *)
  ok <- call_out memory_protection set_memory_protection
          (boot_probe_memory_protection p) EvMemoryProtection ;;
  when_ negb ok then_
    store (fun f => set_memory_protection
                      (clear_memory_protection_valid (memory_protection f)) f) ;;;
  store (fun f => set_memory_encryption_supported
                    (memory_protection_valid (memory_protection f)
                     && tme (memory_protection f)) f) ;;;
  (* Step 9: side-channel mitigations *)
  ok <- call_out side_channel_mitigation set_side_channel_mitigation
          (boot_probe_side_channel_mitigation p) EvSideChannel ;;
  when_ negb ok then_
    store (fun f => set_side_channel_mitigation
                      (clear_side_channel_valid (side_channel_mitigation f)) f) ;;;
  store (fun f => set_side_channel_mitigations_available
                    (side_channel_valid (side_channel_mitigation f)
                     && ibrs (side_channel_mitigation f)
                     && stibp (side_channel_mitigation f)) f) ;;;
  (* Step 10: TRNG *)
  b <- call_val (boot_probe_trng_available p) EvTrng ;;
  store (set_trng_available b) ;;;
  (* Step 11: total memory *)
  n <- call_val (u64 (boot_probe_total_memory_mb p)) EvTotalMemory ;;
  store (set_total_memory_mb n) ;;;
  (* Step 12: boot mode *)
  b <- call_val (boot_probe_uefi_boot p) EvUefiBoot ;;
  store (set_uefi_boot b) ;;;
  b <- call_val (boot_probe_secure_boot_enabled p) EvSecureBoot ;;
  store (set_secure_boot_enabled b) ;;;
  (* Mark as probed *)
  store (set_probed true) ;;;
  return_ true)%probe.

(** Running the body on a record: the returned flag, the record after the
    call, and the provider calls made. *)

Definition boot_probe_run (p : probe_provider) (facts : boot_facts_t)
  : bool * boot_facts_t * list probe_event :=
  match boot_probe_body p (mk_probe_state facts []) with
  | (inr b, s) => (b, ps_facts s, ps_trace s)
  | (inl _, s) => (true, ps_facts s, ps_trace s)
  end.

Definition boot_probe (p : probe_provider) (facts : boot_facts_t)
  : bool * boot_facts_t :=
  fst (boot_probe_run p facts).

Definition boot_probe_trace (p : probe_provider) (facts : boot_facts_t)
  : list probe_event :=
  snd (boot_probe_run p facts).

(** ** Validation: [boot_validate] *)

(** Modelled from the spec: [boot_validation_result_t] and [boot_error_t]
    are declared in [boot_contract.h], which is not among the sources.
    The severities are ordered Accept < Warn < HardFail, as in the sibling
    [topology_validation_result_t]; the error codes are those listed by
    [boot_error_string], [BOOT_ERROR_NONE] being the zero value. *)

Inductive boot_validation_result_t : Type :=
| BOOT_VALIDATION_ACCEPT
| BOOT_VALIDATION_WARN
| BOOT_VALIDATION_HARD_FAIL.

Definition severity_rank (r : boot_validation_result_t) : Z :=
  match r with
  | BOOT_VALIDATION_ACCEPT => 0
  | BOOT_VALIDATION_WARN => 1
  | BOOT_VALIDATION_HARD_FAIL => 2
  end.

Definition is_hard_fail (r : boot_validation_result_t) : bool :=
  match r with BOOT_VALIDATION_HARD_FAIL => true | _ => false end.

Inductive boot_error_t : Type :=
| BOOT_ERROR_NONE
| BOOT_ERROR_CPU_DETECTION_FAILED
| BOOT_ERROR_CACHE_DETECTION_FAILED
| BOOT_ERROR_NUMA_DETECTION_FAILED
| BOOT_ERROR_TOO_FEW_CORES
| BOOT_ERROR_NO_CACHE
| BOOT_ERROR_NO_NUMA
| BOOT_ERROR_NO_CONSTANT_TIME_SUPPORT
| BOOT_ERROR_NO_CACHE_CONTROL
| BOOT_ERROR_NO_MEMORY_PROTECTION
| BOOT_ERROR_NO_SIDE_CHANNEL_MITIGATION
| BOOT_ERROR_NO_TRNG
| BOOT_ERROR_SMT_ENABLED_NOT_ALLOWED
| BOOT_ERROR_FREQ_SCALING_ENABLED
| BOOT_ERROR_SECURE_BOOT_DISABLED
| BOOT_WARN_ASYMMETRIC_CORES
| BOOT_WARN_NUMA_DISABLED
| BOOT_WARN_OLD_MICROCODE.

(** [errors] is the array [errors[32]]: a list that always has 32 slots,
    of which the first [error_count] are in use. *)

Record boot_validation_context_t : Type := mk_ctx {
  errors : list boot_error_t;
  error_count : Z;
  worst_result : boot_validation_result_t
}.

Definition boot_validation_context_init (_ : boot_validation_context_t)
  : boot_validation_context_t :=
  {| errors := repeat BOOT_ERROR_NONE 32;
     error_count := 0;
     worst_result := BOOT_VALIDATION_ACCEPT |}.

Definition boot_validation_context_add_error
    (ctx : boot_validation_context_t) (error : boot_error_t)
    (severity : boot_validation_result_t) : boot_validation_context_t :=
  let ctx :=
    if error_count ctx <? 32 then
      {| errors := <[Z.to_nat (error_count ctx) := error]> (errors ctx);
         error_count := u32 (error_count ctx + 1);
         worst_result := worst_result ctx |}
    else ctx in
  if severity_rank severity >? severity_rank (worst_result ctx) then
    {| errors := errors ctx; error_count := error_count ctx;
       worst_result := severity |}
  else ctx.

(** The errors a context reports: the slots in use, in order (what
    [boot_validation_context_print] walks over). *)

Definition recorded_errors (ctx : boot_validation_context_t)
  : list boot_error_t :=
  take (Z.to_nat (error_count ctx)) (errors ctx).

(** [if (c) boot_validation_context_add_error(ctx, e, sev);] *)

Definition check (c : bool) (e : boot_error_t)
    (sev : boot_validation_result_t) (ctx : boot_validation_context_t)
  : boot_validation_context_t :=
  if c then boot_validation_context_add_error ctx e sev else ctx.

Definition boot_validate (facts : boot_facts_t)
    (ctx : boot_validation_context_t)
  : boot_validation_result_t * boot_facts_t * boot_validation_context_t :=
  let ctx := boot_validation_context_init ctx in
  if negb (probed facts) then
    let ctx := boot_validation_context_add_error ctx
                 BOOT_ERROR_CPU_DETECTION_FAILED BOOT_VALIDATION_HARD_FAIL in
    (BOOT_VALIDATION_HARD_FAIL, facts, ctx)
  else
    let ctx := check (cpu_count facts <? 2)
                 BOOT_ERROR_TOO_FEW_CORES BOOT_VALIDATION_HARD_FAIL ctx in
    let ctx := check (level_count (cache_topology facts) =? 0)
                 BOOT_ERROR_NO_CACHE BOOT_VALIDATION_HARD_FAIL ctx in
    let ctx := check (numa_nodes facts <? 1)
                 BOOT_ERROR_NO_NUMA BOOT_VALIDATION_HARD_FAIL ctx in
    let ctx := check (negb (constant_time_supported facts))
                 BOOT_ERROR_NO_CONSTANT_TIME_SUPPORT BOOT_VALIDATION_WARN ctx in
    let ctx := check (negb (trng_available facts))
                 BOOT_ERROR_NO_TRNG BOOT_VALIDATION_WARN ctx in
    let ctx := check (smt_enabled facts)
                 BOOT_ERROR_SMT_ENABLED_NOT_ALLOWED BOOT_VALIDATION_WARN ctx in
    let ctx := check (negb (secure_boot_enabled facts))
                 BOOT_ERROR_SECURE_BOOT_DISABLED BOOT_VALIDATION_WARN ctx in
    let facts :=
      if negb (is_hard_fail (worst_result ctx))
      then set_validated true facts else facts in
    (worst_result ctx, facts, ctx).

Definition boot_validation_allows_boot (ctx : boot_validation_context_t)
  : bool :=
  negb (is_hard_fail (worst_result ctx)).

(** The check list of [boot_validate] as a table: condition, error code,
    severity, in the order of the code. *)

Definition check_table (facts : boot_facts_t)
  : list (bool * boot_error_t * boot_validation_result_t) :=
  [ (negb (probed facts),
     BOOT_ERROR_CPU_DETECTION_FAILED, BOOT_VALIDATION_HARD_FAIL);
    (cpu_count facts <? 2,
     BOOT_ERROR_TOO_FEW_CORES, BOOT_VALIDATION_HARD_FAIL);
    (level_count (cache_topology facts) =? 0,
     BOOT_ERROR_NO_CACHE, BOOT_VALIDATION_HARD_FAIL);
    (numa_nodes facts <? 1,
     BOOT_ERROR_NO_NUMA, BOOT_VALIDATION_HARD_FAIL);
    (negb (constant_time_supported facts),
     BOOT_ERROR_NO_CONSTANT_TIME_SUPPORT, BOOT_VALIDATION_WARN);
    (negb (trng_available facts),
     BOOT_ERROR_NO_TRNG, BOOT_VALIDATION_WARN);
    (smt_enabled facts,
     BOOT_ERROR_SMT_ENABLED_NOT_ALLOWED, BOOT_VALIDATION_WARN);
    (negb (secure_boot_enabled facts),
     BOOT_ERROR_SECURE_BOOT_DISABLED, BOOT_VALIDATION_WARN) ].

(** The checks whose condition holds. *)

Definition triggered (facts : boot_facts_t)
  : list (boot_error_t * boot_validation_result_t) :=
  map (fun c => (snd (fst c), snd c))
      (List.filter (fun c => fst (fst c)) (check_table facts)).

Definition worse (a b : boot_validation_result_t) : boot_validation_result_t :=
  if severity_rank a >? severity_rank b then a else b.

Definition worst_of (l : list boot_validation_result_t)
  : boot_validation_result_t :=
  fold_right worse BOOT_VALIDATION_ACCEPT l.

Definition hard_fail_condition (facts : boot_facts_t) : Prop :=
  probed facts = false \/ cpu_count facts < 2
  \/ level_count (cache_topology facts) = 0 \/ numa_nodes facts < 1.


Definition hard_fail_conditionb (facts : boot_facts_t) : bool :=
  negb (probed facts) || (cpu_count facts <? 2)
  || (level_count (cache_topology facts) =? 0) || (numa_nodes facts <? 1).

Definition warn_conditionb (facts : boot_facts_t) : bool :=
  negb (constant_time_supported facts) || negb (trng_available facts)
  || smt_enabled facts || negb (secure_boot_enabled facts).

(** [ctx_is ctx l w n]: the array has its 32 slots, the slots in use hold
    the list [l] of at most [n] errors, and the worst severity so far is
    [w]. *)

Definition ctx_is (ctx : boot_validation_context_t) (l : list boot_error_t)
    (w : boot_validation_result_t) (n : nat) : Prop :=
  length (errors ctx) = 32%nat
  /\ error_count ctx = Z.of_nat (length l)
  /\ recorded_errors ctx = l
  /\ worst_result ctx = w
  /\ (length l <= n)%nat.

(** ** Sealing: [boot_seal] *)

Definition boot_seal (facts : boot_facts_t) : bool * boot_facts_t :=
  if negb (validated facts) then (false, facts)
  else if sealed facts then (false, facts)
  else (true, set_sealed true facts).

(** ** The x86_64 SMT probes ([arch/x86_64/boot_probe.c])

    [cpuid leaf subleaf] stands for the [CPUID] instruction and gives the
    four registers [eax], [ebx], [ecx], [edx]. *)

Module X86.

Section Cpuid.

Variable cpuid : Z -> Z -> Z * Z * Z * Z.

Definition boot_probe_smt_enabled : bool :=
  let '(eax, _, _, _) := cpuid 0 0 in
  let max_leaf := eax in
  if max_leaf >=? 1 then
    let '(_, ebx, _, edx) := cpuid 1 0 in
    let htt := Z.land (Z.shiftr edx 28) 1 in
    if negb (htt =? 0) then
      let logical_count := Z.land (Z.shiftr ebx 16) 255 in
      if max_leaf >=? 11 then
        let '(_, ebx, _, _) := cpuid 11 0 in
        let threads_per_core := Z.land ebx 65535 in
        threads_per_core >? 1
      else logical_count >? 1
    else false
  else false.

Definition boot_probe_threads_per_core : Z :=
  let '(eax, _, _, _) := cpuid 0 0 in
  let max_leaf := eax in
  if max_leaf >=? 11 then
    let '(_, ebx, _, _) := cpuid 11 0 in
    Z.land ebx 65535
  else 1.

End Cpuid.

End X86.

(** ** Concrete providers *)

(** A provider function that writes [r] and returns [ok]. *)

Definition writes {A} (r : A) (ok : bool) : A -> A * bool := fun _ => (r, ok).

Definition l1_data : cache_info_t := mk_cache_info 1 64 8 32 false false true.
Definition l2_private : cache_info_t := mk_cache_info 2 64 4 256 false false true.
Definition l3_shared : cache_info_t := mk_cache_info 3 64 16 8192 true true true.
Definition no_cache : cache_info_t := mk_cache_info 0 0 0 0 false false false.

(** The machine of the minimal-pass scenario: an Intel family 6 part with
    four cores, one NUMA node, no SMT, three cache levels and every
    feature present. *)

Definition quad_core (smt : bool) (threads : Z) (secure : bool)
  : probe_provider :=
  {| boot_probe_cpu_info :=
       writes (mk_cpu_info CPU_VENDOR_INTEL 6 158 10 "Quad" true) true;
     boot_probe_cache_topology :=
       writes (mk_cache_topology [l1_data; l2_private; l3_shared; no_cache] 3)
              true;
     boot_probe_cpu_count := 4;
     boot_probe_numa_node_count := 1;
     boot_probe_smt_enabled := smt;
     boot_probe_threads_per_core := threads;
     boot_probe_constant_time_support :=
       writes (mk_constant_time true true true true true true) true;
     boot_probe_cache_control :=
       writes (mk_cache_control true true true true true true) true;
     boot_probe_memory_protection :=
       writes (mk_memory_protection true true true true true true) true;
     boot_probe_side_channel_mitigation :=
       writes (mk_side_channel true true true true true) true;
     boot_probe_trng_available := true;
     boot_probe_total_memory_mb := 8192;
     boot_probe_uefi_boot := true;
     boot_probe_secure_boot_enabled := secure |}.

Definition reference_machine : probe_provider := quad_core false 1 true.

(** A processor that reports hyper-threading through leaf 1 only: the
    highest basic leaf is 10, the HTT flag (EDX bit 28) is set and leaf 1
    counts two logical processors (EBX bits 16 to 23). *)

Definition legacy_htt_cpuid (leaf subleaf : Z) : Z * Z * Z * Z :=
  if leaf =? 0 then (10, 0, 0, 0)
  else if leaf =? 1 then (0, Z.shiftl 2 16, 0, Z.shiftl 1 28)
  else (0, 0, 0, 0).

Definition legacy_htt_machine : probe_provider :=
  quad_core (X86.boot_probe_smt_enabled legacy_htt_cpuid)
            (X86.boot_probe_threads_per_core legacy_htt_cpuid) true.

(** A probe with an out-parameter that returns false without writing. *)

Definition fails {A} : A -> A * bool := fun old => (old, false).

(** A provider whose every answer is the unfavourable one.  Five of its
    fields are the weak symbols at the end of [early_init.c]: a core
    count of 0, a NUMA count of 0, one thread per core, no UEFI boot, no
    secure boot.  The source gives no default for the other nine
    functions, which an architecture layer has to supply; here they stand
    for such a layer that reports nothing: the probes with an
    out-parameter fail without writing, and there is no SMT, no TRNG and
    no memory. *)

Definition weak_defaults : probe_provider :=
  {| boot_probe_cpu_info := fails;
     boot_probe_cache_topology := fails;
     boot_probe_cpu_count := 0;
     boot_probe_numa_node_count := 0;
     boot_probe_smt_enabled := false;
     boot_probe_threads_per_core := 1;
     boot_probe_constant_time_support := fails;
     boot_probe_cache_control := fails;
     boot_probe_memory_protection := fails;
     boot_probe_side_channel_mitigation := fails;
     boot_probe_trng_available := false;
     boot_probe_total_memory_mb := 0;
     boot_probe_uefi_boot := false;
     boot_probe_secure_boot_enabled := false |}.

(** A machine that reports a single core. *)

Definition single_core : probe_provider :=
  {| boot_probe_cpu_info := boot_probe_cpu_info reference_machine;
     boot_probe_cache_topology := boot_probe_cache_topology reference_machine;
     boot_probe_cpu_count := 1;
     boot_probe_numa_node_count := 1;
     boot_probe_smt_enabled := false;
     boot_probe_threads_per_core := 1;
     boot_probe_constant_time_support :=
       boot_probe_constant_time_support reference_machine;
     boot_probe_cache_control := boot_probe_cache_control reference_machine;
     boot_probe_memory_protection :=
       boot_probe_memory_protection reference_machine;
     boot_probe_side_channel_mitigation :=
       boot_probe_side_channel_mitigation reference_machine;
     boot_probe_trng_available := true;
     boot_probe_total_memory_mb := 8192;
     boot_probe_uefi_boot := true;
     boot_probe_secure_boot_enabled := true |}.

(** ** The public operations as a transition system *)

Inductive boot_op : Type :=
| OpInit
| OpProbe (p : probe_provider)
| OpValidate (ctx : boot_validation_context_t)
| OpSeal.

Definition run_op (op : boot_op) (facts : boot_facts_t) : boot_facts_t :=
  match op with
  | OpInit => boot_init facts
  | OpProbe p => snd (boot_probe p facts)
  | OpValidate ctx => snd (fst (boot_validate facts ctx))
  | OpSeal => snd (boot_seal facts)
  end.

(** The records a client can hold: whatever [boot_init] produced, followed
    by any number of public operations. *)

Inductive reachable : boot_facts_t -> Prop :=
| reach_init (f0 : boot_facts_t) : reachable (boot_init f0)
| reach_step (op : boot_op) (facts : boot_facts_t) :
    reachable facts -> reachable (run_op op facts).

(** ** The provider's responses, in the order [boot_probe] asks for them

    A direct description of the calls a run of [boot_probe] makes on a
    record that is not sealed, against which the trace of the monadic
    body is checked. *)

Definition provider_responses (p : probe_provider) (f : boot_facts_t)
  : list probe_event :=
  let '(ci, cpu_ok) := boot_probe_cpu_info p (cpu_info f) in
  EvCpuInfo ci cpu_ok ::
  if negb cpu_ok then [] else
  let '(ct, cache_ok) := boot_probe_cache_topology p (cache_topology f) in
  EvCacheTopology ct cache_ok ::
  if negb cache_ok then [] else
  EvCpuCount (u32 (boot_probe_cpu_count p)) ::
  if u32 (boot_probe_cpu_count p) =? 0 then [] else
  EvNumaNodeCount (u32 (boot_probe_numa_node_count p)) ::
  EvSmtEnabled (boot_probe_smt_enabled p) ::
  (if boot_probe_smt_enabled p
   then [EvThreadsPerCore (u32 (boot_probe_threads_per_core p))] else [])
  ++ [ (let '(r, ok) :=
          boot_probe_constant_time_support p (constant_time f) in
        EvConstantTime r ok);
       (let '(r, ok) := boot_probe_cache_control p (cache_control f) in
        EvCacheControl r ok);
       (let '(r, ok) :=
          boot_probe_memory_protection p (memory_protection f) in
        EvMemoryProtection r ok);
       (let '(r, ok) :=
          boot_probe_side_channel_mitigation p (side_channel_mitigation f) in
        EvSideChannel r ok);
       EvTrng (boot_probe_trng_available p);
       EvTotalMemory (u64 (boot_probe_total_memory_mb p));
       EvUefiBoot (boot_probe_uefi_boot p);
       EvSecureBoot (boot_probe_secure_boot_enabled p) ].

(** Two providers that answer every operation alike. *)

Definition same_responses (p1 p2 : probe_provider) : Prop :=
  (forall x, boot_probe_cpu_info p1 x = boot_probe_cpu_info p2 x)
  /\ (forall x, boot_probe_cache_topology p1 x = boot_probe_cache_topology p2 x)
  /\ boot_probe_cpu_count p1 = boot_probe_cpu_count p2
  /\ boot_probe_numa_node_count p1 = boot_probe_numa_node_count p2
  /\ boot_probe_smt_enabled p1 = boot_probe_smt_enabled p2
  /\ boot_probe_threads_per_core p1 = boot_probe_threads_per_core p2
  /\ (forall x, boot_probe_constant_time_support p1 x
                = boot_probe_constant_time_support p2 x)
  /\ (forall x, boot_probe_cache_control p1 x = boot_probe_cache_control p2 x)
  /\ (forall x, boot_probe_memory_protection p1 x
                = boot_probe_memory_protection p2 x)
  /\ (forall x, boot_probe_side_channel_mitigation p1 x
                = boot_probe_side_channel_mitigation p2 x)
  /\ boot_probe_trng_available p1 = boot_probe_trng_available p2
  /\ boot_probe_total_memory_mb p1 = boot_probe_total_memory_mb p2
  /\ boot_probe_uefi_boot p1 = boot_probe_uefi_boot p2
  /\ boot_probe_secure_boot_enabled p1 = boot_probe_secure_boot_enabled p2.

(** ** The probe result as a function of the provider's responses *)

(** The effect on the record of one provider response, as [boot_probe]
    processes it. *)

Definition apply_event (e : probe_event) (f : boot_facts_t) : boot_facts_t :=
  match e with
  | EvCpuInfo r _ => set_cpu_info r f
  | EvCacheTopology r _ => set_cache_topology r f
  | EvCpuCount n => set_cpu_count n f
  | EvNumaNodeCount n =>
      let f := set_numa_nodes n f in
      if n =? 0 then set_numa_nodes 1 f else f
  | EvSmtEnabled b =>
      let f := set_smt_enabled b f in
      if b then f else set_threads_per_core 1 f
  | EvThreadsPerCore n => set_threads_per_core n f
  | EvConstantTime r ok =>
      let f := set_constant_time r f in
      let f := if ok then f
               else set_constant_time (clear_constant_time_valid r) f in
      set_constant_time_supported
        (constant_time_valid (constant_time f) && aes_ni (constant_time f)
         && rdrand (constant_time f)) f
  | EvCacheControl r ok =>
      let f := set_cache_control r f in
      let f := if ok then f
               else set_cache_control (clear_cache_control_valid r) f in
      set_cache_partitioning_supported
        (cache_control_valid (cache_control f)
         && (cat (cache_control f) || cdp (cache_control f))) f
  | EvMemoryProtection r ok =>
      let f := set_memory_protection r f in
      let f := if ok then f
               else set_memory_protection (clear_memory_protection_valid r) f in
      set_memory_encryption_supported
        (memory_protection_valid (memory_protection f)
         && tme (memory_protection f)) f
  | EvSideChannel r ok =>
      let f := set_side_channel_mitigation r f in
      let f := if ok then f
               else set_side_channel_mitigation (clear_side_channel_valid r) f in
      set_side_channel_mitigations_available
        (side_channel_valid (side_channel_mitigation f)
         && ibrs (side_channel_mitigation f)
         && stibp (side_channel_mitigation f)) f
  | EvTrng b => set_trng_available b f
  | EvTotalMemory n => set_total_memory_mb n f
  | EvUefiBoot b => set_uefi_boot b f
  | EvSecureBoot b => set_probed true (set_secure_boot_enabled b f)
  end.

(** The probe ran to completion iff its last call was the secure-boot
    query. *)

Definition completed (tr : list probe_event) : bool :=
  match last tr with
  | Some (EvSecureBoot _) => true
  | _ => false
  end.

Definition replay (tr : list probe_event) (facts : boot_facts_t)
  : bool * boot_facts_t :=
  (completed tr, fold_left (fun f e => apply_event e f) tr facts).

(** The whole life cycle on one provider: init, probe, validate, seal. *)

Definition empty_ctx : boot_validation_context_t :=
  mk_ctx [] 0 BOOT_VALIDATION_ACCEPT.

Definition boot_all (p : probe_provider) (facts : boot_facts_t)
  : boot_facts_t :=
  let facts := boot_init facts in
  let facts := snd (boot_probe p facts) in
  let facts := snd (fst (boot_validate facts empty_ctx)) in
  snd (boot_seal facts).

(** Memory before [boot_init] holds anything at all; this record stands
    for it in the examples. *)

Definition uninitialised : boot_facts_t :=
  mk_boot_facts (mk_cpu_info CPU_VENDOR_AMD 23 1 1 "junk" true)
    (mk_cache_topology [] 9) 77 5 true 3
    (mk_constant_time true false true false true true) true
    (mk_cache_control false false false true false true) true
    (mk_memory_protection true true false false true true) true
    (mk_side_channel true true false false true) true
    true 123 true true true true true.

Definition sealed_reference : boot_facts_t :=
  Eval vm_compute in boot_all reference_machine uninitialised.

Definition validated_reference : boot_facts_t :=
  Eval vm_compute in
    run_op (OpValidate empty_ctx)
      (run_op (OpProbe reference_machine) (boot_init uninitialised)).

(** The reference machine with two hardware threads per core. *)

Definition smt_reference : boot_facts_t :=
  Eval vm_compute in
    run_op (OpProbe (quad_core true 2 true)) (boot_init uninitialised).

(** The reference machine with the weak default for the NUMA count. *)

Definition numa_less : probe_provider :=
  {| boot_probe_cpu_info := boot_probe_cpu_info reference_machine;
     boot_probe_cache_topology := boot_probe_cache_topology reference_machine;
     boot_probe_cpu_count := 4;
     boot_probe_numa_node_count := boot_probe_numa_node_count weak_defaults;
     boot_probe_smt_enabled := false;
     boot_probe_threads_per_core := 1;
     boot_probe_constant_time_support :=
       boot_probe_constant_time_support reference_machine;
     boot_probe_cache_control := boot_probe_cache_control reference_machine;
     boot_probe_memory_protection :=
       boot_probe_memory_protection reference_machine;
     boot_probe_side_channel_mitigation :=
       boot_probe_side_channel_mitigation reference_machine;
     boot_probe_trng_available := true;
     boot_probe_total_memory_mb := 8192;
     boot_probe_uefi_boot := true;
     boot_probe_secure_boot_enabled := true |}.

Definition numa_less_record : boot_facts_t :=
  Eval vm_compute in run_op (OpProbe numa_less) (boot_init uninitialised).

(** Probing again, before the seal, on a machine with one core. *)

Definition reprobed_single_core : boot_facts_t :=
  Eval vm_compute in run_op (OpProbe single_core) validated_reference.

End Boot.

(** * Topology ([topology/topology_contract.h]) *)

Module Topology.

Definition MAX_CORES : nat := 256.
Definition MAX_CACHE_LEVELS : nat := 4.
Definition MAX_NUMA_NODES : nat := 8.

(** A core id ([core_id_t]) indexes the arrays of [MAX_CORES] entries; it
    is a [nat] here. *)

Definition core_id_t : Type := nat.

Inductive cache_type_t : Type :=
| CACHE_TYPE_NONE
| CACHE_TYPE_DATA
| CACHE_TYPE_INSTRUCTION
| CACHE_TYPE_UNIFIED.

Record cache_level_t : Type := mk_cache_level {
  type : cache_type_t;
  size_bytes : Z;
  line_size : Z;
  associativity : Z;
  shared : bool;
  sharing_count : Z;
  shared_with : list core_id_t
}.

Record cache_hierarchy_t : Type := mk_cache_hierarchy {
  levels : list cache_level_t;
  level_count : Z
}.

Record core_geometry_t : Type := mk_core_geometry {
  physical_core : core_id_t;
  online : bool;
  isolated : bool;
  socket_id : Z;
  package_id : Z;
  l1_domain : Z;
  l2_domain : Z;
  l3_domain : Z;
  cache_hierarchy : cache_hierarchy_t;
  numa_node : Z;
  numa_distance : list Z;
  has_smt : bool;
  smt_sibling : core_id_t;
  base_freq_mhz : Z;
  max_freq_mhz : Z;
  freq_scaling_disabled : bool;
  supports_constant_time : bool;
  supports_cache_partitioning : bool;
  supports_memory_encryption : bool;
  core_probed : bool;
  core_validated : bool
}.

Inductive cache_isolation_level_t : Type :=
| CACHE_ISOLATED_NONE
| CACHE_ISOLATED_L1
| CACHE_ISOLATED_L2
| CACHE_ISOLATED_L3
| CACHE_ISOLATED_FULL.

Definition isolation_rank (l : cache_isolation_level_t) : Z :=
  match l with
  | CACHE_ISOLATED_NONE => 0
  | CACHE_ISOLATED_L1 => 1
  | CACHE_ISOLATED_L2 => 2
  | CACHE_ISOLATED_L3 => 3
  | CACHE_ISOLATED_FULL => 4
  end.

(** [isolation] is the array [isolation[MAX_CORES][MAX_CORES]]. *)

Record cache_isolation_matrix_t : Type := mk_matrix {
  isolation : list (list cache_isolation_level_t);
  computed : bool;
  matrix_sealed : bool
}.

Inductive topology_validation_result_t : Type :=
| TOPOLOGY_VALIDATION_ACCEPT
| TOPOLOGY_VALIDATION_WARN
| TOPOLOGY_VALIDATION_HARD_FAIL.

Record topology_state_t : Type := mk_topology {
  cores : list core_geometry_t;
  core_count : nat;
  numa_node_count : Z;
  cache_isolation : cache_isolation_matrix_t;
  supports_smt : bool;
  supports_numa : bool;
  topo_supports_cache_partitioning : bool;
  symmetric : bool;
  probed : bool;
  validated : bool;
  sealed : bool;
  boot_facts : Boot.boot_facts_t
}.

(** ** The isolation matrix as an array *)

Definition matrix_get (M : list (list cache_isolation_level_t))
    (i j : nat) : cache_isolation_level_t :=
  default CACHE_ISOLATED_NONE (M !! i ≫= (fun row => row !! j)).

(** [M[i][j] = v] *)

Definition matrix_set (M : list (list cache_isolation_level_t))
    (i j : nat) (v : cache_isolation_level_t)
  : list (list cache_isolation_level_t) :=
  alter (fun row => <[j := v]> row) i M.

Definition zero_core : core_geometry_t :=
  mk_core_geometry 0%nat false false 0 0 0 0 0 (mk_cache_hierarchy [] 0) 0
    (replicate MAX_NUMA_NODES 0) false 0%nat 0 0 false false false false
    false false.

Definition zero_isolation : list (list cache_isolation_level_t) :=
  replicate MAX_CORES (replicate MAX_CORES CACHE_ISOLATED_NONE).

Definition zero_matrix : cache_isolation_matrix_t :=
  mk_matrix zero_isolation false false.

Definition core_at (cs : list core_geometry_t) (i : nat) : core_geometry_t :=
  default zero_core (cs !! i).

(** ** Operations

    [topology_contract.h] declares the operations below and states what
    each requires and ensures; their definitions are not among the
    sources. *)

(** Modelled from the spec: [topology_init] is only declared.  It
    requires sealed boot facts (it fails on unsealed ones), zeroes the
    geometry array and the matrix and keeps the reference to the boot
    facts. *)

Definition topology_init (topology : topology_state_t)
    (boot : Boot.boot_facts_t) : bool * topology_state_t :=
  if negb (Boot.sealed boot) then (false, topology)
  else
    (true,
     {| cores := replicate MAX_CORES zero_core;
        core_count := 0;
        numa_node_count := 0;
        cache_isolation := zero_matrix;
        supports_smt := false; supports_numa := false;
        topo_supports_cache_partitioning := false; symmetric := false;
        probed := false; validated := false; sealed := false;
        boot_facts := boot |}).

Definition with_cores (cs : list core_geometry_t) (n : nat) (pr : bool)
    (t : topology_state_t) : topology_state_t :=
  {| cores := cs; core_count := n;
     numa_node_count := numa_node_count t;
     cache_isolation := cache_isolation t;
     supports_smt := supports_smt t; supports_numa := supports_numa t;
     topo_supports_cache_partitioning := topo_supports_cache_partitioning t;
     symmetric := symmetric t;
     probed := pr; validated := validated t;
     sealed := sealed t; boot_facts := boot_facts t |}.

Definition with_matrix (m : cache_isolation_matrix_t)
    (t : topology_state_t) : topology_state_t :=
  {| cores := cores t; core_count := core_count t;
     numa_node_count := numa_node_count t;
     cache_isolation := m;
     supports_smt := supports_smt t; supports_numa := supports_numa t;
     topo_supports_cache_partitioning := topo_supports_cache_partitioning t;
     symmetric := symmetric t;
     probed := probed t; validated := validated t;
     sealed := sealed t; boot_facts := boot_facts t |}.

Definition set_topo_validated (v : bool) (t : topology_state_t)
  : topology_state_t :=
  {| cores := cores t; core_count := core_count t;
     numa_node_count := numa_node_count t;
     cache_isolation := cache_isolation t;
     supports_smt := supports_smt t; supports_numa := supports_numa t;
     topo_supports_cache_partitioning := topo_supports_cache_partitioning t;
     symmetric := symmetric t;
     probed := probed t; validated := v;
     sealed := sealed t; boot_facts := boot_facts t |}.

(** Sealing fixes the matrix together with the topology. *)

Definition set_topo_sealed (t : topology_state_t) : topology_state_t :=
  {| cores := cores t; core_count := core_count t;
     numa_node_count := numa_node_count t;
     cache_isolation :=
       mk_matrix (isolation (cache_isolation t))
                 (computed (cache_isolation t)) true;
     supports_smt := supports_smt t; supports_numa := supports_numa t;
     topo_supports_cache_partitioning := topo_supports_cache_partitioning t;
     symmetric := symmetric t;
     probed := probed t; validated := validated t;
     sealed := true; boot_facts := boot_facts t |}.

(** The architecture layer's answer for one core: its geometry, or
    nothing when the core cannot be probed. *)

Definition geometry_provider : Type := core_id_t -> option core_geometry_t.

(** [cores[core_id].probed = true] *)

Definition mark_probed (g : core_geometry_t) : core_geometry_t :=
  mk_core_geometry (physical_core g) (online g) (isolated g) (socket_id g)
    (package_id g) (l1_domain g) (l2_domain g) (l3_domain g)
    (cache_hierarchy g) (numa_node g) (numa_distance g) (has_smt g)
    (smt_sibling g) (base_freq_mhz g) (max_freq_mhz g)
    (freq_scaling_disabled g) (supports_constant_time g)
    (supports_cache_partitioning g) (supports_memory_encryption g)
    true (core_validated g).

(** Modelled from the spec: [topology_probe_core] is only declared.  It
    populates [cores[core_id]] with the hardware facts of that core; like
    every modifying operation it fails closed on a sealed topology. *)

Definition topology_probe_core (hw : geometry_provider)
    (topology : topology_state_t) (core_id : core_id_t)
  : bool * topology_state_t :=
  if sealed topology then (false, topology)
  else if negb (core_id <? MAX_CORES)%nat then (false, topology)
  else
    match hw core_id with
    | None => (false, topology)
    | Some g =>
        (true,
         with_cores (<[core_id := mark_probed g]> (cores topology))
                    (core_count topology) (probed topology) topology)
    end.

(** Probe the listed cores in order, stopping at the first failure. *)

Fixpoint probe_cores_from (hw : geometry_provider)
    (topology : topology_state_t) (ids : list core_id_t)
  : bool * topology_state_t :=
  match ids with
  | [] => (true, topology)
  | id :: ids' =>
      match topology_probe_core hw topology id with
      | (true, topology') => probe_cores_from hw topology' ids'
      | (false, topology') => (false, topology')
      end
  end.

Definition boot_core_count (topology : topology_state_t) : nat :=
  Z.to_nat (Boot.cpu_count (boot_facts topology)).

(** Modelled from the spec: [topology_probe_all_cores] is only declared.
    It probes every core in [0 .. boot.cpu_count) and ensures that all
    cores are probed, or reports the error; a count above [MAX_CORES] is an
    error, not a truncation. *)

Definition topology_probe_all_cores (hw : geometry_provider)
    (topology : topology_state_t) : bool * topology_state_t :=
  if sealed topology then (false, topology)
  else if negb (boot_core_count topology <=? MAX_CORES)%nat
  then (false, topology)
  else
    match probe_cores_from hw topology (seq 0 (boot_core_count topology)) with
    | (true, t) => (true, with_cores (cores t) (boot_core_count topology) true t)
    | (false, t) => (false, t)
    end.

(** Modelled from the spec: the entry of the isolation matrix for two
    different cores is the deepest level at which their cache-domain ids
    differ (private L1 and L2 under a shared L3 give [CACHE_ISOLATED_L2]). *)

Definition isolation_between (a b : core_geometry_t)
  : cache_isolation_level_t :=
  if negb (l3_domain a =? l3_domain b) then CACHE_ISOLATED_L3
  else if negb (l2_domain a =? l2_domain b) then CACHE_ISOLATED_L2
  else if negb (l1_domain a =? l1_domain b) then CACHE_ISOLATED_L1
  else CACHE_ISOLATED_NONE.

(** The body of the inner loop: the entry for the pair [(i, j)], written
    on both sides of the diagonal. *)

Definition write_pair (cs : list core_geometry_t)
    (M : list (list cache_isolation_level_t)) (i j : nat)
  : list (list cache_isolation_level_t) :=
  let v := if (i =? j)%nat then CACHE_ISOLATED_FULL
           else isolation_between (core_at cs i) (core_at cs j) in
  matrix_set (matrix_set M i j v) j i v.

(** [for (j = i; j < n; j++)] *)

Definition fill_row (cs : list core_geometry_t) (n i : nat)
    (M : list (list cache_isolation_level_t))
  : list (list cache_isolation_level_t) :=
  foldl (fun M j => write_pair cs M i j) M (seq i (n - i)).

(** [for (i = 0; i < n; i++)] *)

Definition fill_matrix (cs : list core_geometry_t) (n : nat)
    (M : list (list cache_isolation_level_t))
  : list (list cache_isolation_level_t) :=
  foldl (fun M i => fill_row cs n i M) M (seq 0 n).

(** Modelled from the spec: [topology_build_cache_isolation_matrix] is
    only declared.  It requires all cores probed; for every pair [(i, j)]
    with [i <= j] it computes the level and writes it symmetrically, with
    Full on the diagonal; afterwards the matrix is [computed]. *)

Definition topology_build_cache_isolation_matrix
    (topology : topology_state_t) : bool * topology_state_t :=
  if sealed topology then (false, topology)
  else if negb (probed topology) then (false, topology)
  else
    let m := cache_isolation topology in
    (true,
     with_matrix
       (mk_matrix
          (fill_matrix (cores topology) (core_count topology) (isolation m))
          true (matrix_sealed m))
       topology).

Section Validator.

(** The check list of [topology_validate] only reads the topology, and
    its verdict is a parameter here. *)

Variable topology_checks : topology_state_t -> topology_validation_result_t.

(** Modelled from the spec: [topology_validate] is only declared.  It
    returns the worst severity of its check list and marks the topology
    validated unless that is a hard failure. *)

Definition topology_validate (topology : topology_state_t)
  : topology_validation_result_t * topology_state_t :=
  if sealed topology then (topology_checks topology, topology)
  else
    match topology_checks topology with
    | TOPOLOGY_VALIDATION_HARD_FAIL =>
        (TOPOLOGY_VALIDATION_HARD_FAIL, topology)
    | r => (r, set_topo_validated true topology)
    end.

(** Modelled from the spec: [topology_seal] is only declared.  It
    requires [validated] and [cache_isolation.computed], is one-way, and
    fixes the matrix. *)

Definition topology_seal (topology : topology_state_t)
  : bool * topology_state_t :=
  if negb (validated topology) then (false, topology)
  else if negb (computed (cache_isolation topology)) then (false, topology)
  else if sealed topology then (false, topology)
  else (true, set_topo_sealed topology).

(** Modelled from the spec: [topology_get_cache_isolation] is only
    declared.  It is the O(1) lookup of [isolation[core_a][core_b]]; ids
    outside the array read as [CACHE_ISOLATED_NONE]. *)

Definition topology_get_cache_isolation (topology : topology_state_t)
    (core_a core_b : core_id_t) : cache_isolation_level_t :=
  matrix_get (isolation (cache_isolation topology)) core_a core_b.

(** Modelled from the spec: [topology_can_isolate_cores] is only
    declared.  It is true iff the matrix entry meets the required level. *)

Definition topology_can_isolate_cores (topology : topology_state_t)
    (core_a core_b : core_id_t) (required_level : cache_isolation_level_t)
  : bool :=
  isolation_rank required_level
    <=? isolation_rank (topology_get_cache_isolation topology core_a core_b).

(** ** The topology operations as a transition system *)

Inductive topology_op : Type :=
| TInit (boot : Boot.boot_facts_t)
| TProbeCore (hw : geometry_provider) (core_id : core_id_t)
| TProbeAll (hw : geometry_provider)
| TBuildMatrix
| TValidate
| TSeal.

Definition run_topology_op (op : topology_op) (t : topology_state_t)
  : topology_state_t :=
  match op with
  | TInit boot => snd (topology_init t boot)
  | TProbeCore hw id => snd (topology_probe_core hw t id)
  | TProbeAll hw => snd (topology_probe_all_cores hw t)
  | TBuildMatrix => snd (topology_build_cache_isolation_matrix t)
  | TValidate => snd (topology_validate t)
  | TSeal => snd (topology_seal t)
  end.

(** A topology in use: one that [topology_init] accepted, followed by any
    number of operations. *)

Inductive topology_reachable : topology_state_t -> Prop :=
| treach_init (t0 : topology_state_t) (boot : Boot.boot_facts_t) :
    Boot.sealed boot = true ->
    topology_reachable (snd (topology_init t0 boot))
| treach_step (op : topology_op) (t : topology_state_t) :
    topology_reachable t -> topology_reachable (run_topology_op op t).

End Validator.

(** ** Invariants of the matrix *)

Definition square (M : list (list cache_isolation_level_t)) : Prop :=
  length M = MAX_CORES /\ Forall (fun row => length row = MAX_CORES) M.

Definition matrix_symmetric (M : list (list cache_isolation_level_t))
  : Prop :=
  forall i j, matrix_get M i j = matrix_get M j i.

Definition diagonal_full (M : list (list cache_isolation_level_t))
    (n : nat) : Prop :=
  forall i, (i < n)%nat -> matrix_get M i i = CACHE_ISOLATED_FULL.

Definition good (M : list (list cache_isolation_level_t)) : Prop :=
  square M /\ matrix_symmetric M.

(** What holds of every topology in use. *)

Record topology_inv (t : topology_state_t) : Prop := mk_topology_inv {
  inv_square : square (isolation (cache_isolation t));
  inv_symmetric : matrix_symmetric (isolation (cache_isolation t));
  inv_bound : (core_count t <= MAX_CORES)%nat;
  inv_count : probed t = true -> core_count t = boot_core_count t;
  inv_probed : computed (cache_isolation t) = true -> probed t = true;
  inv_diagonal :
    computed (cache_isolation t) = true ->
    diagonal_full (isolation (cache_isolation t)) (core_count t);
  inv_sealed : sealed t = true -> computed (cache_isolation t) = true
}.

(** ** The four cores of the minimal-pass scenario

    Private L1 and L2, one L3 shared by all four cores. *)

Definition quad_geometry : geometry_provider :=
  fun id =>
    if (id <? 4)%nat then
      Some (mk_core_geometry id true true 0 0 (Z.of_nat id) (Z.of_nat id) 0
              (mk_cache_hierarchy [] 3) 0 (replicate MAX_NUMA_NODES 10)
              false 0%nat 3000 3000 true true true true false false)
    else None.

Definition accept_all (_ : topology_state_t) : topology_validation_result_t :=
  TOPOLOGY_VALIDATION_ACCEPT.

Definition quad_lifecycle (t0 : topology_state_t) : topology_state_t :=
  run_topology_op accept_all TSeal
    (run_topology_op accept_all TValidate
       (run_topology_op accept_all TBuildMatrix
          (run_topology_op accept_all (TProbeAll quad_geometry)
             (snd (topology_init t0 Boot.sealed_reference))))).

Definition blank_topology : topology_state_t :=
  mk_topology [] 0 0 (mk_matrix [] false false) false false false false
    false false false Boot.uninitialised.

End Topology.

(** * Error reporting ([boot/early_init.c]) *)

Module BootReport.

Import Boot.

Definition boot_error_string (error : boot_error_t) : string :=
  match error with
  | BOOT_ERROR_NONE => "No error"
  | BOOT_ERROR_CPU_DETECTION_FAILED => "CPU detection failed"
  | BOOT_ERROR_CACHE_DETECTION_FAILED => "Cache detection failed"
  | BOOT_ERROR_NUMA_DETECTION_FAILED => "NUMA detection failed"
  | BOOT_ERROR_TOO_FEW_CORES => "Too few cores for Phase-1"
  | BOOT_ERROR_NO_CACHE => "No cache hierarchy detected"
  | BOOT_ERROR_NO_NUMA => "No NUMA detected"
  | BOOT_ERROR_NO_CONSTANT_TIME_SUPPORT =>
      "Constant-time operations not supported"
  | BOOT_ERROR_NO_CACHE_CONTROL => "Cache control not available"
  | BOOT_ERROR_NO_MEMORY_PROTECTION => "Memory protection features missing"
  | BOOT_ERROR_NO_SIDE_CHANNEL_MITIGATION =>
      "Side-channel mitigations unavailable"
  | BOOT_ERROR_NO_TRNG => "Hardware TRNG not available"
  | BOOT_ERROR_SMT_ENABLED_NOT_ALLOWED =>
      "SMT is enabled (may violate security requirements)"
  | BOOT_ERROR_FREQ_SCALING_ENABLED => "Frequency scaling is enabled"
  | BOOT_ERROR_SECURE_BOOT_DISABLED => "Secure boot is disabled"
  | BOOT_WARN_ASYMMETRIC_CORES => "Warning: Asymmetric core configuration"
  | BOOT_WARN_NUMA_DISABLED => "Warning: NUMA disabled or not present"
  | BOOT_WARN_OLD_MICROCODE => "Warning: Microcode may be outdated"
  end.

(** The text of the [default] branch, for codes outside the enum. *)

Definition unknown_error_string : string := "Unknown error".

(** [boot_validation_context_print] writes a summary line, a result line
    and one line per error in use.  The output is the list of lines
    written (each without its newline); [%u] is the decimal numeral. *)

Definition result_line (r : boot_validation_result_t) : string :=
  match r with
  | BOOT_VALIDATION_ACCEPT => "Result: ACCEPT"
  | BOOT_VALIDATION_WARN => "Result: WARN"
  | BOOT_VALIDATION_HARD_FAIL => "Result: HARD_FAIL"
  end.

Definition error_line (ctx : boot_validation_context_t) (i : nat) : string :=
  ("  [" ++ pretty i ++ "] "
   ++ boot_error_string (default BOOT_ERROR_NONE (errors ctx !! i)))%string.

Definition boot_validation_context_print (ctx : boot_validation_context_t)
  : list string :=
  ("Boot validation summary: " ++ pretty (error_count ctx) ++ " error(s)")%string
  :: result_line (worst_result ctx)
  :: map (error_line ctx) (seq 0 (Z.to_nat (error_count ctx))).

(** A whole sequence of [boot_validation_context_add_error] calls. *)

Definition add_errors (ctx : boot_validation_context_t)
    (l : list (boot_error_t * boot_validation_result_t))
  : boot_validation_context_t :=
  fold_left (fun c es => boot_validation_context_add_error c (fst es) (snd es))
            l ctx.

End BootReport.

(** * The x86_64 probe back-end ([arch/x86_64/boot_probe.c])

    [hw leaf subleaf] stands for the [CPUID] instruction.  The helper
    [cpuid] stores the four registers in [uint32_t] variables. *)

Module X86Probe.

Import Boot.

Section Hardware.

Variable hw : Z -> Z -> Z * Z * Z * Z.

Definition cpuid (leaf subleaf : Z) : Z * Z * Z * Z :=
  let '(eax, ebx, ecx, edx) := hw leaf subleaf in
  (u32 eax, u32 ebx, u32 ecx, u32 edx).

Definition cpuid_available : bool := true.

(** [(x >> k) & 0x1], read as a flag. *)

Definition bit (x k : Z) : bool := negb (Z.land (Z.shiftr x k) 1 =? 0).

(** *** Strings in memory *)

(** The four bytes of a register in memory (little endian). *)

Definition reg_bytes (r : Z) : list Z :=
  [Z.land r 255; Z.land (Z.shiftr r 8) 255; Z.land (Z.shiftr r 16) 255;
   Z.land (Z.shiftr r 24) 255].

(** The little-endian register value holding four bytes. *)

Definition word_of (a b c d : Z) : Z :=
  a + 256 * b + 65536 * c + 16777216 * d.

(** The C string that starts at the head of a buffer: the bytes before
    the first NUL. *)

Fixpoint c_string (buf : list Z) : list Z :=
  match buf with
  | [] => []
  | b :: buf' => if b =? 0 then [] else b :: c_string buf'
  end.

Definition bytes_of_string (s : string) : list Z :=
  map (fun a => Z.of_nat (Ascii.nat_of_ascii a)) (list_ascii_of_string s).

Definition string_of_bytes (l : list Z) : string :=
  string_of_list_ascii (map (fun b => Ascii.ascii_of_nat (Z.to_nat b)) l).

(** [strcmp(a, b) == 0] *)

Definition strcmp_eq (a b : list Z) : bool :=
  bool_decide (c_string a = c_string b).

(** [while ( *p == ' ') p++;] *)

Fixpoint skip_spaces (buf : list Z) : list Z :=
  match buf with
  | [] => []
  | b :: buf' => if b =? 32 then skip_spaces buf' else buf
  end.

(** *** CPU information *)

Definition boot_probe_cpu_info (info : cpu_info_t) : cpu_info_t * bool :=
  if negb cpuid_available then (info, false)
  else
    let '(eax, ebx, ecx, edx) := cpuid 0 0 in
    let max_leaf := eax in
    (* char vendor[13] = {0}; three memcpy of four bytes *)
    let vendor_buf := reg_bytes ebx ++ reg_bytes edx ++ reg_bytes ecx ++ [0] in
    let v :=
      if strcmp_eq vendor_buf (bytes_of_string "GenuineIntel" ++ [0])
      then CPU_VENDOR_INTEL
      else if strcmp_eq vendor_buf (bytes_of_string "AuthenticAMD" ++ [0])
      then CPU_VENDOR_AMD
      else CPU_VENDOR_UNKNOWN in
    let '(fam, mdl, stp) :=
      if max_leaf >=? 1 then
        let '(eax, _, _, _) := cpuid 1 0 in
        let stepping := Z.land eax 15 in
        let model := Z.land (Z.shiftr eax 4) 15 in
        let family := Z.land (Z.shiftr eax 8) 15 in
        let ext_model := Z.land (Z.shiftr eax 16) 15 in
        let ext_family := Z.land (Z.shiftr eax 20) 255 in
        (if family =? 15 then u32 (family + ext_family) else family,
         if (family =? 15) || (family =? 6)
         then Z.lor (u32 (Z.shiftl ext_model 4)) model else model,
         stepping)
      else (Boot.family info, Boot.model info, Boot.stepping info) in
    let brand :=
      if max_leaf >=? 2147483652 then
        let '(b0, b1, b2, b3) := cpuid 2147483650 0 in
        let '(b4, b5, b6, b7) := cpuid 2147483651 0 in
        let '(b8, b9, b10, b11) := cpuid 2147483652 0 in
        (* memcpy of 48 bytes, then brand_string[48] = 0 *)
        let buf :=
          concat (map reg_bytes [b0; b1; b2; b3; b4; b5; b6; b7; b8; b9;
                                 b10; b11]) ++ [0] in
        (* memmove(brand_string, p, strlen(p) + 1) *)
        string_of_bytes (c_string (skip_spaces buf))
      else "Unknown CPU"%string in
    (mk_cpu_info v fam mdl stp brand true, true).

(** *** Cache topology *)

Definition MAX_CACHE_LEVELS : Z := Z.of_nat Topology.MAX_CACHE_LEVELS.

Definition with_level_count_zero (cache : cache_topology_t)
  : cache_topology_t :=
  mk_cache_topology (levels cache) 0.

(** The entry written for a sub-leaf of leaf 4, from its registers. *)

Definition cache_entry (eax ebx ecx edx : Z) : cache_info_t :=
  let lvl := u32 (Z.land (Z.shiftr eax 5) 7 + 1) in
  let line := u32 (Z.land ebx 4095 + 1) in
  let w := u32 (Z.land (Z.shiftr ebx 22) 1023 + 1) in
  let sets := u32 (ecx + 1) in
  mk_cache_info lvl line w (u32 (w * line * sets) / 1024)
    (bit eax 14) (bit edx 1) true.

(** One round of the loop over the sub-leaves of leaf 4; [None] is the
    [break]. *)

Definition cache_level_step (i : Z) (cache : cache_topology_t)
  : option cache_topology_t :=
  let '(eax, ebx, ecx, edx) := cpuid 4 i in
  let cache_type := Z.land eax 31 in
  if cache_type =? 0 then None
  else
    Some (mk_cache_topology
            (<[Z.to_nat (level_count cache) := cache_entry eax ebx ecx edx]>
               (levels cache))
            (u32 (level_count cache + 1))).

Fixpoint cache_level_loop (subleaves : list Z) (cache : cache_topology_t)
  : cache_topology_t :=
  match subleaves with
  | [] => cache
  | i :: rest =>
      match cache_level_step i cache with
      | None => cache
      | Some cache' => cache_level_loop rest cache'
      end
  end.

Definition boot_probe_cache_topology (cache : cache_topology_t)
  : cache_topology_t * bool :=
  let cache := with_level_count_zero cache in
  let '(eax, _, _, _) := cpuid 0 0 in
  let max_leaf := eax in
  let cache :=
    if max_leaf >=? 4
    then cache_level_loop (map Z.of_nat (seq 0 (Z.to_nat MAX_CACHE_LEVELS)))
                          cache
    else cache in
  (cache, level_count cache >? 0).

(** *** Core count, NUMA *)

Definition boot_probe_cpu_count : Z :=
  let '(eax, _, _, _) := cpuid 0 0 in
  let max_leaf := eax in
  if max_leaf >=? 11 then
    let '(_, ebx, _, _) := cpuid 11 1 in
    Z.land ebx 65535
  else if max_leaf >=? 1 then
    let '(_, ebx, _, _) := cpuid 1 0 in
    Z.land (Z.shiftr ebx 16) 255
  else 0.

Definition boot_probe_numa_node_count : Z :=
  let '(eax, _, _, _) := cpuid 2147483648 0 in
  if eax >=? 2147483678 then
    let '(_, _, ecx, _) := cpuid 2147483678 0 in
    let nodes := u32 (Z.land (Z.shiftr ecx 8) 7 + 1) in
    if nodes >? 0 then nodes else 1
  else 1.

(** *** Feature groups *)

Definition boot_probe_constant_time_support (ct : constant_time_support_t)
  : constant_time_support_t * bool :=
  let '(_, _, ecx, _) := cpuid 1 0 in
  let aes := bit ecx 25 in
  let rdr := bit ecx 30 in
  let '(eax, _, _, _) := cpuid 0 0 in
  let rds :=
    if eax >=? 7 then let '(_, ebx, _, _) := cpuid 7 0 in bit ebx 18
    else false in
  (mk_constant_time aes rdr rds true true true, true).

Definition boot_probe_cache_control (cache_ctrl : cache_control_t)
  : cache_control_t * bool :=
  let '(_, _, _, edx) := cpuid 1 0 in
  let flush := bit edx 19 in
  let '(eax, _, _, _) := cpuid 0 0 in
  let '(flushopt, wb) :=
    if eax >=? 7 then
      let '(_, ebx, _, _) := cpuid 7 0 in (bit ebx 23, bit ebx 24)
    else (false, false) in
  let '(eax, _, _, _) := cpuid 0 0 in
  let '(cat_, cdp_) :=
    if eax >=? 16 then
      let '(_, ebx, _, _) := cpuid 16 0 in (bit ebx 1, bit ebx 2)
    else (false, false) in
  (mk_cache_control flush flushopt wb cat_ cdp_ true, true).

Definition boot_probe_memory_protection (mem_prot : memory_protection_t)
  : memory_protection_t * bool :=
  let '(_, _, _, edx) := cpuid 2147483649 0 in
  let nx_ := bit edx 20 in
  let '(eax, _, _, _) := cpuid 0 0 in
  let '(smep_, smap_, pku_) :=
    if eax >=? 7 then
      let '(_, ebx, ecx, _) := cpuid 7 0 in
      (bit ebx 7, bit ebx 20, bit ecx 3)
    else (false, false, false) in
  let '(eax, _, _, _) := cpuid 0 0 in
  let tme_ :=
    if eax >=? 7 then let '(_, _, ecx, _) := cpuid 7 0 in bit ecx 13
    else false in
  (mk_memory_protection nx_ smep_ smap_ pku_ tme_ true, true).

(** The second test of [eax >= 7] reads the variable after the call for
    leaf 7 has overwritten it. *)

Definition boot_probe_side_channel_mitigation (scm : side_channel_mitigation_t)
  : side_channel_mitigation_t * bool :=
  let '(eax, _, _, edx) := cpuid 0 0 in
  let '(eax, edx, ibrs_, stibp_, ssbd_) :=
    if eax >=? 7 then
      let '(eax, _, _, edx) := cpuid 7 0 in
      (eax, edx, bit edx 26, bit edx 27, bit edx 31)
    else (eax, edx, false, false, false) in
  let md :=
    if eax >=? 7 then let '(_, _, _, edx) := cpuid 7 0 in bit edx 10
    else false in
  (mk_side_channel ibrs_ stibp_ ssbd_ md true, true).

(** *** TRNG, memory, boot mode *)

Definition boot_probe_trng_available : bool :=
  let '(_, _, ecx, _) := cpuid 1 0 in
  let rdrand_ := bit ecx 30 in
  let '(eax, _, _, _) := cpuid 0 0 in
  let rdseed_ :=
    if eax >=? 7 then let '(_, ebx, _, _) := cpuid 7 0 in bit ebx 18
    else false in
  rdrand_ || rdseed_.

Definition boot_probe_total_memory_mb : Z := 8192.

Definition boot_probe_uefi_boot : bool := true.

Definition boot_probe_secure_boot_enabled : bool := false.

(** The highest basic leaf, and the cache type of a sub-leaf of leaf 4. *)

Definition max_basic_leaf : Z := let '(eax, _, _, _) := cpuid 0 0 in eax.

Definition cache_type_of (i : Z) : Z :=
  let '(eax, _, _, _) := cpuid 4 i in Z.land eax 31.

Definition cache_entry_at (i : Z) : cache_info_t :=
  let '(eax, ebx, ecx, edx) := cpuid 4 i in cache_entry eax ebx ecx edx.

(** *** The back-end as a provider *)

Definition provider : probe_provider :=
  {| Boot.boot_probe_cpu_info := boot_probe_cpu_info;
     Boot.boot_probe_cache_topology := boot_probe_cache_topology;
     Boot.boot_probe_cpu_count := boot_probe_cpu_count;
     Boot.boot_probe_numa_node_count := boot_probe_numa_node_count;
     Boot.boot_probe_smt_enabled := X86.boot_probe_smt_enabled cpuid;
     Boot.boot_probe_threads_per_core := X86.boot_probe_threads_per_core cpuid;
     Boot.boot_probe_constant_time_support := boot_probe_constant_time_support;
     Boot.boot_probe_cache_control := boot_probe_cache_control;
     Boot.boot_probe_memory_protection := boot_probe_memory_protection;
     Boot.boot_probe_side_channel_mitigation :=
       boot_probe_side_channel_mitigation;
     Boot.boot_probe_trng_available := boot_probe_trng_available;
     Boot.boot_probe_total_memory_mb := boot_probe_total_memory_mb;
     Boot.boot_probe_uefi_boot := boot_probe_uefi_boot;
     Boot.boot_probe_secure_boot_enabled := boot_probe_secure_boot_enabled |}.

End Hardware.

(** A four-core, eight-thread Intel part: family 6, model 0x9E, leaves up
    to 0x16, three cache levels, SMT through leaf 0xB. *)

Definition intel_cpuid (leaf subleaf : Z) : Z * Z * Z * Z :=
  if leaf =? 0 then (22, 1970169159, 1818588270, 1231384169)
  else if leaf =? 1 then
    (591594, Z.shiftl 8 16, Z.shiftl 1 25 + Z.shiftl 1 30,
     Z.shiftl 1 19 + Z.shiftl 1 28)
  else if leaf =? 4 then
    if subleaf =? 0 then (1 + Z.shiftl 1 5, 63 + Z.shiftl 7 22, 63, 0)
    else if subleaf =? 1 then (3 + Z.shiftl 2 5, 63 + Z.shiftl 3 22, 1023, 0)
    else if subleaf =? 2 then
      (3 + Z.shiftl 3 5 + Z.shiftl 1 14, 63 + Z.shiftl 15 22, 8191, 2)
    else (0, 0, 0, 0)
  else if leaf =? 7 then
    (0, Z.shiftl 1 7 + Z.shiftl 1 18 + Z.shiftl 1 20, Z.shiftl 1 3,
     Z.shiftl 1 10 + Z.shiftl 1 26 + Z.shiftl 1 27)
  else if leaf =? 11 then
    if subleaf =? 0 then (0, 2, 0, 0) else (0, 8, 0, 0)
  else (0, 0, 0, 0).

(** The same part with its basic leaves capped at 6. *)

Definition older_cpuid (leaf subleaf : Z) : Z * Z * Z * Z :=
  if leaf =? 0 then (6, 1970169159, 1818588270, 1231384169)
  else intel_cpuid leaf subleaf.

Definition older_record : Boot.boot_facts_t :=
  Eval vm_compute in
    snd (Boot.boot_probe (provider older_cpuid)
           (Boot.boot_init Boot.uninitialised)).

Definition intel_record : Boot.boot_facts_t :=
  Eval vm_compute in
    snd (Boot.boot_probe (provider intel_cpuid)
           (Boot.boot_init Boot.uninitialised)).

End X86Probe.

(** * Properties *)

Module BootProps.
Import Boot.

(** ** Machine integers *)

Lemma u64_range z : 0 <= u64 z < 2 ^ 64.
Proof. unfold u64. apply Z.mod_pos_bound. lia. Qed.

Lemma u32_range z : 0 <= u32 z < 2 ^ 32.
Proof. unfold u32. apply Z.mod_pos_bound. lia. Qed.

Lemma u32_id z : 0 <= z < 2 ^ 32 -> u32 z = z.
Proof. intros H. unfold u32. apply Z.mod_small. exact H. Qed.

(** ** Proof automation for [boot_probe] *)

Ltac unfold_probe :=
  unfold boot_probe, boot_probe_trace, boot_probe_run, boot_probe_body,
    bind, pure, return_, load, store, call_out, call_val in *.

(** Split on every provider response and every test that the body of
    [boot_probe] branches on. *)

Ltac split_call c :=
  let E := fresh "Ecall" in destruct c as [? []] eqn:E.

Ltac split_probe :=
  repeat (cbn -[u32 u64 Z.eqb];
          repeat match goal with
                 | H : ?c = (_, _) |- context [?c] => rewrite H
                 end;
          match goal with
          | |- context [boot_probe_cpu_info ?p ?x] =>
              split_call (boot_probe_cpu_info p x)
          | |- context [boot_probe_cache_topology ?p ?x] =>
              split_call (boot_probe_cache_topology p x)
          | |- context [boot_probe_constant_time_support ?p ?x] =>
              split_call (boot_probe_constant_time_support p x)
          | |- context [boot_probe_cache_control ?p ?x] =>
              split_call (boot_probe_cache_control p x)
          | |- context [boot_probe_memory_protection ?p ?x] =>
              split_call (boot_probe_memory_protection p x)
          | |- context [boot_probe_side_channel_mitigation ?p ?x] =>
              split_call (boot_probe_side_channel_mitigation p x)
          | |- context [negb true] => change (negb true) with false
          | |- context [negb false] => change (negb false) with true
          | |- context [if ?b then _ else _] =>
              let E := fresh "Etest" in destruct b eqn:E
          end);
  cbn -[u32 u64 Z.eqb].

(** ** Record updates *)

Lemma set_validated_same (b : bool) (facts : boot_facts_t) :
  validated facts = b -> set_validated b facts = facts.
Proof. destruct facts; cbn; intros ->; reflexivity. Qed.

Lemma set_sealed_same (b : bool) (facts : boot_facts_t) :
  sealed facts = b -> set_sealed b facts = facts.
Proof. destruct facts; cbn; intros ->; reflexivity. Qed.

Lemma boot_init_constant (f g : boot_facts_t) : boot_init f = boot_init g.
Proof. reflexivity. Qed.

Lemma boot_init_flags (f : boot_facts_t) :
  probed (boot_init f) = false /\ validated (boot_init f) = false
  /\ sealed (boot_init f) = false.
Proof. repeat split. Qed.

(** ** [boot_seal] *)

Lemma boot_seal_success (facts facts' : boot_facts_t) :
  boot_seal facts = (true, facts') ->
  validated facts' = true /\ sealed facts' = true.
Proof.
  unfold boot_seal.
  destruct (validated facts) eqn:Hv; cbn; [| discriminate].
  destruct (sealed facts) eqn:Hs; [discriminate |].
  intros [= <-]. cbn. auto.
Qed.

(** C4.  [boot_seal] returns true exactly when the record is validated and
    not yet sealed at the call.  A successful call changes nothing but the
    [sealed] flag, which it sets; a failing call changes nothing; and a
    second call on the resulting record always fails. *)
Theorem boot_seal_spec (facts : boot_facts_t) :
  (fst (boot_seal facts) = true <->
     validated facts = true /\ sealed facts = false)
  /\ (fst (boot_seal facts) = true ->
        snd (boot_seal facts) = set_sealed true facts
        /\ sealed (snd (boot_seal facts)) = true)
  /\ (fst (boot_seal facts) = false -> snd (boot_seal facts) = facts)
  /\ fst (boot_seal (snd (boot_seal facts))) = false
  /\ snd (boot_seal (snd (boot_seal facts))) = snd (boot_seal facts).
Proof.
  unfold boot_seal.
  destruct (validated facts) eqn:Hv, (sealed facts) eqn:Hs; cbn;
    rewrite ?Hv, ?Hs; cbn; intuition congruence.
Qed.

(** ** [boot_validate] *)

(** Split on the flags and comparisons [boot_validate] tests. *)

Ltac split_validate facts :=
  destruct (probed facts) eqn:Hprobed;
  destruct (cpu_count facts <? 2) eqn:Hcores;
  destruct (level_count (cache_topology facts) =? 0) eqn:Hcache;
  destruct (numa_nodes facts <? 1) eqn:Hnuma;
  destruct (constant_time_supported facts) eqn:Hct;
  destruct (trng_available facts) eqn:Htrng;
  destruct (smt_enabled facts) eqn:Hsmt;
  destruct (secure_boot_enabled facts) eqn:Hsecure.

Ltac to_arith :=
  repeat match goal with
  | H : (_ <? _) = true |- _ => apply Z.ltb_lt in H
  | H : (_ <? _) = false |- _ => apply Z.ltb_ge in H
  | H : (_ =? _) = true |- _ => apply Z.eqb_eq in H
  | H : (_ =? _) = false |- _ => apply Z.eqb_neq in H
  end.

(** *** The validation context as a bounded log *)

Lemma ctx_is_init (ctx : boot_validation_context_t) :
  ctx_is (boot_validation_context_init ctx) [] BOOT_VALIDATION_ACCEPT 0.
Proof. repeat split; cbn; lia. Qed.

Lemma worst_result_add_error ctx e sev :
  worst_result (boot_validation_context_add_error ctx e sev)
  = worse sev (worst_result ctx).
Proof.
  unfold boot_validation_context_add_error, worse.
  destruct (error_count ctx <? 32); cbn;
    destruct (severity_rank sev >? severity_rank (worst_result ctx));
    reflexivity.
Qed.

(** Below the bound an error is appended to the log. *)

Lemma add_error_appends ctx l w n e sev :
  ctx_is ctx l w n -> (n < 32)%nat ->
  ctx_is (boot_validation_context_add_error ctx e sev)
         (l ++ [e]) (worse sev w) (S n).
Proof.
  intros (Hlen & Hcnt & Hrec & Hw & Hn) Hlt.
  assert (Hsmall : (error_count ctx <? 32) = true)
    by (apply Z.ltb_lt; lia).
  assert (Hnat : Z.to_nat (error_count ctx) = length l)
    by (rewrite Hcnt; apply Nat2Z.id).
  pose proof (worst_result_add_error ctx e sev) as Hworst.
  assert (Hstore :
    errors (boot_validation_context_add_error ctx e sev)
      = <[length l := e]> (errors ctx)
    /\ error_count (boot_validation_context_add_error ctx e sev)
      = Z.of_nat (S (length l))).
  { unfold boot_validation_context_add_error. rewrite Hsmall.
    destruct (severity_rank sev >? _); cbn; rewrite Hnat;
      rewrite u32_id by lia; split; (reflexivity || lia). }
  destruct Hstore as [Herr Hcount].
  unfold ctx_is, recorded_errors in *.
  rewrite Herr, Hcount, Hworst, Hw, Nat2Z.id, length_insert, length_app.
  repeat split; try assumption; cbn; try lia.
  rewrite Hcnt, Nat2Z.id in Hrec.
  erewrite take_S_r by (apply list_lookup_insert_eq; lia).
  rewrite take_insert_ge by lia. rewrite Hrec. reflexivity.
Qed.

(** At the bound the log is left as it is: the error is not stored and
    nothing marks that one was lost; only the severity is kept. *)

Lemma add_error_full ctx e sev :
  32 <= error_count ctx ->
  errors (boot_validation_context_add_error ctx e sev) = errors ctx
  /\ error_count (boot_validation_context_add_error ctx e sev)
     = error_count ctx
  /\ worst_result (boot_validation_context_add_error ctx e sev)
     = worse sev (worst_result ctx).
Proof.
  intros Hfull. rewrite worst_result_add_error.
  unfold boot_validation_context_add_error.
  assert (Hge : (error_count ctx <? 32) = false) by (apply Z.ltb_ge; lia).
  rewrite Hge.
  destruct (severity_rank sev >? _); cbn; auto.
Qed.

Lemma check_appends c ctx l w n e sev :
  ctx_is ctx l w n -> (n < 32)%nat ->
  ctx_is (check c e sev ctx)
         (if c then l ++ [e] else l) (if c then worse sev w else w) (S n).
Proof.
  intros H Hlt. destruct c; cbn.
  - apply add_error_appends; assumption.
  - destruct H as (? & ? & ? & ? & ?). repeat split; auto.
Qed.

(** What a call leaves in the context, and what it returns: the table of
    triggered checks, cut short after the first entry when the facts were
    never probed. *)

Lemma boot_validate_context (facts : boot_facts_t)
    (ctx : boot_validation_context_t) :
  let r := fst (fst (boot_validate facts ctx)) in
  let ctx' := snd (boot_validate facts ctx) in
  r = worst_result ctx'
  /\ recorded_errors ctx' =
       (if probed facts then map fst (triggered facts)
        else [BOOT_ERROR_CPU_DETECTION_FAILED])
  /\ error_count ctx' = Z.of_nat (length (recorded_errors ctx'))
  /\ length (errors ctx') = 32%nat
  /\ worst_result ctx' = worst_of (map snd (triggered facts)).
Proof.
  pose proof (ctx_is_init ctx) as H0.
  unfold boot_validate, triggered, check_table.
  destruct (probed facts) eqn:Hprobed; cbn [negb fst snd].
  - repeat match goal with
    | H : ctx_is ?c _ _ _ |- context [check ?b ?e ?sev ?c] =>
        let H' := fresh "H" in
        pose proof (check_appends b c _ _ _ e sev H ltac:(lia)) as H';
        clear H
    end.
    match goal with
    | H : ctx_is _ _ _ _ |- _ =>
        destruct H as (Hlen & Hcnt & Hrec & Hw & _)
    end.
    rewrite Hrec, Hw. repeat split; try assumption.
    + destruct (cpu_count facts <? 2), (level_count _ =? 0),
        (numa_nodes facts <? 1), (constant_time_supported facts),
        (trng_available facts), (smt_enabled facts),
        (secure_boot_enabled facts); reflexivity.
    + destruct (cpu_count facts <? 2), (level_count _ =? 0),
        (numa_nodes facts <? 1), (constant_time_supported facts),
        (trng_available facts), (smt_enabled facts),
        (secure_boot_enabled facts); reflexivity.
  - pose proof (add_error_appends _ _ _ _ BOOT_ERROR_CPU_DETECTION_FAILED
                  BOOT_VALIDATION_HARD_FAIL H0 ltac:(lia)) as H1.
    destruct H1 as (Hlen & Hcnt & Hrec & Hw & _).
    rewrite Hrec, Hw. repeat split; try assumption.
    destruct (cpu_count facts <? 2), (level_count _ =? 0),
      (numa_nodes facts <? 1), (constant_time_supported facts),
      (trng_available facts), (smt_enabled facts),
      (secure_boot_enabled facts); reflexivity.
Qed.

Lemma boot_validate_facts (facts : boot_facts_t)
    (ctx : boot_validation_context_t) :
  snd (fst (boot_validate facts ctx)) =
    if is_hard_fail (fst (fst (boot_validate facts ctx)))
    then facts else set_validated true facts.
Proof.
  unfold boot_validate.
  destruct (probed facts); cbn [negb fst snd]; [| reflexivity].
  destruct (is_hard_fail _); reflexivity.
Qed.

Lemma hard_fail_condition_spec (facts : boot_facts_t) :
  hard_fail_condition facts <->
  In BOOT_VALIDATION_HARD_FAIL (map snd (triggered facts)).
Proof.
  unfold hard_fail_condition, triggered, check_table. cbn [List.filter fst snd].
  destruct (probed facts) eqn:Hprobed; cbn; [| tauto].
  destruct (cpu_count facts <? 2) eqn:Hcores; to_arith; cbn; [tauto |].
  destruct (level_count (cache_topology facts) =? 0) eqn:Hcache;
    to_arith; cbn; [tauto |].
  destruct (numa_nodes facts <? 1) eqn:Hnuma; to_arith; cbn; [tauto |].
  destruct (constant_time_supported facts), (trng_available facts),
    (smt_enabled facts), (secure_boot_enabled facts); cbn;
    intuition (congruence || lia).
Qed.

Lemma hard_fail_conditionb_spec (facts : boot_facts_t) :
  hard_fail_conditionb facts = true <-> hard_fail_condition facts.
Proof.
  unfold hard_fail_conditionb, hard_fail_condition.
  rewrite !orb_true_iff, negb_true_iff, !Z.ltb_lt, Z.eqb_eq. tauto.
Qed.


Lemma worst_of_triggered (facts : boot_facts_t) :
  worst_of (map snd (triggered facts)) =
    if hard_fail_conditionb facts then BOOT_VALIDATION_HARD_FAIL
    else if warn_conditionb facts then BOOT_VALIDATION_WARN
    else BOOT_VALIDATION_ACCEPT.
Proof.
  unfold triggered, check_table, hard_fail_conditionb, warn_conditionb.
  split_validate facts; reflexivity.
Qed.

Lemma boot_validate_result (facts : boot_facts_t)
    (ctx : boot_validation_context_t) :
  fst (fst (boot_validate facts ctx)) =
    if hard_fail_conditionb facts then BOOT_VALIDATION_HARD_FAIL
    else if warn_conditionb facts then BOOT_VALIDATION_WARN
    else BOOT_VALIDATION_ACCEPT.
Proof.
  destruct (boot_validate_context facts ctx) as (Hr & _ & _ & _ & Hw).
  rewrite Hr, Hw. apply worst_of_triggered.
Qed.


(** ** [boot_probe] on a sealed record *)

Lemma boot_probe_run_sealed (p : probe_provider) (facts : boot_facts_t) :
  sealed facts = true -> boot_probe_run p facts = (false, facts, []).
Proof. intros Hs. unfold_probe. cbn. rewrite Hs. reflexivity. Qed.

Lemma boot_probe_sealed (p : probe_provider) (facts : boot_facts_t) :
  sealed facts = true -> boot_probe p facts = (false, facts).
Proof.
  intros Hs. unfold boot_probe. rewrite boot_probe_run_sealed by assumption.
  reflexivity.
Qed.

(** ** [boot_probe] on a record that is not sealed *)

(** The calls made are the expected ones, and the outcome is obtained by
    replaying the responses on the record. *)

Lemma boot_probe_run_replay (p : probe_provider) (facts : boot_facts_t) :
  sealed facts = false ->
  boot_probe_run p facts =
    (replay (provider_responses p facts) facts, provider_responses p facts).
Proof.
  intros Hs. unfold provider_responses, replay, completed.
  unfold_probe. cbn -[u32 u64 Z.eqb]. rewrite Hs.
  split_probe; reflexivity.
Qed.

Lemma boot_probe_replay (p : probe_provider) (facts : boot_facts_t) :
  sealed facts = false ->
  boot_probe p facts = replay (boot_probe_trace p facts) facts
  /\ boot_probe_trace p facts = provider_responses p facts.
Proof.
  intros Hs. unfold boot_probe, boot_probe_trace.
  rewrite boot_probe_run_replay by assumption. split; reflexivity.
Qed.

(** Split on the responses that decide which calls are made. *)

Ltac split_responses p facts :=
  unfold provider_responses, replay, completed;
  destruct (boot_probe_cpu_info p (cpu_info facts)) as [ci [|]];
  destruct (boot_probe_cache_topology p (cache_topology facts))
    as [ct [|]];
  destruct (boot_probe_constant_time_support p (constant_time facts))
    as [r1 ok1];
  destruct (boot_probe_cache_control p (cache_control facts)) as [r2 ok2];
  destruct (boot_probe_memory_protection p (memory_protection facts))
    as [r3 ok3];
  destruct (boot_probe_side_channel_mitigation p
              (side_channel_mitigation facts)) as [r4 ok4];
  destruct (u32 (boot_probe_cpu_count p) =? 0) eqn:Hcount;
  destruct (boot_probe_smt_enabled p) eqn:Hsmt;
  cbn -[u32 u64 Z.eqb apply_event].

(** [boot_probe] never writes a lifecycle flag other than [probed]. *)

Lemma apply_event_flags (e : probe_event) (f : boot_facts_t) :
  validated (apply_event e f) = validated f
  /\ sealed (apply_event e f) = sealed f.
Proof.
  destruct e; cbn; repeat match goal with
                          | |- context [if ?b then _ else _] => destruct b
                          end; split; reflexivity.
Qed.

Lemma replay_flags (tr : list probe_event) (f : boot_facts_t) :
  validated (snd (replay tr f)) = validated f
  /\ sealed (snd (replay tr f)) = sealed f.
Proof.
  unfold replay. cbn [snd]. revert f.
  induction tr as [| e tr IH]; intros f; cbn [fold_left]; [split; reflexivity |].
  destruct (IH (apply_event e f)) as [-> ->]. apply apply_event_flags.
Qed.

Lemma boot_probe_flags (p : probe_provider) (facts : boot_facts_t) :
  validated (snd (boot_probe p facts)) = validated facts
  /\ sealed (snd (boot_probe p facts)) = sealed facts.
Proof.
  destruct (sealed facts) eqn:Hs.
  - rewrite boot_probe_sealed by assumption. cbn. auto.
  - destruct (boot_probe_replay p facts Hs) as [-> _].
    rewrite <- Hs. apply replay_flags.
Qed.

(** ** The order of the steps and the fatal failures *)

(** C3.  On a record that is not sealed, [boot_probe] runs the twelve
    steps in the fixed order CPU identity, cache topology, cpu count, NUMA,
    SMT, constant-time, cache control, memory protection, side channel,
    TRNG, total memory, boot mode.  It returns false exactly when the CPU
    identity probe fails, the cache topology probe fails or the cpu count
    is 0; it then stops after that step and does not touch [probed].
    Otherwise all twelve steps run, [probed] is set, true is returned, and
    each feature probe that failed leaves its group with [valid = false]
    and its aggregate flag false. *)
Theorem boot_probe_sequence_spec (p : probe_provider) (facts : boot_facts_t) :
  sealed facts = false ->
  let ret := fst (boot_probe p facts) in
  let facts' := snd (boot_probe p facts) in
  let steps := steps_of (boot_probe_trace p facts) in
  let cpu_ok := snd (boot_probe_cpu_info p (cpu_info facts)) in
  let cache_ok :=
    snd (boot_probe_cache_topology p (cache_topology facts)) in
  let count := u32 (boot_probe_cpu_count p) in
  (exists k, steps = take k probe_sequence)
  /\ (ret = false <-> cpu_ok = false \/ cache_ok = false \/ count = 0)
  /\ (cpu_ok = false -> steps = take 1 probe_sequence)
  /\ (cpu_ok = true -> cache_ok = false -> steps = take 2 probe_sequence)
  /\ (cpu_ok = true -> cache_ok = true -> count = 0 ->
        steps = take 3 probe_sequence)
  /\ (ret = false -> probed facts' = probed facts)
  /\ (ret = true ->
        steps = probe_sequence
        /\ probed facts' = true
        /\ (snd (boot_probe_constant_time_support p (constant_time facts))
              = false ->
            constant_time_valid (constant_time facts') = false
            /\ constant_time_supported facts' = false)
        /\ (snd (boot_probe_cache_control p (cache_control facts)) = false ->
            cache_control_valid (cache_control facts') = false
            /\ cache_partitioning_supported facts' = false)
        /\ (snd (boot_probe_memory_protection p (memory_protection facts))
              = false ->
            memory_protection_valid (memory_protection facts') = false
            /\ memory_encryption_supported facts' = false)
        /\ (snd (boot_probe_side_channel_mitigation p
                   (side_channel_mitigation facts)) = false ->
            side_channel_valid (side_channel_mitigation facts') = false
            /\ side_channel_mitigations_available facts' = false)).
Proof.
  intros Hs. cbn zeta.
  destruct (boot_probe_replay p facts Hs) as [-> ->].
  split_responses p facts; to_arith;
    (split; [first [ by exists 1%nat | by exists 2%nat
                   | by exists 3%nat | by exists 12%nat ] |]);
    (split; [intuition congruence |]);
    (split; [intros; reflexivity || congruence |]);
    (split; [intros; reflexivity || congruence |]);
    (split; [intros; reflexivity || congruence |]);
    (split; [intros; reflexivity || congruence |]);
    intros Hret; try discriminate Hret.
  all: destruct ok1, ok2, ok3, ok4;
       cbn; repeat split; intros; reflexivity || discriminate.
Qed.

Lemma boot_probe_sequence_spec_witness :
  sealed (boot_init uninitialised) = false
  /\ steps_of (boot_probe_trace reference_machine (boot_init uninitialised))
     = probe_sequence
  /\ probed (snd (boot_probe reference_machine (boot_init uninitialised)))
     = true.
Proof.
  split; [reflexivity |].
  destruct (boot_probe_sequence_spec reference_machine
              (boot_init uninitialised) eq_refl)
    as (_ & _ & _ & _ & _ & _ & Hdone).
  assert (Hret : fst (boot_probe reference_machine (boot_init uninitialised))
                 = true) by (vm_compute; reflexivity).
  destruct (Hdone Hret) as (Hsteps & Hprobed & _).
  split; assumption.
Defined.

(** ** Determinism *)

(** Providers that answer alike are asked the same questions and give the
    same trace. *)

Lemma same_responses_same_trace (p1 p2 : probe_provider)
    (facts : boot_facts_t) :
  same_responses p1 p2 ->
  boot_probe_trace p1 facts = boot_probe_trace p2 facts.
Proof.
  intros (H1 & H2 & H3 & H4 & H5 & H6 & H7 & H8 & H9 & H10 & H11 & H12
          & H13 & H14).
  destruct (sealed facts) eqn:Hs.
  - unfold boot_probe_trace. rewrite !boot_probe_run_sealed by assumption.
    reflexivity.
  - destruct (boot_probe_replay p1 facts Hs) as [_ ->].
    destruct (boot_probe_replay p2 facts Hs) as [_ ->].
    unfold provider_responses.
    rewrite H1, H2, H3, H4, H5, H6, H7, H8, H9, H10, H11, H12, H13, H14.
    reflexivity.
Qed.


(** C7.  Two runs of [boot_probe] on freshly initialised records in which
    the provider gives the same responses end with the same return value
    and the same record, whatever the memory held before [boot_init]. *)
Theorem boot_probe_deterministic (p1 p2 : probe_provider)
    (f1 f2 : boot_facts_t) :
  boot_probe_trace p1 (boot_init f1) = boot_probe_trace p2 (boot_init f2) ->
  boot_probe p1 (boot_init f1) = boot_probe p2 (boot_init f2).
Proof.
  intros Htrace.
  destruct (boot_probe_replay p1 (boot_init f1) eq_refl) as [-> _].
  destruct (boot_probe_replay p2 (boot_init f2) eq_refl) as [-> _].
  rewrite Htrace. reflexivity.
Qed.

(** Two providers that differ only in an answer that is never asked for:
    without SMT the threads-per-core probe is not called. *)
Lemma boot_probe_deterministic_witness :
  boot_probe_trace (quad_core false 1 true) (boot_init uninitialised)
    = boot_probe_trace (quad_core false 7 true) (boot_init sealed_reference)
  /\ boot_probe (quad_core false 1 true) (boot_init uninitialised)
     = boot_probe (quad_core false 7 true) (boot_init sealed_reference).
Proof.
  assert (Htrace :
    boot_probe_trace (quad_core false 1 true) (boot_init uninitialised)
    = boot_probe_trace (quad_core false 7 true) (boot_init sealed_reference))
    by (vm_compute; reflexivity).
  split; [exact Htrace |].
  exact (boot_probe_deterministic (quad_core false 1 true)
           (quad_core false 7 true) uninitialised sealed_reference Htrace).
Defined.

(** ** SMT *)

Lemma replay_success_smt (p : probe_provider) (facts : boot_facts_t) :
  fst (replay (provider_responses p facts) facts) = true ->
  let facts' := snd (replay (provider_responses p facts) facts) in
  smt_enabled facts' = boot_probe_smt_enabled p
  /\ threads_per_core facts' =
       (if boot_probe_smt_enabled p
        then u32 (boot_probe_threads_per_core p) else 1)
  /\ numa_nodes facts' =
       (if u32 (boot_probe_numa_node_count p) =? 0 then 1
        else u32 (boot_probe_numa_node_count p))
  /\ cpu_count facts' = u32 (boot_probe_cpu_count p)
  /\ cpu_count facts' <> 0
  /\ probed facts' = true.
Proof.
  split_responses p facts; intros Hret; try discriminate Hret;
    destruct ok1, ok2, ok3, ok4; cbn -[u32 u64 Z.eqb];
    destruct (u32 (boot_probe_numa_node_count p) =? 0);
    to_arith; repeat split; assumption.
Qed.

(** C6, as the code has it.  After [boot_init] and a successful
    [boot_probe], [smt_enabled] is the provider's answer; with SMT enabled
    [threads_per_core] is whatever the provider reports (so it is at least
    2 whenever the provider reports at least 2), and with SMT disabled it
    is 1. *)
Theorem smt_threads_follow_provider (p : probe_provider)
    (f0 facts' : boot_facts_t) :
  boot_probe p (boot_init f0) = (true, facts') ->
  smt_enabled facts' = boot_probe_smt_enabled p
  /\ (smt_enabled facts' = true ->
        threads_per_core facts' = u32 (boot_probe_threads_per_core p))
  /\ (smt_enabled facts' = true ->
        2 <= u32 (boot_probe_threads_per_core p) ->
        2 <= threads_per_core facts')
  /\ (smt_enabled facts' = false -> threads_per_core facts' = 1).
Proof.
  intros Hprobe.
  destruct (boot_probe_replay p (boot_init f0) eq_refl) as [Hrep Htr].
  rewrite Htr in Hrep. rewrite Hrep in Hprobe.
  pose proof (replay_success_smt p (boot_init f0)) as Hs.
  rewrite Hprobe in Hs. cbn [fst snd] in Hs.
  destruct (Hs eq_refl) as (Hsmt & Hthreads & _).
  rewrite Hsmt, Hthreads.
  destruct (boot_probe_smt_enabled p); repeat split; intros;
    congruence || lia.
Qed.

Lemma smt_threads_follow_provider_witness :
  boot_probe (quad_core true 2 true) (boot_init uninitialised)
    = (true, smt_reference)
  /\ smt_enabled smt_reference = true
  /\ 2 <= threads_per_core smt_reference.
Proof.
  assert (Hprobe : boot_probe (quad_core true 2 true) (boot_init uninitialised)
                   = (true, smt_reference)) by (vm_compute; reflexivity).
  split; [exact Hprobe |].
  destruct (smt_threads_follow_provider (quad_core true 2 true)
              uninitialised smt_reference Hprobe) as (Hsmt & _ & Hge & _).
  split; [exact Hsmt |].
  apply Hge; [exact Hsmt | vm_compute; discriminate].
Defined.

(** C6 as stated fails.  On a processor whose highest CPUID leaf is below
    11 and which reports hyper-threading in leaf 1, the x86_64 provider
    answers [smt_enabled = true] and [threads_per_core = 1]; the probe
    succeeds and records both. *)
Lemma legacy_htt_breaks_smt_invariant :
  X86.boot_probe_smt_enabled legacy_htt_cpuid = true
  /\ X86.boot_probe_threads_per_core legacy_htt_cpuid = 1
  /\ fst (boot_probe legacy_htt_machine (boot_init uninitialised)) = true
  /\ smt_enabled
       (snd (boot_probe legacy_htt_machine (boot_init uninitialised))) = true
  /\ ~ (2 <= threads_per_core
              (snd (boot_probe legacy_htt_machine (boot_init uninitialised)))).
Proof.
  vm_compute. repeat split. intros H. apply H. reflexivity.
Qed.

(** ** NUMA *)

Lemma no_numa_error_needs_no_node (facts : boot_facts_t) :
  In BOOT_ERROR_NO_NUMA (map fst (triggered facts)) -> numa_nodes facts < 1.
Proof.
  unfold triggered, check_table. cbn [List.filter fst snd].
  destruct (numa_nodes facts <? 1) eqn:Hnuma; to_arith; [lia |].
  destruct (probed facts), (cpu_count facts <? 2),
    (level_count (cache_topology facts) =? 0),
    (constant_time_supported facts), (trng_available facts),
    (smt_enabled facts), (secure_boot_enabled facts); cbn;
    intuition discriminate.
Qed.

(** C9.  A record for which [boot_probe] returned true has at least one
    NUMA node: a provider count of 0 is stored as 1, any other count as it
    is.  Validating such a record therefore never takes the branch that
    reports [BOOT_ERROR_NO_NUMA]. *)
Theorem probed_record_has_numa_node (p : probe_provider)
    (facts facts' : boot_facts_t) :
  boot_probe p facts = (true, facts') ->
  1 <= numa_nodes facts'
  /\ numa_nodes facts' =
       (if u32 (boot_probe_numa_node_count p) =? 0 then 1
        else u32 (boot_probe_numa_node_count p))
  /\ (numa_nodes facts' <? 1) = false
  /\ forall ctx,
       ~ In BOOT_ERROR_NO_NUMA
           (recorded_errors (snd (boot_validate facts' ctx))).
Proof.
  intros Hprobe.
  destruct (sealed facts) eqn:Hs.
  { rewrite boot_probe_sealed in Hprobe by assumption. discriminate. }
  destruct (boot_probe_replay p facts Hs) as [Hrep Htr].
  rewrite Htr in Hrep. rewrite Hrep in Hprobe.
  pose proof (replay_success_smt p facts) as Hsucc.
  rewrite Hprobe in Hsucc. cbn [fst snd] in Hsucc.
  destruct (Hsucc eq_refl) as (_ & _ & Hnuma & _ & _ & Hprobed).
  assert (Hpos : 1 <= numa_nodes facts').
  { rewrite Hnuma. pose proof (u32_range (boot_probe_numa_node_count p)).
    destruct (_ =? 0) eqn:Hz; to_arith; lia. }
  repeat split; try assumption.
  - apply Z.ltb_ge. lia.
  - intros ctx Hin.
    destruct (boot_validate_context facts' ctx) as (_ & Hrec & _).
    rewrite Hrec, Hprobed in Hin.
    apply no_numa_error_needs_no_node in Hin. lia.
Qed.

(** The weak default for the NUMA count is 0; the record gets 1. *)
Lemma probed_record_has_numa_node_witness :
  boot_probe_numa_node_count numa_less = 0
  /\ boot_probe numa_less (boot_init uninitialised) = (true, numa_less_record)
  /\ numa_nodes numa_less_record = 1.
Proof.
  assert (Hprobe : boot_probe numa_less (boot_init uninitialised)
                   = (true, numa_less_record)) by (vm_compute; reflexivity).
  split; [reflexivity |]. split; [exact Hprobe |].
  destruct (probed_record_has_numa_node numa_less (boot_init uninitialised)
              numa_less_record Hprobe) as (_ & Hnuma & _).
  exact Hnuma.
Defined.

(** ** The [validated] flag *)

(** C10.  A record that is validated stays validated through
    [boot_validate], whatever the verdict, and through [boot_probe] and
    [boot_seal]; only [boot_init] clears the flag.  In general
    [boot_validate] leaves [validated] as it was or raises it from false to
    true, the latter exactly when the verdict is not HardFail. *)
Theorem validated_is_sticky (p : probe_provider) (facts : boot_facts_t)
    (ctx : boot_validation_context_t) :
  validated facts = true ->
  validated (snd (fst (boot_validate facts ctx))) = true
  /\ validated (snd (boot_probe p facts)) = true
  /\ validated (snd (boot_seal facts)) = true
  /\ validated (boot_init facts) = false
  /\ (forall g : boot_facts_t,
        validated (snd (fst (boot_validate g ctx)))
        = validated g || negb (is_hard_fail (fst (fst (boot_validate g ctx))))).
Proof.
  intros Hv.
  assert (Hgen : forall g : boot_facts_t,
    validated (snd (fst (boot_validate g ctx)))
    = validated g || negb (is_hard_fail (fst (fst (boot_validate g ctx))))).
  { intros g. rewrite boot_validate_facts.
    destruct (is_hard_fail _); cbn;
      [rewrite orb_false_r | rewrite orb_true_r]; reflexivity. }
  repeat split.
  - rewrite Hgen, Hv. reflexivity.
  - destruct (boot_probe_flags p facts) as [-> _]. exact Hv.
  - unfold boot_seal. rewrite Hv. cbn. destruct (sealed facts); exact Hv.
  - exact Hgen.
Qed.

(** A validated record that is probed again on a single-core machine:
    validation now fails hard, and [validated] is still set. *)
Lemma validated_is_sticky_witness :
  validated reprobed_single_core = true
  /\ fst (fst (boot_validate reprobed_single_core empty_ctx))
     = BOOT_VALIDATION_HARD_FAIL
  /\ validated (snd (fst (boot_validate reprobed_single_core empty_ctx)))
     = true.
Proof.
  split; [reflexivity |]. split; [reflexivity |].
  destruct (validated_is_sticky reference_machine reprobed_single_core
              empty_ctx eq_refl) as (Hkeep & _).
  exact Hkeep.
Defined.

(** ** Two end-to-end scenarios *)

(** SMT enabled and secure boot disabled on an otherwise sound machine:
    validation passes with the two warnings, and the seal succeeds. *)
Example warn_only_scenario :
  let facts := snd (boot_probe (quad_core true 2 false)
                      (boot_init uninitialised)) in
  let '(r, facts', ctx) := boot_validate facts empty_ctx in
  r = BOOT_VALIDATION_WARN
  /\ recorded_errors ctx =
       [BOOT_ERROR_SMT_ENABLED_NOT_ALLOWED; BOOT_ERROR_SECURE_BOOT_DISABLED]
  /\ fst (boot_seal facts') = true.
Proof. vm_compute. repeat split. Qed.

(** With a provider whose every answer is unfavourable the probe fails
    at its first step, and validation of the unprobed record fails hard. *)
Example weak_defaults_scenario :
  let '(ok, facts) := boot_probe weak_defaults (boot_init uninitialised) in
  ok = false
  /\ probed facts = false
  /\ fst (fst (boot_validate facts empty_ctx)) = BOOT_VALIDATION_HARD_FAIL
  /\ fst (boot_seal (snd (fst (boot_validate facts empty_ctx)))) = false.
Proof. vm_compute. repeat split. Qed.

(** ** Sealed records *)

(** Through the public operations a record is sealed only after it has
    been validated. *)

Lemma reachable_sealed_validated (facts : boot_facts_t) :
  reachable facts -> sealed facts = true -> validated facts = true.
Proof.
  induction 1 as [f0 | op facts Hreach IH]; [discriminate |].
  destruct op as [| p | ctx |]; cbn [run_op].
  - discriminate.
  - destruct (boot_probe_flags p facts) as [-> ->]. exact IH.
  - rewrite boot_validate_facts.
    destruct (is_hard_fail _); [exact IH | reflexivity].
  - unfold boot_seal.
    destruct (validated facts) eqn:Hv; cbn.
    + destruct (sealed facts); cbn; intros; assumption.
    + rewrite Hv. exact IH.
Qed.

(** C1, as the code has it.  On a sealed record obtained through the
    public operations, [boot_probe] and [boot_seal] return false and leave
    the record as it is; [boot_validate] leaves the record as it is (and
    still returns its verdict).  [boot_init] has no guard: it clears the
    record, the seal included. *)
Theorem sealed_record_is_guarded (p : probe_provider) (facts : boot_facts_t)
    (ctx : boot_validation_context_t) :
  reachable facts -> sealed facts = true ->
  boot_probe p facts = (false, facts)
  /\ boot_seal facts = (false, facts)
  /\ snd (fst (boot_validate facts ctx)) = facts
  /\ sealed (boot_init facts) = false.
Proof.
  intros Hreach Hs.
  pose proof (reachable_sealed_validated facts Hreach Hs) as Hv.
  repeat split.
  - apply boot_probe_sealed. exact Hs.
  - unfold boot_seal. rewrite Hv, Hs. reflexivity.
  - rewrite boot_validate_facts.
    destruct (is_hard_fail _); [reflexivity |].
    apply set_validated_same. exact Hv.
Qed.

Lemma sealed_reference_reachable : reachable sealed_reference.
Proof.
  change sealed_reference with
    (run_op OpSeal
       (run_op (OpValidate empty_ctx)
          (run_op (OpProbe reference_machine) (boot_init uninitialised)))).
  repeat apply reach_step. apply reach_init.
Defined.

Lemma sealed_record_is_guarded_witness :
  sealed sealed_reference = true
  /\ boot_probe single_core sealed_reference = (false, sealed_reference)
  /\ boot_seal sealed_reference = (false, sealed_reference).
Proof.
  split; [reflexivity |].
  destruct (sealed_record_is_guarded single_core sealed_reference empty_ctx
              sealed_reference_reachable eq_refl) as (Hprobe & Hseal & _).
  split; assumption.
Defined.

(** C1 as stated fails for [boot_init]: on the sealed record of the
    reference machine it returns a different record, which is no longer
    sealed. *)
Lemma boot_init_resets_sealed_record :
  reachable sealed_reference
  /\ sealed sealed_reference = true
  /\ boot_init sealed_reference <> sealed_reference
  /\ sealed (boot_init sealed_reference) = false
  /\ cpu_count sealed_reference = 4
  /\ cpu_count (boot_init sealed_reference) = 0.
Proof.
  split; [exact sealed_reference_reachable |].
  repeat split. intros Heq. apply (f_equal sealed) in Heq. discriminate Heq.
Qed.

(** ** The bound of the validation context *)



End BootProps.


(** * Properties of the topology *)

Module TopologyProps.
Import Topology.

Local Open Scope nat_scope.

(** ** Reading and writing the matrix *)

Lemma matrix_get_set (M : list (list cache_isolation_level_t))
    (i j a b : nat) (v : cache_isolation_level_t) :
  square M -> i < MAX_CORES -> j < MAX_CORES ->
  matrix_get (matrix_set M i j v) a b =
    if decide (a = i /\ b = j) then v else matrix_get M a b.
Proof.
  intros [Hlen Hrows] Hi Hj. unfold matrix_get, matrix_set.
  rewrite list_lookup_alter.
  destruct (decide (i = a)) as [<- | Hne].
  - destruct (lookup_lt_is_Some_2 M i) as [row Hrow]; [lia |].
    rewrite Hrow. cbn.
    assert (Hrowlen : length row = MAX_CORES).
    { rewrite Forall_forall in Hrows. apply Hrows.
      apply list_elem_of_lookup. eauto. }
    rewrite list_lookup_insert, Hrowlen.
    destruct (decide (j = b /\ j < MAX_CORES)) as [[-> _] | Hnb].
    + rewrite decide_True by auto. reflexivity.
    + rewrite decide_False by (intros [_ ->]; auto). reflexivity.
  - rewrite decide_False by (intros [-> _]; auto). reflexivity.
Qed.

Lemma square_matrix_set (M : list (list cache_isolation_level_t))
    (i j : nat) (v : cache_isolation_level_t) :
  square M -> square (matrix_set M i j v).
Proof.
  intros [Hlen Hrows]. unfold matrix_set. split.
  - rewrite length_alter. exact Hlen.
  - apply Forall_alter; [exact Hrows |].
    intros row _ Hrow. rewrite length_insert. exact Hrow.
Qed.

Lemma square_zero : square zero_isolation.
Proof.
  unfold zero_isolation. split.
  - apply length_replicate.
  - apply Forall_replicate, length_replicate.
Qed.

Lemma matrix_get_zero (i j : nat) :
  matrix_get zero_isolation i j = CACHE_ISOLATED_NONE.
Proof.
  unfold matrix_get, zero_isolation.
  destruct (replicate MAX_CORES _ !! i) as [row |] eqn:Hrow; [| reflexivity].
  apply lookup_replicate in Hrow as [-> _].
  change (default CACHE_ISOLATED_NONE
            (replicate MAX_CORES CACHE_ISOLATED_NONE !! j)
          = CACHE_ISOLATED_NONE).
  destruct (replicate MAX_CORES _ !! j) as [x |] eqn:Hx; [| reflexivity].
  apply lookup_replicate in Hx as [-> _]. reflexivity.
Qed.

(** ** One pair *)

Lemma write_pair_square cs M i j :
  square M -> square (write_pair cs M i j).
Proof. intros H. unfold write_pair. by do 2 apply square_matrix_set. Qed.

Lemma write_pair_get cs M i j a b :
  square M -> i < MAX_CORES -> j < MAX_CORES ->
  matrix_get (write_pair cs M i j) a b =
    if decide ((a = i /\ b = j) \/ (a = j /\ b = i))
    then (if (i =? j) then CACHE_ISOLATED_FULL
          else isolation_between (core_at cs i) (core_at cs j))
    else matrix_get M a b.
Proof.
  intros Hsq Hi Hj. unfold write_pair.
  rewrite matrix_get_set by (try apply square_matrix_set; assumption).
  rewrite matrix_get_set by assumption.
  destruct (decide (a = j /\ b = i)) as [Hji | Hji],
           (decide (a = i /\ b = j)) as [Hij | Hij].
  - rewrite decide_True by auto. reflexivity.
  - rewrite decide_True by auto. reflexivity.
  - rewrite decide_True by auto. reflexivity.
  - rewrite decide_False by tauto. reflexivity.
Qed.

Lemma write_pair_symmetric cs M i j :
  square M -> i < MAX_CORES -> j < MAX_CORES ->
  matrix_symmetric M -> matrix_symmetric (write_pair cs M i j).
Proof.
  intros Hsq Hi Hj Hsym a b.
  rewrite !write_pair_get by assumption.
  destruct (decide ((a = i /\ b = j) \/ (a = j /\ b = i))) as [Hab | Hab].
  - rewrite decide_True by tauto. reflexivity.
  - rewrite decide_False by tauto. apply Hsym.
Qed.

Lemma write_pair_diagonal cs M i j k :
  square M -> i < MAX_CORES -> j < MAX_CORES ->
  matrix_get (write_pair cs M i j) k k =
    if decide (k = i /\ k = j) then CACHE_ISOLATED_FULL
    else matrix_get M k k.
Proof.
  intros Hsq Hi Hj. rewrite write_pair_get by assumption.
  destruct (decide (k = i /\ k = j)) as [[-> ->] | Hk].
  - rewrite decide_True by auto. rewrite Nat.eqb_refl. reflexivity.
  - rewrite decide_False by (intros [[-> ->] | [-> ->]]; auto). reflexivity.
Qed.

(** ** The loops *)

Lemma fill_row_good cs n i M :
  n <= MAX_CORES -> good M -> good (fill_row cs n i M).
Proof.
  intros Hn. unfold fill_row.
  assert (Hjs : Forall (fun j => i <= j < n) (seq i (n - i))).
  { apply Forall_forall. intros j Hj. apply elem_of_seq in Hj. lia. }
  revert M. induction Hjs as [| j js Hj _ IH]; intros M HM; [exact HM |].
  cbn [foldl]. apply IH. destruct HM as [Hsq Hsym]. split.
  - apply write_pair_square. exact Hsq.
  - apply write_pair_symmetric; (assumption || lia).
Qed.

Lemma fill_matrix_good cs n M :
  n <= MAX_CORES -> good M -> good (fill_matrix cs n M).
Proof.
  intros Hn. unfold fill_matrix. generalize (seq 0 n) as rows.
  intros rows. revert M.
  induction rows as [| i rows IH]; intros M HM; [exact HM |].
  cbn [foldl]. apply IH. apply fill_row_good; assumption.
Qed.

(** A row pass sets the diagonal entry of its own row and leaves the
    other diagonal entries alone. *)

Lemma fill_row_diagonal cs n i M k :
  n <= MAX_CORES -> square M ->
  matrix_get (fill_row cs n i M) k k =
    if decide (k = i /\ i < n) then CACHE_ISOLATED_FULL
    else matrix_get M k k.
Proof.
  intros Hn. unfold fill_row.
  assert (Hgen : forall js M0,
    Forall (fun j => i <= j < n) js -> square M0 ->
    matrix_get (foldl (fun M j => write_pair cs M i j) M0 js) k k =
      if decide (k = i /\ i ∈ js) then CACHE_ISOLATED_FULL
      else matrix_get M0 k k).
  { induction js as [| j js IH]; intros M0 Hjs Hsq.
    - cbn. rewrite decide_False; [reflexivity |].
      intros [_ Hin]. by apply elem_of_nil in Hin.
    - apply Forall_cons in Hjs as [Hj Hjs]. cbn [foldl].
      rewrite IH by (try apply write_pair_square; assumption).
      rewrite write_pair_diagonal by (assumption || lia).
      destruct (decide (k = i /\ i ∈ js)) as [[-> Hin] | Hnot].
      + rewrite decide_True; [reflexivity |]. split; [reflexivity |].
        apply elem_of_cons. auto.
      + destruct (decide (k = i /\ k = j)) as [[-> <-] | Hne].
        * rewrite decide_True; [reflexivity |]. split; [reflexivity |].
          apply elem_of_cons. auto.
        * rewrite decide_False; [reflexivity |].
          intros [-> Hin]. apply elem_of_cons in Hin as [<- | Hin]; tauto. }
  intros Hsq. rewrite Hgen; [| | exact Hsq].
  - destruct (decide (k = i /\ i < n)) as [[-> Hlt] | Hnot].
    + rewrite decide_True; [reflexivity |]. split; [reflexivity |].
      apply elem_of_seq. lia.
    + rewrite decide_False; [reflexivity |].
      intros [-> Hin]. apply elem_of_seq in Hin. apply Hnot. split; lia.
  - apply Forall_forall. intros j Hj. apply elem_of_seq in Hj. lia.
Qed.

Lemma fill_row_square cs n i M : square M -> square (fill_row cs n i M).
Proof.
  unfold fill_row. generalize (seq i (n - i)) as js. intros js. revert M.
  induction js as [| j js IH]; intros M Hsq; [exact Hsq |].
  cbn [foldl]. apply IH, write_pair_square, Hsq.
Qed.

Lemma fill_matrix_diagonal cs n M :
  n <= MAX_CORES -> square M ->
  diagonal_full (fill_matrix cs n M) n.
Proof.
  intros Hn Hsq k Hk. unfold fill_matrix.
  assert (Hgen : forall rows M0,
    square M0 ->
    matrix_get (foldl (fun M i => fill_row cs n i M) M0 rows) k k =
      if decide (k ∈ rows) then CACHE_ISOLATED_FULL else matrix_get M0 k k).
  { induction rows as [| i rows IH]; intros M0 Hsq0.
    - cbn. rewrite decide_False; [reflexivity |]. apply not_elem_of_nil.
    - cbn [foldl]. rewrite IH by (apply fill_row_square; exact Hsq0).
      rewrite fill_row_diagonal by assumption.
      destruct (decide (k ∈ rows)) as [Hin | Hnot].
      + rewrite decide_True; [reflexivity |]. apply elem_of_cons. auto.
      + destruct (decide (k = i /\ i < n)) as [[-> _] | Hne].
        * rewrite decide_True; [reflexivity |]. apply elem_of_cons. auto.
        * rewrite decide_False; [reflexivity |].
          intros Hin. apply elem_of_cons in Hin as [-> | Hin]; [| tauto].
          apply Hne. split; [reflexivity | exact Hk]. }
  rewrite Hgen by exact Hsq. rewrite decide_True; [reflexivity |].
  apply elem_of_seq. lia.
Qed.

(** ** The invariant *)

Section Validator.

Variable topology_checks : topology_state_t -> topology_validation_result_t.

Lemma init_establishes_inv (t0 : topology_state_t) (boot : Boot.boot_facts_t) :
  Boot.sealed boot = true -> topology_inv (snd (topology_init t0 boot)).
Proof.
  intros Hs. unfold topology_init. rewrite Hs. cbn [negb snd].
  constructor; cbn [cache_isolation isolation zero_matrix core_count
                     probed computed sealed];
    try discriminate.
  - apply square_zero.
  - intros i j. rewrite !matrix_get_zero. reflexivity.
  - unfold MAX_CORES. lia.
Qed.

(** Probing cores touches the geometry array only. *)

Lemma probe_core_frame hw t id :
  let t' := snd (topology_probe_core hw t id) in
  cache_isolation t' = cache_isolation t /\ core_count t' = core_count t
  /\ probed t' = probed t /\ sealed t' = sealed t
  /\ boot_facts t' = boot_facts t.
Proof.
  unfold topology_probe_core.
  destruct (sealed t) eqn:Hs; [cbn; rewrite Hs; repeat split |].
  destruct (negb _); [cbn; rewrite Hs; repeat split |].
  destruct (hw id); cbn; rewrite ?Hs; repeat split.
Qed.

Lemma probe_cores_from_frame hw ids t :
  let t' := snd (probe_cores_from hw t ids) in
  cache_isolation t' = cache_isolation t /\ core_count t' = core_count t
  /\ probed t' = probed t /\ sealed t' = sealed t
  /\ boot_facts t' = boot_facts t.
Proof.
  revert t. induction ids as [| id ids IH]; intros t; [cbn; repeat split |].
  cbn [probe_cores_from].
  pose proof (probe_core_frame hw t id) as Hone.
  destruct (topology_probe_core hw t id) as [[|] t1]; cbn [snd] in *.
  - specialize (IH t1). cbn zeta in IH.
    destruct IH as (-> & -> & -> & -> & ->). exact Hone.
  - exact Hone.
Qed.

Lemma step_preserves_inv (op : topology_op) (t : topology_state_t) :
  topology_inv t -> topology_inv (run_topology_op topology_checks op t).
Proof.
  intros Hinv.
  pose proof Hinv as [Hsq Hsym Hbound Hcount Hprobed Hdiag Hsealed].
  destruct op as [boot | hw id | hw | | |]; cbn [run_topology_op].
  - (* init *)
    destruct (Boot.sealed boot) eqn:Hs.
    + apply init_establishes_inv. exact Hs.
    + unfold topology_init. rewrite Hs. exact Hinv.
  - (* probe one core *)
    destruct (probe_core_frame hw t id) as (Hm & Hc & Hp & Hse & Hb).
    constructor; unfold boot_core_count; rewrite ?Hm, ?Hc, ?Hp, ?Hse, ?Hb;
      assumption.
  - (* probe all cores *)
    unfold topology_probe_all_cores.
    destruct (sealed t) eqn:Hts; [exact Hinv |].
    destruct (boot_core_count t <=? MAX_CORES) eqn:Hle; cbn [negb];
      [| exact Hinv].
    apply Nat.leb_le in Hle.
    destruct (probe_cores_from_frame hw (seq 0 (boot_core_count t)) t)
      as (Hm & Hc & Hp & Hse & Hb).
    destruct (probe_cores_from hw t _) as [[|] t1]; cbn [snd] in *.
    + constructor; cbn; unfold boot_core_count in *; cbn;
        rewrite ?Hm, ?Hb; try assumption; try reflexivity.
      * intros Hcomp. rewrite <- Hcount by auto. auto.
      * rewrite Hse, Hts. exact Hsealed.
    + constructor; unfold boot_core_count in *;
        rewrite ?Hm, ?Hc, ?Hp, ?Hse, ?Hb, ?Hts; assumption.
  - (* build the matrix *)
    unfold topology_build_cache_isolation_matrix.
    destruct (sealed t) eqn:Hts; [exact Hinv |].
    destruct (probed t) eqn:Htp; cbn [negb]; [| exact Hinv].
    destruct (fill_matrix_good (cores t) (core_count t)
                (isolation (cache_isolation t)) Hbound (conj Hsq Hsym))
      as [Hsq' Hsym'].
    constructor; cbn; unfold boot_core_count in *; cbn;
      first [ assumption | reflexivity
            | intros _; apply fill_matrix_diagonal; assumption
            | intros; auto; congruence ].
  - (* validate *)
    unfold topology_validate.
    destruct (sealed t) eqn:Hts; [exact Hinv |].
    destruct (topology_checks t); cbn [snd];
      constructor; cbn; unfold boot_core_count in *; cbn; try assumption.
    all: rewrite Hts; exact Hsealed.
  - (* seal *)
    unfold topology_seal.
    destruct (validated t); cbn [negb]; [| exact Hinv].
    destruct (computed (cache_isolation t)) eqn:Hcomp; cbn [negb];
      [| exact Hinv].
    destruct (sealed t) eqn:Hts; [exact Hinv |].
    constructor; cbn; unfold boot_core_count in *; cbn;
      first [ assumption | rewrite Hcomp; assumption
            | intros _; exact Hcomp ].
Qed.

Lemma reachable_inv (t : topology_state_t) :
  topology_reachable topology_checks t -> topology_inv t.
Proof.
  induction 1 as [t0 boot Hs | op t _ IH].
  - apply init_establishes_inv. exact Hs.
  - apply step_preserves_inv. exact IH.
Qed.

(** C8.  In a sealed topology the isolation query is symmetric in its two
    core ids, and for every core of the topology the query of the core
    against itself gives [CACHE_ISOLATED_FULL]. *)
Theorem cache_isolation_matrix_symmetric (t : topology_state_t) :
  topology_reachable topology_checks t -> sealed t = true ->
  (forall i j : core_id_t,
     topology_get_cache_isolation t i j = topology_get_cache_isolation t j i)
  /\ (forall i : core_id_t,
        i < core_count t ->
        topology_get_cache_isolation t i i = CACHE_ISOLATED_FULL).
Proof.
  intros Hreach Hs. apply reachable_inv in Hreach.
  destruct Hreach as [_ Hsym _ _ _ Hdiag Hsealed].
  unfold topology_get_cache_isolation. split.
  - exact Hsym.
  - apply Hdiag, Hsealed, Hs.
Qed.

End Validator.

Lemma quad_lifecycle_reachable :
  topology_reachable accept_all (quad_lifecycle blank_topology).
Proof.
  unfold quad_lifecycle. repeat apply treach_step.
  apply treach_init. reflexivity.
Defined.

Lemma cache_isolation_matrix_symmetric_witness :
  sealed (quad_lifecycle blank_topology) = true
  /\ topology_get_cache_isolation (quad_lifecycle blank_topology) 0 1
     = topology_get_cache_isolation (quad_lifecycle blank_topology) 1 0
  /\ topology_get_cache_isolation (quad_lifecycle blank_topology) 3 3
     = CACHE_ISOLATED_FULL.
Proof.
  assert (Hs : sealed (quad_lifecycle blank_topology) = true)
    by (vm_compute; reflexivity).
  assert (Hn : 3 < core_count (quad_lifecycle blank_topology))
    by (vm_compute; lia).
  split; [exact Hs |].
  destruct (cache_isolation_matrix_symmetric accept_all
              (quad_lifecycle blank_topology) quad_lifecycle_reachable Hs)
    as [Hsym Hdiag].
  split; [apply Hsym | apply Hdiag, Hn].
Defined.

(** The minimal-pass scenario: private L1 and L2 under a shared L3 give
    [CACHE_ISOLATED_L2] between cores 0 and 1. *)
Example minimal_pass_isolation :
  topology_get_cache_isolation (quad_lifecycle blank_topology) 0 1
  = CACHE_ISOLATED_L2.
Proof. vm_compute. reflexivity. Qed.

End TopologyProps.

(** * Further properties of the boot stage *)

Module BootExtraProps.
Import Boot BootReport BootProps.

(** ** Error strings *)

(** X1.  [boot_error_string] gives every error code a text of its own,
    and none of them is the text of the [default] branch. *)
Theorem boot_error_string_injective :
  (forall a b : boot_error_t,
     boot_error_string a = boot_error_string b -> a = b)
  /\ (forall a : boot_error_t, boot_error_string a <> unknown_error_string).
Proof.
  split.
  - intros a b H. destruct a; destruct b; (reflexivity || discriminate H).
  - intros a. destruct a; discriminate.
Qed.

(** ** The bounded error log *)

Lemma ctx_is_weaken ctx l w n m :
  ctx_is ctx l w n -> (n <= m)%nat -> ctx_is ctx l w m.
Proof.
  intros (H1 & H2 & H3 & H4 & H5) Hle. repeat split; try assumption. lia.
Qed.

Lemma add_error_at_bound ctx l w e sev :
  ctx_is ctx l w 32 -> length l = 32%nat ->
  ctx_is (boot_validation_context_add_error ctx e sev) l (worse sev w) 32.
Proof.
  intros (Hlen & Hcnt & Hrec & Hw & Hn) Hfull.
  destruct (add_error_full ctx e sev) as (He & Hc & Hworst); [lia |].
  unfold ctx_is, recorded_errors in *.
  rewrite He, Hc, Hworst, Hw. repeat split; assumption.
Qed.

Lemma add_errors_log l : forall ctx l0 w,
  ctx_is ctx l0 w 32 ->
  ctx_is (add_errors ctx l) (take 32 (l0 ++ map fst l))
         (fold_left (fun w s => worse s w) (map snd l) w) 32.
Proof.
  induction l as [| [e sev] l IH]; intros ctx l0 w Hctx.
  - cbn. rewrite app_nil_r.
    destruct Hctx as (H1 & H2 & H3 & H4 & H5).
    rewrite take_ge by lia. repeat split; assumption.
  - cbn [add_errors fold_left map fst snd].
    destruct (decide (length l0 = 32%nat)) as [Hfull | Hroom].
    + pose proof (add_error_at_bound ctx l0 w e sev Hctx Hfull) as Hstep.
      specialize (IH _ _ _ Hstep).
      rewrite take_app_le in IH by lia. rewrite take_app_le by lia.
      exact IH.
    + assert (Hlt : (length l0 < 32)%nat)
        by (destruct Hctx as (_ & _ & _ & _ & ?); lia).
      assert (Hctx' : ctx_is ctx l0 w (length l0)).
      { destruct Hctx as (H1 & H2 & H3 & H4 & H5). repeat split; auto. }
      pose proof (add_error_appends ctx l0 w (length l0) e sev Hctx' Hlt)
        as Hstep.
      apply ctx_is_weaken with (m := 32%nat) in Hstep; [| lia].
      specialize (IH _ _ _ Hstep).
      rewrite <- app_assoc in IH. exact IH.
Qed.

Lemma worst_fold_hard_fail (ss : list boot_validation_result_t) : forall w,
  is_hard_fail (fold_left (fun w s => worse s w) ss w)
  = is_hard_fail w || existsb is_hard_fail ss.
Proof.
  induction ss as [| s ss IH]; intros w; cbn.
  - rewrite orb_false_r. reflexivity.
  - rewrite IH. destruct s, w; reflexivity.
Qed.

Lemma existsb_snd {A B} (f : B -> bool) (l : list (A * B)) :
  existsb f (map snd l) = existsb (fun x => f (snd x)) l.
Proof. induction l as [| x l IH]; cbn; [reflexivity | by rewrite IH]. Qed.

(** X2.  Whatever errors are added to a freshly initialised context, the
    log holds the first 32 of them in order, the count never exceeds the
    32 slots, and the context forbids booting exactly when one of the
    errors, stored or not, was a hard failure. *)
Theorem add_errors_bounded_log (ctx0 : boot_validation_context_t)
    (l : list (boot_error_t * boot_validation_result_t)) :
  let ctx := add_errors (boot_validation_context_init ctx0) l in
  recorded_errors ctx = take 32 (map fst l)
  /\ error_count ctx = Z.of_nat (min (length l) 32)
  /\ length (errors ctx) = 32%nat
  /\ boot_validation_allows_boot ctx
     = negb (existsb (fun es => is_hard_fail (snd es)) l).
Proof.
  cbn zeta.
  pose proof (add_errors_log l _ _ _ (ctx_is_weaken _ _ _ _ 32%nat
                (ctx_is_init ctx0) ltac:(lia))) as (Hlen & Hcnt & Hrec & Hw & _).
  cbn [app] in *. repeat split; try assumption.
  - rewrite Hcnt, length_take, length_map. f_equal. lia.
  - unfold boot_validation_allows_boot. rewrite Hw, worst_fold_hard_fail.
    cbn [is_hard_fail orb]. f_equal. apply existsb_snd.
Qed.

(** ** Validation, then the seal *)

(** X3.  After [boot_validate] on a record that is not sealed,
    [boot_validation_allows_boot] holds exactly when no hard-fail
    condition does; then [boot_seal] succeeds and yields the record with
    [validated] and [sealed] set and nothing else changed.  When it does
    not hold and the record was not validated before, [boot_seal]
    refuses. *)
Theorem validate_then_seal (facts : boot_facts_t)
    (ctx : boot_validation_context_t) :
  sealed facts = false ->
  let facts' := snd (fst (boot_validate facts ctx)) in
  let ctx' := snd (boot_validate facts ctx) in
  (boot_validation_allows_boot ctx' = true <-> ~ hard_fail_condition facts)
  /\ (boot_validation_allows_boot ctx' = true ->
        boot_seal facts' = (true, set_sealed true (set_validated true facts)))
  /\ (boot_validation_allows_boot ctx' = false ->
        validated facts = false -> boot_seal facts' = (false, facts)).
Proof.
  intros Hs. cbn zeta.
  destruct (boot_validate_context facts ctx) as (Hr & _ & _ & _ & _).
  unfold boot_validation_allows_boot. rewrite <- Hr.
  rewrite boot_validate_facts, boot_validate_result.
  rewrite <- hard_fail_conditionb_spec.
  destruct (hard_fail_conditionb facts); cbn.
  - repeat split; try discriminate; try (intros; congruence).
    intros _ Hv. unfold boot_seal. rewrite Hv. reflexivity.
  - destruct (warn_conditionb facts); cbn;
      (repeat split; try discriminate; try (intros; congruence);
       intros _; unfold boot_seal; cbn; rewrite Hs; reflexivity).
Qed.

Lemma validate_then_seal_witness :
  sealed smt_reference = false
  /\ boot_seal (snd (fst (boot_validate smt_reference empty_ctx)))
     = (true, set_sealed true (set_validated true smt_reference)).
Proof.
  split; [reflexivity |].
  destruct (validate_then_seal smt_reference empty_ctx eq_refl)
    as (_ & Hseal & _).
  apply Hseal. vm_compute. reflexivity.
Defined.

(** X4.  [boot_validate] can be repeated: a second call, with any
    context, returns the same verdict and leaves the same context, and
    does not change the record again. *)
Theorem boot_validate_idempotent (facts : boot_facts_t)
    (ctx1 ctx2 : boot_validation_context_t) :
  let '(r, facts', ctx') := boot_validate facts ctx1 in
  boot_validate facts' ctx2 = (r, facts', ctx').
Proof.
  unfold boot_validate.
  change (boot_validation_context_init ctx2)
    with (boot_validation_context_init ctx1).
  destruct (probed facts) eqn:Hp; cbn [negb].
  - destruct (is_hard_fail (worst_result _)) eqn:Hh; cbn [negb].
    + rewrite Hp. cbn [negb]. rewrite Hh. reflexivity.
    + cbn. rewrite Hp. cbn [negb]. rewrite Hh. reflexivity.
  - rewrite Hp. reflexivity.
Qed.

(** ** A failed probe *)

(** What a failing run leaves behind, by the step it fails at. *)

Lemma failed_probe_cases (p : probe_provider) (facts : boot_facts_t) :
  sealed facts = false ->
  fst (boot_probe p facts) = false ->
  let ci := fst (boot_probe_cpu_info p (cpu_info facts)) in
  let ct := fst (boot_probe_cache_topology p (cache_topology facts)) in
  snd (boot_probe p facts) = set_cpu_info ci facts
  \/ snd (boot_probe p facts)
     = set_cache_topology ct (set_cpu_info ci facts)
  \/ snd (boot_probe p facts)
     = set_cpu_count 0 (set_cache_topology ct (set_cpu_info ci facts)).
Proof.
  intros Hs. cbn zeta.
  destruct (boot_probe_replay p facts Hs) as [-> ->].
  split_responses p facts; to_arith; intros Hret; try discriminate Hret;
    cbn; rewrite ?Hcount; auto.
Qed.

Lemma boot_probe_sequence_frame (p : probe_provider) (facts : boot_facts_t) :
  sealed facts = false ->
  fst (boot_probe p facts) = false ->
  let facts' := snd (boot_probe p facts) in
  probed facts' = probed facts
  /\ validated facts' = validated facts
  /\ sealed facts' = sealed facts
  /\ numa_nodes facts' = numa_nodes facts
  /\ smt_enabled facts' = smt_enabled facts
  /\ threads_per_core facts' = threads_per_core facts
  /\ constant_time facts' = constant_time facts
  /\ constant_time_supported facts' = constant_time_supported facts
  /\ cache_control facts' = cache_control facts
  /\ cache_partitioning_supported facts' = cache_partitioning_supported facts
  /\ memory_protection facts' = memory_protection facts
  /\ memory_encryption_supported facts' = memory_encryption_supported facts
  /\ side_channel_mitigation facts' = side_channel_mitigation facts
  /\ side_channel_mitigations_available facts'
     = side_channel_mitigations_available facts
  /\ trng_available facts' = trng_available facts
  /\ total_memory_mb facts' = total_memory_mb facts
  /\ uefi_boot facts' = uefi_boot facts
  /\ secure_boot_enabled facts' = secure_boot_enabled facts.
Proof.
  intros Hs Hfail. cbn zeta.
  destruct (failed_probe_cases p facts Hs Hfail) as [-> | [-> | ->]];
    repeat split.
Qed.

(** X5.  When the probe of a freshly initialised record fails, the record
    cannot be sealed: it is not probed, validation fails hard reporting
    [BOOT_ERROR_CPU_DETECTION_FAILED] alone, and [boot_seal] refuses. *)
Theorem failed_probe_blocks_seal (p : probe_provider) (f0 : boot_facts_t)
    (ctx : boot_validation_context_t) :
  fst (boot_probe p (boot_init f0)) = false ->
  let facts := snd (boot_probe p (boot_init f0)) in
  probed facts = false
  /\ fst (fst (boot_validate facts ctx)) = BOOT_VALIDATION_HARD_FAIL
  /\ recorded_errors (snd (boot_validate facts ctx))
     = [BOOT_ERROR_CPU_DETECTION_FAILED]
  /\ boot_seal (snd (fst (boot_validate facts ctx))) = (false, facts).
Proof.
  intros Hfail. cbn zeta.
  destruct (boot_probe_sequence_frame p (boot_init f0) eq_refl Hfail)
    as (Hprobed & Hval & _).
  cbn in Hprobed, Hval.
  destruct (boot_validate_context (snd (boot_probe p (boot_init f0))) ctx)
    as (_ & Hrec & _).
  rewrite Hprobed in Hrec.
  rewrite boot_validate_facts, boot_validate_result.
  unfold hard_fail_conditionb. rewrite Hprobed. cbn.
  repeat split; try assumption.
  unfold boot_seal. rewrite Hval. reflexivity.
Qed.

Lemma failed_probe_blocks_seal_witness :
  fst (boot_probe weak_defaults (boot_init uninitialised)) = false
  /\ recorded_errors
       (snd (boot_validate
               (snd (boot_probe weak_defaults (boot_init uninitialised)))
               empty_ctx))
     = [BOOT_ERROR_CPU_DETECTION_FAILED].
Proof.
  assert (Hfail : fst (boot_probe weak_defaults (boot_init uninitialised))
                  = false) by (vm_compute; reflexivity).
  split; [exact Hfail |].
  destruct (failed_probe_blocks_seal weak_defaults uninitialised empty_ctx
              Hfail) as (_ & _ & Hrec & _).
  exact Hrec.
Defined.



(** ** Probing again *)

(** X7.  [boot_probe] does not withdraw a validation: on a record that is
    validated and not sealed, [boot_seal] succeeds right after any
    [boot_probe], whether that probe succeeded or failed and whatever it
    wrote. *)
Theorem seal_after_reprobe (p : probe_provider) (facts : boot_facts_t) :
  validated facts = true -> sealed facts = false ->
  fst (boot_seal (snd (boot_probe p facts))) = true
  /\ snd (boot_seal (snd (boot_probe p facts)))
     = set_sealed true (snd (boot_probe p facts)).
Proof.
  intros Hv Hs.
  destruct (boot_probe_flags p facts) as [Hv' Hs'].
  unfold boot_seal. rewrite Hv', Hs', Hv, Hs. split; reflexivity.
Qed.

Lemma seal_after_reprobe_witness :
  validated validated_reference = true
  /\ sealed validated_reference = false
  /\ fst (boot_probe single_core validated_reference) = true
  /\ cpu_count (snd (boot_probe single_core validated_reference)) = 1
  /\ fst (boot_seal (snd (boot_probe single_core validated_reference))) = true.
Proof.
  split; [reflexivity |]. split; [reflexivity |].
  split; [vm_compute; reflexivity |]. split; [vm_compute; reflexivity |].
  destruct (seal_after_reprobe single_core validated_reference eq_refl eq_refl)
    as [Hok _].
  exact Hok.
Defined.

(** ** The first validation *)

Lemma replay_success_cache (p : probe_provider) (facts : boot_facts_t) :
  fst (replay (provider_responses p facts) facts) = true ->
  cache_topology (snd (replay (provider_responses p facts) facts))
  = fst (boot_probe_cache_topology p (cache_topology facts)).
Proof.
  split_responses p facts; intros Hret; try discriminate Hret;
    destruct ok1, ok2, ok3, ok4; cbn -[u32 u64 Z.eqb];
    destruct (u32 (boot_probe_numa_node_count p) =? 0); reflexivity.
Qed.

(** X8.  After [boot_init] and a successful [boot_probe], validation
    fails hard exactly when the provider reported a single core or left
    the cache topology with no level; the probe itself has excluded the
    other two hard-fail conditions. *)
Theorem first_validation_hard_fail (p : probe_provider)
    (f0 facts' : boot_facts_t) (ctx : boot_validation_context_t) :
  boot_probe p (boot_init f0) = (true, facts') ->
  (fst (fst (boot_validate facts' ctx)) = BOOT_VALIDATION_HARD_FAIL <->
     u32 (boot_probe_cpu_count p) = 1
     \/ level_count (fst (boot_probe_cache_topology p cache_topology_zero)) = 0)
  /\ probed facts' = true
  /\ 1 <= cpu_count facts'
  /\ 1 <= numa_nodes facts'.
Proof.
  intros Hprobe.
  destruct (boot_probe_replay p (boot_init f0) eq_refl) as [Hrep Htr].
  rewrite Htr in Hrep. rewrite Hrep in Hprobe.
  pose proof (replay_success_smt p (boot_init f0)) as Hs.
  pose proof (replay_success_cache p (boot_init f0)) as Hc.
  rewrite Hprobe in Hs, Hc. cbn [fst snd] in Hs, Hc.
  destruct (Hs eq_refl) as (_ & _ & Hnuma & Hcount & Hnz & Hprobed).
  specialize (Hc eq_refl).
  change (cache_topology (boot_init f0)) with cache_topology_zero in Hc.
  pose proof (u32_range (boot_probe_cpu_count p)) as Hr1.
  pose proof (u32_range (boot_probe_numa_node_count p)) as Hr2.
  assert (Hn : 1 <= numa_nodes facts').
  { rewrite Hnuma. destruct (_ =? 0) eqn:Hz; to_arith; lia. }
  repeat split; try assumption; try lia.
  - intros Hhard. rewrite boot_validate_result in Hhard.
    destruct (hard_fail_conditionb facts') eqn:Hh;
      [| destruct (warn_conditionb facts'); discriminate Hhard].
    apply hard_fail_conditionb_spec in Hh.
    destruct Hh as [Hp | [Hcores | [Hlev | Hnum]]].
    + congruence.
    + left. lia.
    + right. congruence.
    + lia.
  - intros Hcase. rewrite boot_validate_result.
    assert (Hh : hard_fail_conditionb facts' = true).
    { apply hard_fail_conditionb_spec. destruct Hcase as [Hone | Hlev].
      - right. left. lia.
      - right. right. left. congruence. }
    rewrite Hh. reflexivity.
Qed.

Lemma first_validation_hard_fail_witness :
  boot_probe single_core (boot_init uninitialised)
    = (true, snd (boot_probe single_core (boot_init uninitialised)))
  /\ fst (fst (boot_validate
                 (snd (boot_probe single_core (boot_init uninitialised)))
                 empty_ctx))
     = BOOT_VALIDATION_HARD_FAIL.
Proof.
  assert (Hprobe :
    boot_probe single_core (boot_init uninitialised)
    = (true, snd (boot_probe single_core (boot_init uninitialised))))
    by (vm_compute; reflexivity).
  split; [exact Hprobe |].
  destruct (first_validation_hard_fail single_core uninitialised _ empty_ctx
              Hprobe) as (Hiff & _).
  apply Hiff. left. vm_compute. reflexivity.
Defined.

(** ** The printed report *)

Lemma error_lines_recorded (ctx : boot_validation_context_t) :
  (Z.to_nat (error_count ctx) <= length (errors ctx))%nat ->
  map (error_line ctx) (seq 0 (Z.to_nat (error_count ctx)))
  = imap (fun i e => ("  [" ++ pretty i ++ "] " ++ boot_error_string e)%string)
         (recorded_errors ctx).
Proof.
  intros Hle. unfold recorded_errors.
  apply list_eq. intros i.
  rewrite list_lookup_fmap, list_lookup_imap.
  destruct (decide (i < Z.to_nat (error_count ctx))%nat) as [Hlt | Hge].
  - rewrite lookup_seq_lt by assumption. rewrite lookup_take_lt by assumption.
    destruct (lookup_lt_is_Some_2 (errors ctx) i) as [e He]; [lia |].
    cbn. unfold error_line. rewrite He. reflexivity.
  - rewrite lookup_seq_ge by lia. rewrite lookup_take_ge by lia. reflexivity.
Qed.

(** X9.  Printing the context that [boot_validate] leaves gives the
    summary line with the number of errors, the line of the verdict, and
    then the text of each triggered check, numbered from 0 in the order of
    the checks. *)
Theorem validation_report_lines (facts : boot_facts_t)
    (ctx : boot_validation_context_t) :
  let r := fst (fst (boot_validate facts ctx)) in
  let ctx' := snd (boot_validate facts ctx) in
  let reported :=
    if probed facts then map fst (triggered facts)
    else [BOOT_ERROR_CPU_DETECTION_FAILED] in
  boot_validation_context_print ctx'
  = ("Boot validation summary: " ++ pretty (Z.of_nat (length reported))
     ++ " error(s)")%string
    :: result_line r
    :: imap (fun i e =>
               ("  [" ++ pretty i ++ "] " ++ boot_error_string e)%string)
            reported.
Proof.
  cbn zeta.
  destruct (boot_validate_context facts ctx) as (Hr & Hrec & Hcnt & Hlen & _).
  unfold boot_validation_context_print.
  rewrite error_lines_recorded.
  - rewrite <- Hr, Hcnt, Hrec. reflexivity.
  - rewrite Hcnt, Nat2Z.id, Hlen. unfold recorded_errors.
    rewrite length_take. lia.
Qed.

End BootExtraProps.

(** * Properties of the x86_64 back-end *)

Module X86Props.
Import Boot BootProps X86Probe.

(** ** Registers and masks *)

Lemma cpuid_range hw leaf sub :
  let '(a, b, c, d) := cpuid hw leaf sub in
  0 <= a < 2 ^ 32 /\ 0 <= b < 2 ^ 32 /\ 0 <= c < 2 ^ 32 /\ 0 <= d < 2 ^ 32.
Proof.
  unfold cpuid. destruct (hw leaf sub) as [[[a b] c] d].
  repeat split; apply u32_range.
Qed.

Lemma land_ones_bound (x k : Z) : 0 <= k -> 0 <= Z.land x (Z.ones k) < 2 ^ k.
Proof.
  intros Hk. rewrite Z.land_ones by assumption.
  apply Z.mod_pos_bound. apply Z.pow_pos_nonneg; lia.
Qed.

Ltac geb_arith :=
  repeat match goal with
  | H : (_ >=? _) = true |- _ => rewrite Z.geb_leb in H; apply Z.leb_le in H
  | H : (_ >=? _) = false |- _ => rewrite Z.geb_leb in H; apply Z.leb_gt in H
  | H : (_ >? _) = true |- _ => rewrite Z.gtb_ltb in H; apply Z.ltb_lt in H
  | H : (_ >? _) = false |- _ => rewrite Z.gtb_ltb in H; apply Z.ltb_ge in H
  end.

Lemma land_7 x : 0 <= Z.land x 7 <= 7.
Proof.
  pose proof (land_ones_bound x 3 ltac:(lia)) as H.
  change (Z.ones 3) with 7 in H. change (2 ^ 3) with 8 in H.
  lia.
Qed.
Lemma land_15 x : 0 <= Z.land x 15 <= 15.
Proof.
  pose proof (land_ones_bound x 4 ltac:(lia)) as H.
  change (Z.ones 4) with 15 in H. change (2 ^ 4) with 16 in H.
  lia.
Qed.
Lemma land_31 x : 0 <= Z.land x 31 <= 31.
Proof.
  pose proof (land_ones_bound x 5 ltac:(lia)) as H.
  change (Z.ones 5) with 31 in H. change (2 ^ 5) with 32 in H.
  lia.
Qed.
Lemma land_255 x : 0 <= Z.land x 255 <= 255.
Proof.
  pose proof (land_ones_bound x 8 ltac:(lia)) as H.
  change (Z.ones 8) with 255 in H. change (2 ^ 8) with 256 in H.
  lia.
Qed.
Lemma land_1023 x : 0 <= Z.land x 1023 <= 1023.
Proof.
  pose proof (land_ones_bound x 10 ltac:(lia)) as H.
  change (Z.ones 10) with 1023 in H. change (2 ^ 10) with 1024 in H.
  lia.
Qed.
Lemma land_4095 x : 0 <= Z.land x 4095 <= 4095.
Proof.
  pose proof (land_ones_bound x 12 ltac:(lia)) as H.
  change (Z.ones 12) with 4095 in H. change (2 ^ 12) with 4096 in H.
  lia.
Qed.
Lemma land_65535 x : 0 <= Z.land x 65535 <= 65535.
Proof.
  pose proof (land_ones_bound x 16 ltac:(lia)) as H.
  change (Z.ones 16) with 65535 in H. change (2 ^ 16) with 65536 in H.
  lia.
Qed.

(** ** Core count and NUMA *)

Lemma x86_cpu_count_bounds (hw : Z -> Z -> Z * Z * Z * Z) :
  0 <= boot_probe_cpu_count hw <= 65535
  /\ u32 (boot_probe_cpu_count hw) = boot_probe_cpu_count hw.
Proof.
  assert (H : 0 <= boot_probe_cpu_count hw <= 65535).
  { unfold boot_probe_cpu_count.
    destruct (cpuid hw 0 0) as [[[eax ?] ?] ?].
    destruct (cpuid hw 11 1) as [[[? ebx11] ?] ?].
    destruct (cpuid hw 1 0) as [[[? ebx1] ?] ?].
    pose proof (land_65535 ebx11). pose proof (land_255 (Z.shiftr ebx1 16)).
    destruct (eax >=? 11); [| destruct (eax >=? 1)]; lia. }
  split; [exact H | apply u32_id; lia].
Qed.

(** X10.  The x86_64 core count is a 16-bit value; it is 0 when the
    highest basic leaf is 0, and at most 255 when leaf 0xB is missing. *)
Theorem x86_cpu_count_range (hw : Z -> Z -> Z * Z * Z * Z) :
  0 <= boot_probe_cpu_count hw <= 65535
  /\ (max_basic_leaf hw < 1 -> boot_probe_cpu_count hw = 0)
  /\ (max_basic_leaf hw < 11 -> boot_probe_cpu_count hw <= 255)
  /\ u32 (boot_probe_cpu_count hw) = boot_probe_cpu_count hw.
Proof.
  assert (H : 0 <= boot_probe_cpu_count hw <= 65535
              /\ (max_basic_leaf hw < 1 -> boot_probe_cpu_count hw = 0)
              /\ (max_basic_leaf hw < 11 -> boot_probe_cpu_count hw <= 255)).
  { unfold boot_probe_cpu_count, max_basic_leaf.
    destruct (cpuid hw 0 0) as [[[eax ?] ?] ?].
    destruct (cpuid hw 11 1) as [[[? ebx11] ?] ?].
    destruct (cpuid hw 1 0) as [[[? ebx1] ?] ?].
    pose proof (land_65535 ebx11). pose proof (land_255 (Z.shiftr ebx1 16)).
    destruct (eax >=? 11) eqn:H11; [| destruct (eax >=? 1) eqn:H1];
      geb_arith; lia. }
  destruct H as (Hr & H0 & H255). repeat split; try tauto; try lia.
  apply u32_id. lia.
Qed.

(** X11.  The x86_64 NUMA count lies between 1 and 8: the fall-back to 1
    inside the probe is never taken, and neither is the one in
    [boot_probe], so a probed record holds the count as the back-end
    computed it. *)
Theorem x86_numa_count_range (hw : Z -> Z -> Z * Z * Z * Z)
    (f0 facts' : boot_facts_t) :
  1 <= boot_probe_numa_node_count hw <= 8
  /\ (boot_probe (provider hw) (boot_init f0) = (true, facts') ->
      numa_nodes facts' = boot_probe_numa_node_count hw).
Proof.
  assert (Hr : 1 <= boot_probe_numa_node_count hw <= 8).
  { unfold boot_probe_numa_node_count.
    destruct (cpuid hw 2147483648 0) as [[[eax ?] ?] ?].
    destruct (cpuid hw 2147483678 0) as [[[? ?] ecx] ?].
    pose proof (land_7 (Z.shiftr ecx 8)).
    destruct (eax >=? 2147483678); [| lia].
    rewrite u32_id by lia.
    destruct (_ >? 0) eqn:Hpos; geb_arith; lia. }
  split; [exact Hr |].
  intros Hprobe.
  destruct (boot_probe_replay (provider hw) (boot_init f0) eq_refl)
    as [Hrep Htr].
  rewrite Htr in Hrep. rewrite Hrep in Hprobe.
  pose proof (replay_success_smt (provider hw) (boot_init f0)) as Hs.
  rewrite Hprobe in Hs. cbn [fst snd] in Hs.
  destruct (Hs eq_refl) as (_ & _ & Hnuma & _). clear Hs.
  change (Boot.boot_probe_numa_node_count (provider hw))
    with (boot_probe_numa_node_count hw) in Hnuma.
  rewrite u32_id in Hnuma by lia. rewrite Hnuma.
  destruct (boot_probe_numa_node_count hw =? 0) eqn:Hz; to_arith; lia.
Qed.

(** ** SMT *)

(** X12.  When the x86_64 back-end reports SMT, the HTT flag of leaf 1 is
    set, and the thread count it reports is at least 2 exactly when leaf
    0xB exists; below leaf 0xB the thread count is always 1. *)
Theorem x86_smt_threads_consistency (hw : Z -> Z -> Z * Z * Z * Z) :
  let smt := X86.boot_probe_smt_enabled (cpuid hw) in
  let threads := X86.boot_probe_threads_per_core (cpuid hw) in
  (max_basic_leaf hw < 11 -> threads = 1)
  /\ (smt = true -> (2 <= threads <-> 11 <= max_basic_leaf hw))
  /\ (smt = true ->
        1 <= max_basic_leaf hw
        /\ bit (let '(_, _, _, edx) := cpuid hw 1 0 in edx) 28 = true)
  /\ 0 <= threads <= 65535.
Proof.
  cbn zeta.
  unfold X86.boot_probe_smt_enabled, X86.boot_probe_threads_per_core,
    max_basic_leaf, bit.
  destruct (cpuid hw 0 0) as [[[eax ?] ?] ?].
  destruct (cpuid hw 1 0) as [[[? ebx1] ?] edx1].
  destruct (cpuid hw 11 0) as [[[? ebx11] ?] ?].
  pose proof (land_65535 ebx11).
  destruct (eax >=? 1) eqn:H1, (eax >=? 11) eqn:H11; geb_arith;
    destruct (negb (Z.land (Z.shiftr edx1 28) 1 =? 0)) eqn:Hhtt;
    repeat split; intros; try discriminate; try lia; geb_arith; try lia.
Qed.

(** ** Probes that cannot fail *)

Lemma x86_probes_succeed (hw : Z -> Z -> Z * Z * Z * Z) :
  (forall x, snd (boot_probe_cpu_info hw x) = true
             /\ cpu_info_valid (fst (boot_probe_cpu_info hw x)) = true)
  /\ (forall x, snd (boot_probe_constant_time_support hw x) = true
                /\ constant_time_valid
                     (fst (boot_probe_constant_time_support hw x)) = true)
  /\ (forall x, snd (boot_probe_cache_control hw x) = true
                /\ cache_control_valid (fst (boot_probe_cache_control hw x))
                   = true)
  /\ (forall x, snd (boot_probe_memory_protection hw x) = true
                /\ memory_protection_valid
                     (fst (boot_probe_memory_protection hw x)) = true)
  /\ (forall x, snd (boot_probe_side_channel_mitigation hw x) = true
                /\ side_channel_valid
                     (fst (boot_probe_side_channel_mitigation hw x)) = true).
Proof.
  repeat split; intros;
    unfold boot_probe_cpu_info, boot_probe_constant_time_support,
      boot_probe_cache_control, boot_probe_memory_protection,
      boot_probe_side_channel_mitigation; cbn [cpuid_available negb];
    repeat match goal with
    | |- context [let '(_, _) := ?c in _] => destruct c
    | |- context [if ?b then _ else _] => destruct b
    end; reflexivity.
Qed.

(** ** Cache topology *)

Lemma cache_entry_bounds (eax ebx ecx edx : Z) :
  let e := cache_entry eax ebx ecx edx in
  cache_info_valid e = true
  /\ 1 <= level e <= 8 /\ 1 <= line_size e <= 4096 /\ 1 <= ways e <= 1024
  /\ 0 <= size_kb e < 2 ^ 22.
Proof.
  unfold cache_entry. cbn [cache_info_valid level line_size ways size_kb].
  pose proof (land_7 (Z.shiftr eax 5)). pose proof (land_4095 ebx).
  pose proof (land_1023 (Z.shiftr ebx 22)).
  rewrite !(u32_id (Z.land _ _ + 1)) by lia.
  repeat split; try lia.
  - apply Z.div_pos; [apply u32_range | lia].
  - apply Z.div_lt_upper_bound; [lia |].
    pose proof (u32_range (((Z.land (Z.shiftr ebx 22) 1023 + 1)
                            * (Z.land ebx 4095 + 1)) * u32 (ecx + 1))).
    lia.
Qed.

(** The loop from sub-leaf [k] on, entered with [level_count = k]. *)

Lemma cache_level_loop_spec hw : forall n k cache,
  level_count cache = Z.of_nat k -> (k + n <= 4)%nat ->
  let cache' := cache_level_loop hw (map Z.of_nat (seq k n)) cache in
  exists m : nat,
    (k <= m <= k + n)%nat
    /\ level_count cache' = Z.of_nat m
    /\ (forall i, (k <= i < m)%nat -> cache_type_of hw (Z.of_nat i) <> 0)
    /\ ((m < k + n)%nat -> cache_type_of hw (Z.of_nat m) = 0)
    /\ length (levels cache') = length (levels cache)
    /\ (forall i, (k <= i < m)%nat -> (i < length (levels cache))%nat ->
          levels cache' !! i = Some (cache_entry_at hw (Z.of_nat i)))
    /\ (forall i, ~ (k <= i < m)%nat -> levels cache' !! i = levels cache !! i).
Proof.
  induction n as [| n IH]; intros k cache Hk Hle; cbn zeta.
  - exists k. cbn. split_and!; auto; try lia; intros; lia.
  - cbn [seq map cache_level_loop].
    unfold cache_level_step, cache_type_of, cache_entry_at in *.
    destruct (cpuid hw 4 (Z.of_nat k)) as [[[eax ebx] ecx] edx] eqn:Hregs.
    destruct (Z.land eax 31 =? 0) eqn:Htype.
    + exists k. apply Z.eqb_eq in Htype.
      split_and!; auto; try lia; try (intros; lia).
      intros _. rewrite Hregs. exact Htype.
    + apply Z.eqb_neq in Htype.
      set (cache1 := mk_cache_topology _ _).
      assert (Hk1 : level_count cache1 = Z.of_nat (S k)).
      { unfold cache1. cbn [level_count]. rewrite Hk. rewrite u32_id; lia. }
      destruct (IH (S k) cache1 Hk1 ltac:(lia))
        as (m & Hm & Hcount & Hnz & Hzero & Hlen & Hin & Hout).
      cbn zeta in *.
      assert (Hlev1 : levels cache1
                      = <[k := cache_entry eax ebx ecx edx]> (levels cache)).
      { unfold cache1. cbn [levels]. rewrite Hk, Nat2Z.id. reflexivity. }
      assert (G1 : forall i, (k <= i < m)%nat ->
                (let '(a, _, _, _) := cpuid hw 4 (Z.of_nat i) in Z.land a 31)
                <> 0).
      { intros i Hi. destruct (decide (i = k)) as [-> | Hne].
        - rewrite Hregs. exact Htype.
        - apply Hnz. lia. }
      assert (G2 : length (levels (cache_level_loop hw
                             (map Z.of_nat (seq (S k) n)) cache1))
                   = length (levels cache)).
      { rewrite Hlen, Hlev1. apply length_insert. }
      assert (G3 : forall i, (k <= i < m)%nat ->
                (i < length (levels cache))%nat ->
                levels (cache_level_loop hw (map Z.of_nat (seq (S k) n)) cache1)
                  !! i
                = Some (let '(a, b, c, d) := cpuid hw 4 (Z.of_nat i) in
                        cache_entry a b c d)).
      { intros i Hi Hlt. destruct (decide (i = k)) as [-> | Hne].
        - rewrite Hout by lia. rewrite Hlev1, Hregs.
          apply list_lookup_insert_eq. exact Hlt.
        - apply Hin; [lia |]. rewrite Hlev1, length_insert. exact Hlt. }
      assert (G4 : forall i, ~ (k <= i < m)%nat ->
                levels (cache_level_loop hw (map Z.of_nat (seq (S k) n)) cache1)
                  !! i
                = levels cache !! i).
      { intros i Hi. rewrite Hout by lia. rewrite Hlev1.
        apply list_lookup_insert_ne. lia. }
      exists m. split_and!; try assumption; try lia.
Qed.

Lemma cache_topology_spec hw cache :
  let cache' := fst (boot_probe_cache_topology hw cache) in
  exists m : nat,
    (m <= 4)%nat
    /\ level_count cache' = Z.of_nat m
    /\ snd (boot_probe_cache_topology hw cache) = (0 <? Z.of_nat m)
    /\ (max_basic_leaf hw < 4 -> m = 0%nat)
    /\ (forall i, (i < m)%nat -> cache_type_of hw (Z.of_nat i) <> 0)
    /\ (4 <= max_basic_leaf hw -> (m < 4)%nat ->
        cache_type_of hw (Z.of_nat m) = 0)
    /\ length (levels cache') = length (levels cache)
    /\ (forall i, (i < m)%nat -> (i < length (levels cache))%nat ->
          levels cache' !! i = Some (cache_entry_at hw (Z.of_nat i)))
    /\ (forall i, (m <= i)%nat -> levels cache' !! i = levels cache !! i).
Proof.
  unfold boot_probe_cache_topology, max_basic_leaf.
  destruct (cpuid hw 0 0) as [[[eax ?] ?] ?].
  destruct (eax >=? 4) eqn:Hleaf; geb_arith.
  - destruct (cache_level_loop_spec hw 4 0 (with_level_count_zero cache)
                eq_refl ltac:(lia))
      as (m & Hm & Hcount & Hnz & Hzero & Hlen & Hin & Hout).
    cbn zeta in *.
    change (Z.to_nat MAX_CACHE_LEVELS) with 4%nat.
    exists m. cbn [fst snd]. rewrite Hcount.
    split_and!; try lia; try assumption.
    + intros i Hi. apply Hnz. lia.
    + intros i Hi Hlt. apply Hin; [lia | exact Hlt].
    + intros i Hi. apply Hout. lia.
  - exists 0%nat. cbn. split_and!; auto; try lia; intros; lia.
Qed.

(** X13.  The x86_64 cache probe counts the leading sub-leaves of leaf 4
    that describe a cache: it always starts from a count of 0, stops at
    the first sub-leaf of type 0 or after four, finds nothing when leaf 4
    is missing, and returns true exactly when it counted at least one
    level. *)
Theorem x86_cache_level_count (hw : Z -> Z -> Z * Z * Z * Z)
    (cache : cache_topology_t) :
  let cache' := fst (boot_probe_cache_topology hw cache) in
  let ok := snd (boot_probe_cache_topology hw cache) in
  0 <= level_count cache' <= 4
  /\ (ok = true <-> 1 <= level_count cache')
  /\ (max_basic_leaf hw < 4 -> level_count cache' = 0)
  /\ (forall i, 0 <= i < level_count cache' -> cache_type_of hw i <> 0)
  /\ (4 <= max_basic_leaf hw -> level_count cache' < 4 ->
      cache_type_of hw (level_count cache') = 0)
  /\ length (levels cache') = length (levels cache).
Proof.
  cbn zeta.
  destruct (cache_topology_spec hw cache)
    as (m & Hm & Hcount & Hok & Hnone & Hnz & Hzero & Hlen & _).
  cbn zeta in *. rewrite Hcount, Hok.
  split_and!; try lia; try assumption.
  intros i Hi. rewrite <- (Z2Nat.id i) by lia. apply Hnz. lia.
Qed.

(** X14.  In an array of four slots, every level the x86_64 cache probe
    counted is marked valid, with a level number between 1 and 8, a line
    size between 1 and 4096 bytes, between 1 and 1024 ways and a size
    below 4 GB; the slots beyond the count keep what they held. *)
Theorem x86_cache_levels_valid (hw : Z -> Z -> Z * Z * Z * Z)
    (cache : cache_topology_t) :
  length (levels cache) = 4%nat ->
  let cache' := fst (boot_probe_cache_topology hw cache) in
  (forall i, (Z.of_nat i < level_count cache') ->
     exists e, levels cache' !! i = Some e
       /\ cache_info_valid e = true
       /\ 1 <= level e <= 8 /\ 1 <= line_size e <= 4096
       /\ 1 <= ways e <= 1024 /\ 0 <= size_kb e < 2 ^ 22)
  /\ (forall i, (level_count cache' <= Z.of_nat i) ->
        levels cache' !! i = levels cache !! i).
Proof.
  intros Hslots. cbn zeta.
  destruct (cache_topology_spec hw cache)
    as (m & Hm & Hcount & _ & _ & _ & _ & _ & Hin & Hout).
  cbn zeta in *. rewrite Hcount. split.
  - intros i Hi. exists (cache_entry_at hw (Z.of_nat i)). split.
    + apply Hin; lia.
    + unfold cache_entry_at.
      destruct (cpuid hw 4 (Z.of_nat i)) as [[[eax ebx] ecx] edx].
      apply cache_entry_bounds.
  - intros i Hi. apply Hout. lia.
Qed.

Lemma x86_cache_levels_valid_witness :
  length (levels cache_topology_zero) = 4%nat
  /\ level_count (fst (boot_probe_cache_topology intel_cpuid
                         cache_topology_zero)) = 3
  /\ exists e,
       levels (fst (boot_probe_cache_topology intel_cpuid cache_topology_zero))
         !! 2%nat = Some e
       /\ cache_info_valid e = true.
Proof.
  split; [reflexivity |]. split; [vm_compute; reflexivity |].
  destruct (x86_cache_levels_valid intel_cpuid cache_topology_zero eq_refl)
    as [Hvalid _].
  destruct (Hvalid 2%nat ltac:(vm_compute; reflexivity))
    as (e & He & Hv & _).
  exists e. split; assumption.
Defined.

(** ** The back-end under [boot_probe] *)

(** For any provider: when the probe fails, and what a successful probe
    leaves in the record. *)

Lemma probe_fails_iff (p : probe_provider) (facts : boot_facts_t) :
  sealed facts = false ->
  (fst (boot_probe p facts) = false <->
     snd (Boot.boot_probe_cpu_info p (cpu_info facts)) = false
     \/ snd (Boot.boot_probe_cache_topology p (cache_topology facts)) = false
     \/ u32 (Boot.boot_probe_cpu_count p) = 0).
Proof.
  intros Hs. destruct (boot_probe_replay p facts Hs) as [-> ->].
  split_responses p facts; to_arith; intuition congruence.
Qed.

Lemma probe_success_fields (p : probe_provider) (facts : boot_facts_t) :
  fst (replay (provider_responses p facts) facts) = true ->
  let facts' := snd (replay (provider_responses p facts) facts) in
  let settle {A} (clear : A -> A) (r : A * bool) :=
    if snd r then fst r else clear (fst r) in
  cpu_info facts' = fst (Boot.boot_probe_cpu_info p (cpu_info facts))
  /\ constant_time facts'
     = settle clear_constant_time_valid
         (Boot.boot_probe_constant_time_support p (constant_time facts))
  /\ cache_control facts'
     = settle clear_cache_control_valid
         (Boot.boot_probe_cache_control p (cache_control facts))
  /\ memory_protection facts'
     = settle clear_memory_protection_valid
         (Boot.boot_probe_memory_protection p (memory_protection facts))
  /\ side_channel_mitigation facts'
     = settle clear_side_channel_valid
         (Boot.boot_probe_side_channel_mitigation p
            (side_channel_mitigation facts))
  /\ constant_time_supported facts'
     = constant_time_valid (constant_time facts')
       && aes_ni (constant_time facts') && rdrand (constant_time facts')
  /\ cache_partitioning_supported facts'
     = cache_control_valid (cache_control facts')
       && (cat (cache_control facts') || cdp (cache_control facts'))
  /\ memory_encryption_supported facts'
     = memory_protection_valid (memory_protection facts')
       && tme (memory_protection facts')
  /\ side_channel_mitigations_available facts'
     = side_channel_valid (side_channel_mitigation facts')
       && ibrs (side_channel_mitigation facts')
       && stibp (side_channel_mitigation facts')
  /\ trng_available facts' = Boot.boot_probe_trng_available p
  /\ total_memory_mb facts' = u64 (Boot.boot_probe_total_memory_mb p)
  /\ uefi_boot facts' = Boot.boot_probe_uefi_boot p
  /\ secure_boot_enabled facts' = Boot.boot_probe_secure_boot_enabled p.
Proof.
  split_responses p facts; intros Hret; try discriminate Hret;
    destruct ok1, ok2, ok3, ok4; cbn -[u32 u64 Z.eqb];
    destruct (u32 (Boot.boot_probe_numa_node_count p) =? 0);
    split_and!; reflexivity.
Qed.

Lemma probe_success_record (p : probe_provider) (f0 facts' : boot_facts_t) :
  boot_probe p (boot_init f0) = (true, facts') ->
  fst (replay (provider_responses p (boot_init f0)) (boot_init f0)) = true
  /\ facts' = snd (replay (provider_responses p (boot_init f0)) (boot_init f0)).
Proof.
  intros Hprobe.
  destruct (boot_probe_replay p (boot_init f0) eq_refl) as [Hrep Htr].
  rewrite Htr in Hrep. rewrite Hrep in Hprobe. rewrite Hprobe. auto.
Qed.

(** X15.  With the x86_64 back-end, the CPU identity step cannot fail:
    [boot_probe] on a record that is not sealed returns false exactly when
    the cache probe counted no level or the core count is 0.  A successful
    probe leaves the identity and all four feature groups marked valid. *)
Theorem x86_probe_failure_causes (hw : Z -> Z -> Z * Z * Z * Z)
    (facts : boot_facts_t) :
  sealed facts = false ->
  (fst (boot_probe (provider hw) facts) = false <->
     level_count (fst (boot_probe_cache_topology hw (cache_topology facts))) = 0
     \/ boot_probe_cpu_count hw = 0)
  /\ (fst (boot_probe (provider hw) facts) = true ->
      let facts' := snd (boot_probe (provider hw) facts) in
      cpu_info_valid (cpu_info facts') = true
      /\ constant_time_valid (constant_time facts') = true
      /\ cache_control_valid (cache_control facts') = true
      /\ memory_protection_valid (memory_protection facts') = true
      /\ side_channel_valid (side_channel_mitigation facts') = true).
Proof.
  intros Hs.
  destruct (x86_probes_succeed hw) as (Hci & Hct & Hcc & Hmp & Hsc).
  split.
  - rewrite (probe_fails_iff (provider hw) facts Hs).
    change (Boot.boot_probe_cpu_info (provider hw))
      with (boot_probe_cpu_info hw).
    change (Boot.boot_probe_cache_topology (provider hw))
      with (boot_probe_cache_topology hw).
    change (Boot.boot_probe_cpu_count (provider hw))
      with (boot_probe_cpu_count hw).
    destruct (Hci (cpu_info facts)) as [-> _].
    destruct (cache_topology_spec hw (cache_topology facts))
      as (m & _ & Hcount & Hok & _).
    cbn zeta in Hcount. rewrite Hok, Hcount.
    destruct (x86_cpu_count_bounds hw) as (_ & Hid). rewrite Hid.
    split; [intros [H | [H | H]] | intros [H | H]];
      try discriminate; try lia; auto.
  - intros Hok. cbn zeta.
    destruct (boot_probe_replay (provider hw) facts Hs) as [Hrep Htr].
    rewrite Htr in Hrep. rewrite Hrep in Hok |- *.
    destruct (probe_success_fields (provider hw) facts Hok)
      as (-> & -> & -> & -> & -> & _).
    change (Boot.boot_probe_cpu_info (provider hw))
      with (boot_probe_cpu_info hw).
    change (Boot.boot_probe_constant_time_support (provider hw))
      with (boot_probe_constant_time_support hw).
    change (Boot.boot_probe_cache_control (provider hw))
      with (boot_probe_cache_control hw).
    change (Boot.boot_probe_memory_protection (provider hw))
      with (boot_probe_memory_protection hw).
    change (Boot.boot_probe_side_channel_mitigation (provider hw))
      with (boot_probe_side_channel_mitigation hw).
    destruct (Hci (cpu_info facts)) as [_ ->].
    destruct (Hct (constant_time facts)) as [-> ->].
    destruct (Hcc (cache_control facts)) as [-> ->].
    destruct (Hmp (memory_protection facts)) as [-> ->].
    destruct (Hsc (side_channel_mitigation facts)) as [-> ->].
    split_and!; reflexivity.
Qed.

Lemma x86_probe_failure_causes_witness :
  sealed (boot_init uninitialised) = false
  /\ fst (boot_probe (provider legacy_htt_cpuid) (boot_init uninitialised))
     = false.
Proof.
  split; [reflexivity |].
  destruct (x86_probe_failure_causes legacy_htt_cpuid
              (boot_init uninitialised) eq_refl) as [Hiff _].
  apply Hiff. left. vm_compute. reflexivity.
Defined.

(** Rewriting the provider's fields to the back-end's functions. *)

Ltac x86_fields :=
  change (Boot.boot_probe_cpu_info (provider ?hw))
    with (boot_probe_cpu_info hw) in *;
  change (Boot.boot_probe_constant_time_support (provider ?hw))
    with (boot_probe_constant_time_support hw) in *;
  change (Boot.boot_probe_cache_control (provider ?hw))
    with (boot_probe_cache_control hw) in *;
  change (Boot.boot_probe_memory_protection (provider ?hw))
    with (boot_probe_memory_protection hw) in *;
  change (Boot.boot_probe_side_channel_mitigation (provider ?hw))
    with (boot_probe_side_channel_mitigation hw) in *;
  change (Boot.boot_probe_trng_available (provider ?hw))
    with (boot_probe_trng_available hw) in *;
  change (Boot.boot_probe_total_memory_mb (provider ?hw))
    with boot_probe_total_memory_mb in *;
  change (Boot.boot_probe_uefi_boot (provider ?hw))
    with boot_probe_uefi_boot in *;
  change (Boot.boot_probe_secure_boot_enabled (provider ?hw))
    with boot_probe_secure_boot_enabled in *.

(** X16.  With the x86_64 back-end validation never returns Accept: the
    secure-boot probe always answers false, so every probed record gets at
    least the secure-boot warning. *)
Theorem x86_never_accepted (hw : Z -> Z -> Z * Z * Z * Z)
    (f0 facts' : boot_facts_t) (ctx : boot_validation_context_t) :
  boot_probe (provider hw) (boot_init f0) = (true, facts') ->
  secure_boot_enabled facts' = false
  /\ fst (fst (boot_validate facts' ctx)) <> BOOT_VALIDATION_ACCEPT
  /\ In BOOT_ERROR_SECURE_BOOT_DISABLED
        (recorded_errors (snd (boot_validate facts' ctx))).
Proof.
  intros Hprobe.
  destruct (probe_success_record _ _ _ Hprobe) as [Hok ->].
  destruct (probe_success_fields (provider hw) (boot_init f0) Hok)
    as (_ & _ & _ & _ & _ & _ & _ & _ & _ & _ & _ & _ & Hsec).
  pose proof (replay_success_smt (provider hw) (boot_init f0) Hok)
    as (_ & _ & _ & _ & _ & Hprobed).
  cbn zeta in *. x86_fields.
  set (facts' := snd (replay _ _)) in *.
  change boot_probe_secure_boot_enabled with false in Hsec.
  split; [exact Hsec |].
  destruct (boot_validate_context facts' ctx) as (_ & Hrec & _).
  rewrite Hrec, Hprobed, boot_validate_result.
  split.
  - unfold warn_conditionb. rewrite Hsec. cbn. rewrite !orb_true_r.
    destruct (hard_fail_conditionb _); discriminate.
  - unfold triggered, check_table. cbn [List.filter fst snd].
    rewrite Hsec. cbn [negb].
    repeat match goal with
           | |- context [if ?b then _ else _] => destruct b
           end; cbn; tauto.
Qed.

Lemma x86_never_accepted_witness :
  boot_probe (provider intel_cpuid) (boot_init uninitialised)
    = (true, intel_record)
  /\ fst (fst (boot_validate intel_record empty_ctx))
     <> BOOT_VALIDATION_ACCEPT.
Proof.
  assert (Hprobe : boot_probe (provider intel_cpuid) (boot_init uninitialised)
                   = (true, intel_record)) by (vm_compute; reflexivity).
  split; [exact Hprobe |].
  destruct (x86_never_accepted intel_cpuid uninitialised intel_record
              empty_ctx Hprobe) as (_ & Hne & _).
  exact Hne.
Defined.

(** X17.  On a record probed through the x86_64 back-end, constant-time
    support implies a hardware TRNG: both rest on the RDRAND bit of
    leaf 1, so validation never reports a missing TRNG without also
    reporting missing constant-time support. *)
Theorem x86_constant_time_implies_trng (hw : Z -> Z -> Z * Z * Z * Z)
    (f0 facts' : boot_facts_t) :
  boot_probe (provider hw) (boot_init f0) = (true, facts') ->
  constant_time_supported facts' = true -> trng_available facts' = true.
Proof.
  intros Hprobe.
  destruct (probe_success_record _ _ _ Hprobe) as [Hok ->].
  destruct (probe_success_fields (provider hw) (boot_init f0) Hok)
    as (_ & Hct & _ & _ & _ & Hcts & _ & _ & _ & Htrng & _).
  cbn zeta in *. x86_fields.
  rewrite Hcts, Htrng, Hct.
  destruct (x86_probes_succeed hw) as (_ & Hok_ct & _).
  destruct (Hok_ct (constant_time (boot_init f0))) as [-> _].
  unfold boot_probe_constant_time_support, boot_probe_trng_available.
  destruct (cpuid hw 1 0) as [[[? ?] ecx] ?].
  destruct (cpuid hw 0 0) as [[[eax ?] ?] ?].
  destruct (cpuid hw 7 0) as [[[? ebx] ?] ?].
  cbn [fst rdrand aes_ni constant_time_valid].
  destruct (bit ecx 30); [intros _; reflexivity |].
  rewrite andb_false_r. discriminate.
Qed.

Lemma x86_constant_time_implies_trng_witness :
  boot_probe (provider intel_cpuid) (boot_init uninitialised)
    = (true, intel_record)
  /\ constant_time_supported intel_record = true
  /\ trng_available intel_record = true.
Proof.
  assert (Hprobe : boot_probe (provider intel_cpuid) (boot_init uninitialised)
                   = (true, intel_record)) by (vm_compute; reflexivity).
  split; [exact Hprobe |]. split; [reflexivity |].
  exact (x86_constant_time_implies_trng intel_cpuid uninitialised
           intel_record Hprobe eq_refl).
Defined.

(** X18.  On a processor whose highest basic leaf is below 7, a record
    probed through the x86_64 back-end reports no side-channel
    mitigations, no memory encryption and no cache partitioning; cache
    partitioning is also absent whenever the highest leaf is below
    0x10. *)
Theorem x86_old_leaf_no_features (hw : Z -> Z -> Z * Z * Z * Z)
    (f0 facts' : boot_facts_t) :
  boot_probe (provider hw) (boot_init f0) = (true, facts') ->
  (max_basic_leaf hw < 16 -> cache_partitioning_supported facts' = false)
  /\ (max_basic_leaf hw < 7 ->
      side_channel_mitigations_available facts' = false
      /\ memory_encryption_supported facts' = false
      /\ md_clear (side_channel_mitigation facts') = false
      /\ rdseed (constant_time facts') = false).
Proof.
  intros Hprobe.
  destruct (probe_success_record _ _ _ Hprobe) as [Hok ->].
  destruct (probe_success_fields (provider hw) (boot_init f0) Hok)
    as (_ & Hct & Hcc & Hmp & Hsc & _ & Hcps & Hmes & Hsca & _).
  cbn zeta in *. x86_fields.
  rewrite Hcps, Hmes, Hsca, Hct, Hcc, Hmp, Hsc.
  destruct (x86_probes_succeed hw) as (_ & H1 & H2 & H3 & H4).
  destruct (H1 (constant_time (boot_init f0))) as [-> _].
  destruct (H2 (cache_control (boot_init f0))) as [-> _].
  destruct (H3 (memory_protection (boot_init f0))) as [-> _].
  destruct (H4 (side_channel_mitigation (boot_init f0))) as [-> _].
  unfold boot_probe_constant_time_support, boot_probe_cache_control,
    boot_probe_memory_protection, boot_probe_side_channel_mitigation,
    max_basic_leaf.
  destruct (cpuid hw 0 0) as [[[eax ?] ?] ?].
  destruct (cpuid hw 1 0) as [[[? ?] ?] ?].
  destruct (cpuid hw 7 0) as [[[? ?] ?] ?].
  destruct (cpuid hw 16 0) as [[[? ?] ?] ?].
  destruct (cpuid hw 2147483649 0) as [[[? ?] ?] ?].
  destruct (eax >=? 7) eqn:H7, (eax >=? 16) eqn:H16;
    cbn; rewrite ?H7; cbn; rewrite ?andb_false_r; geb_arith;
    split; intros; try lia; split_and?; reflexivity.
Qed.

Lemma x86_old_leaf_no_features_witness :
  boot_probe (provider older_cpuid) (boot_init uninitialised)
    = (true, older_record)
  /\ max_basic_leaf older_cpuid < 7
  /\ side_channel_mitigations_available older_record = false.
Proof.
  assert (Hprobe : boot_probe (provider older_cpuid) (boot_init uninitialised)
                   = (true, older_record)) by (vm_compute; reflexivity).
  assert (Hleaf : max_basic_leaf older_cpuid < 7) by (vm_compute; reflexivity).
  split; [exact Hprobe |]. split; [exact Hleaf |].
  destruct (x86_old_leaf_no_features older_cpuid uninitialised older_record
              Hprobe) as [_ Hold].
  destruct (Hold Hleaf) as [Hsc _]. exact Hsc.
Defined.

(** ** CPU identity *)

Lemma reg_bytes_value (r a b c d : Z) :
  0 <= r < 2 ^ 32 ->
  (reg_bytes r = [a; b; c; d] <->
   r = a + 256 * b + 65536 * c + 16777216 * d
   /\ 0 <= a < 256 /\ 0 <= b < 256 /\ 0 <= c < 256 /\ 0 <= d < 256).
Proof.
  intros Hr. unfold reg_bytes.
  change 255 with (Z.ones 8). rewrite !Z.land_ones by lia.
  rewrite !Z.shiftr_div_pow2 by lia.
  change (2 ^ 8) with 256. change (2 ^ 16) with 65536.
  change (2 ^ 24) with 16777216. change (2 ^ 32) with 4294967296 in Hr.
  split.
  - intros [= <- <- <- <-].
    pose proof (Z.mod_pos_bound r 256 ltac:(lia)).
    pose proof (Z.mod_pos_bound (r / 256) 256 ltac:(lia)).
    pose proof (Z.mod_pos_bound (r / 65536) 256 ltac:(lia)).
    pose proof (Z.mod_pos_bound (r / 16777216) 256 ltac:(lia)).
    split; [| lia].
    Z.to_euclidean_division_equations. lia.
  - intros (-> & Ha & Hb & Hc & Hd).
    repeat f_equal; Z.to_euclidean_division_equations; lia.
Qed.

Lemma c_string_terminated (l lit : list Z) :
  Forall (fun b => b <> 0) lit ->
  length l = length lit ->
  (c_string (l ++ [0]) = lit <-> l = lit).
Proof.
  intros Hlit. revert l.
  induction Hlit as [| x lit Hx _ IH]; intros [| b l] Hlen;
    try discriminate Hlen; cbn.
  - tauto.
  - destruct (b =? 0) eqn:Hb; to_arith.
    + split; [discriminate | intros [= -> _]; contradiction].
    + specialize (IH l ltac:(cbn in Hlen; lia)).
      split; intros [= -> H]; f_equal; tauto.
Qed.

Lemma vendor_registers (ebx edx ecx a1 a2 a3 a4 b1 b2 b3 b4 c1 c2 c3 c4 : Z) :
  0 <= ebx < 2 ^ 32 -> 0 <= edx < 2 ^ 32 -> 0 <= ecx < 2 ^ 32 ->
  Forall (fun b => 0 < b < 256)
         [a1; a2; a3; a4; b1; b2; b3; b4; c1; c2; c3; c4] ->
  (strcmp_eq (reg_bytes ebx ++ reg_bytes edx ++ reg_bytes ecx ++ [0])
             ([a1; a2; a3; a4; b1; b2; b3; b4; c1; c2; c3; c4] ++ [0]) = true
   <-> ebx = word_of a1 a2 a3 a4 /\ edx = word_of b1 b2 b3 b4
       /\ ecx = word_of c1 c2 c3 c4).
Proof.
  intros Hb Hd Hc Hbytes. unfold word_of.
  assert (Hnz : Forall (fun b : Z => b <> 0)
                  [a1; a2; a3; a4; b1; b2; b3; b4; c1; c2; c3; c4]).
  { eapply Forall_impl; [exact Hbytes |]. cbn. intros. lia. }
  repeat (apply Forall_cons in Hbytes; destruct Hbytes as [? Hbytes]).
  unfold strcmp_eq. rewrite bool_decide_eq_true.
  set (lit := [a1; a2; a3; a4; b1; b2; b3; b4; c1; c2; c3; c4]) in *.
  rewrite (proj2 (c_string_terminated lit lit Hnz eq_refl) eq_refl).
  replace (reg_bytes ebx ++ reg_bytes edx ++ reg_bytes ecx ++ [0])
    with ((reg_bytes ebx ++ reg_bytes edx ++ reg_bytes ecx) ++ [0])
    by (rewrite <- !app_assoc; reflexivity).
  rewrite (c_string_terminated
             (reg_bytes ebx ++ reg_bytes edx ++ reg_bytes ecx) lit Hnz eq_refl).
  subst lit. split.
  - intros Heq.
    assert (E1 : reg_bytes ebx = [a1; a2; a3; a4])
      by (unfold reg_bytes in *; cbn [app] in Heq; congruence).
    assert (E2 : reg_bytes edx = [b1; b2; b3; b4])
      by (unfold reg_bytes in *; cbn [app] in Heq; congruence).
    assert (E3 : reg_bytes ecx = [c1; c2; c3; c4])
      by (unfold reg_bytes in *; cbn [app] in Heq; congruence).
    apply reg_bytes_value in E1, E2, E3; try assumption. tauto.
  - intros (Eb & Ed & Ec).
    rewrite (proj2 (reg_bytes_value ebx a1 a2 a3 a4 Hb))
      by (split; [exact Eb | lia]).
    rewrite (proj2 (reg_bytes_value edx b1 b2 b3 b4 Hd))
      by (split; [exact Ed | lia]).
    rewrite (proj2 (reg_bytes_value ecx c1 c2 c3 c4 Hc))
      by (split; [exact Ec | lia]).
    reflexivity.
Qed.

(** X19.  The x86_64 identity probe reports Intel exactly when the
    registers of leaf 0 spell "GenuineIntel" (EBX, EDX, ECX are "Genu",
    "ineI", "ntel"), AMD exactly when they spell "AuthenticAMD", and an
    unknown vendor otherwise. *)
Theorem x86_vendor_decode (hw : Z -> Z -> Z * Z * Z * Z) (info : cpu_info_t) :
  let v := vendor (fst (boot_probe_cpu_info hw info)) in
  let '(_, ebx, ecx, edx) := cpuid hw 0 0 in
  (v = CPU_VENDOR_INTEL <->
     ebx = 1970169159 /\ edx = 1231384169 /\ ecx = 1818588270)
  /\ (v = CPU_VENDOR_AMD <->
        ebx = 1752462657 /\ edx = 1769238117 /\ ecx = 1145913699)
  /\ (v = CPU_VENDOR_UNKNOWN <->
        ~ (ebx = 1970169159 /\ edx = 1231384169 /\ ecx = 1818588270)
        /\ ~ (ebx = 1752462657 /\ edx = 1769238117 /\ ecx = 1145913699)).
Proof.
  cbn zeta. unfold boot_probe_cpu_info. cbn [cpuid_available negb].
  pose proof (cpuid_range hw 0 0) as Hrange.
  destruct (cpuid hw 0 0) as [[[eax ebx] ecx] edx].
  destruct Hrange as (_ & Hb & Hc & Hd).
  pose proof (vendor_registers ebx edx ecx
                71 101 110 117 105 110 101 73 110 116 101 108 Hb Hd Hc
                ltac:(repeat constructor; lia)) as Hintel.
  pose proof (vendor_registers ebx edx ecx
                65 117 116 104 101 110 116 105 99 65 77 68 Hb Hd Hc
                ltac:(repeat constructor; lia)) as Hamd.
  change (word_of 71 101 110 117) with 1970169159 in Hintel.
  change (word_of 105 110 101 73) with 1231384169 in Hintel.
  change (word_of 110 116 101 108) with 1818588270 in Hintel.
  change (word_of 65 117 116 104) with 1752462657 in Hamd.
  change (word_of 101 110 116 105) with 1769238117 in Hamd.
  change (word_of 99 65 77 68) with 1145913699 in Hamd.
  change (bytes_of_string "GenuineIntel")
    with [71; 101; 110; 117; 105; 110; 101; 73; 110; 116; 101; 108].
  change (bytes_of_string "AuthenticAMD")
    with [65; 117; 116; 104; 101; 110; 116; 105; 99; 65; 77; 68].
  rewrite <- Hintel, <- Hamd.
  assert (Hexcl : ~ (strcmp_eq
                       (reg_bytes ebx ++ reg_bytes edx ++ reg_bytes ecx ++ [0])
                       ([71; 101; 110; 117; 105; 110; 101; 73; 110; 116; 101;
                         108] ++ [0]) = true
                     /\ strcmp_eq
                          (reg_bytes ebx ++ reg_bytes edx ++ reg_bytes ecx
                           ++ [0])
                          ([65; 117; 116; 104; 101; 110; 116; 105; 99; 65; 77;
                            68] ++ [0]) = true)).
  { intros [Hi Ha]. apply Hintel in Hi. apply Hamd in Ha. lia. }
  destruct (strcmp_eq _ ([71; _; _; _; _; _; _; _; _; _; _; _] ++ [0]));
    destruct (strcmp_eq _ ([65; _; _; _; _; _; _; _; _; _; _; _] ++ [0]));
    repeat match goal with
           | |- context [let '(_, _) := ?c in _] => destruct c
           | |- context [if ?b then _ else _] => destruct b
           end; cbn [fst vendor];
    intuition (discriminate || congruence).
Qed.

(** ** CPU identity fields and brand string *)

Lemma lor_bound (a b n : Z) :
  0 < n -> 0 <= a < 2 ^ n -> 0 <= b < 2 ^ n -> 0 <= Z.lor a b < 2 ^ n.
Proof.
  intros Hn Ha Hb. split; [apply Z.lor_nonneg; lia |].
  destruct (Z.eq_dec (Z.lor a b) 0) as [-> | Hne]; [lia |].
  assert (0 <= Z.lor a b) by (apply Z.lor_nonneg; lia).
  apply Z.log2_lt_pow2; [lia |].
  rewrite Z.log2_lor by lia.
  assert (Z.log2 a < n).
  { destruct (Z.eq_dec a 0) as [-> | ?]; [cbn; lia |].
    apply Z.log2_lt_pow2; lia. }
  assert (Z.log2 b < n).
  { destruct (Z.eq_dec b 0) as [-> | ?]; [cbn; lia |].
    apply Z.log2_lt_pow2; lia. }
  lia.
Qed.

(** X20.  The x86_64 identity probe always succeeds and marks its result
    valid.  When leaf 1 exists the decoded stepping is at most 15, the
    model at most 255 and the family at most 270, and a model above 15
    with a family below 15 occurs for family 6 only; when it does not
    exist the three fields keep what the caller's record held. *)
Theorem x86_cpu_identity (hw : Z -> Z -> Z * Z * Z * Z) (info : cpu_info_t) :
  let r := boot_probe_cpu_info hw info in
  snd r = true /\ cpu_info_valid (fst r) = true
  /\ (1 <= max_basic_leaf hw ->
      0 <= stepping (fst r) <= 15 /\ 0 <= model (fst r) <= 255
      /\ 0 <= family (fst r) <= 270
      /\ (15 < model (fst r) -> family (fst r) = 6 \/ 15 <= family (fst r)))
  /\ (max_basic_leaf hw < 1 ->
      family (fst r) = family info /\ model (fst r) = model info
      /\ stepping (fst r) = stepping info).
Proof.
  cbn zeta. unfold boot_probe_cpu_info, max_basic_leaf.
  cbn [cpuid_available negb].
  destruct (cpuid hw 0 0) as [[[eax0 ebx0] ecx0] edx0].
  pose proof (cpuid_range hw 1 0) as Hr.
  destruct (cpuid hw 1 0) as [[[eax ?] ?] ?]. destruct Hr as (Hr & _).
  pose proof (land_15 eax) as Hs.
  pose proof (land_15 (Z.shiftr eax 4)) as Hm.
  pose proof (land_15 (Z.shiftr eax 8)) as Hf.
  pose proof (land_15 (Z.shiftr eax 16)) as Hem.
  pose proof (land_255 (Z.shiftr eax 20)) as Hef.
  set (stp := Z.land eax 15) in *.
  set (mdl := Z.land (Z.shiftr eax 4) 15) in *.
  set (fam := Z.land (Z.shiftr eax 8) 15) in *.
  set (emdl := Z.land (Z.shiftr eax 16) 15) in *.
  set (efam := Z.land (Z.shiftr eax 20) 255) in *.
  assert (Hlor : 0 <= Z.lor (u32 (Z.shiftl emdl 4)) mdl < 2 ^ 8).
  { apply lor_bound; [lia | | lia].
    rewrite Z.shiftl_mul_pow2 by lia. unfold u32.
    rewrite Z.mod_small; lia. }
  assert (Hfam : u32 (fam + efam) = fam + efam)
    by (unfold u32; apply Z.mod_small; lia).
  change (2 ^ 8) with 256 in Hlor.
  destruct (eax0 >=? 1) eqn:H1; geb_arith;
    repeat match goal with
           | |- context [let '(_, _) := ?c in _] => destruct c
           end; cbn [fst snd cpu_info_valid family model stepping];
    (split_and!; [reflexivity | reflexivity | intros ? | intros ?]);
    try lia; try (split_and!; reflexivity).
  rewrite Hfam.
  destruct (fam =? 15) eqn:E15, (fam =? 6) eqn:E6; cbn [orb]; to_arith;
    split_and!; try lia.
Qed.

Lemma string_of_bytes_length (l : list Z) :
  String.length (string_of_bytes l) = length l.
Proof.
  unfold string_of_bytes. induction l as [| b l IH]; cbn; [reflexivity |].
  f_equal. exact IH.
Qed.

Lemma c_string_length (l : list Z) :
  In 0 l -> (length (c_string l) < length l)%nat.
Proof.
  induction l as [| b l IH]; cbn; [tauto |]. intros [-> | Hin].
  - cbn. lia.
  - destruct (b =? 0); cbn; [lia |]. specialize (IH Hin). lia.
Qed.

Lemma skip_spaces_spec (l : list Z) :
  (length (skip_spaces l) <= length l)%nat
  /\ (In 0 l -> In 0 (skip_spaces l))
  /\ (forall P : Z -> Prop, Forall P l -> Forall P (skip_spaces l))
  /\ (forall b l', skip_spaces l = b :: l' -> b <> 32).
Proof.
  induction l as [| b l (IH1 & IH2 & IH3 & IH4)]; cbn.
  - split_and!; [lia | tauto | auto | discriminate].
  - destruct (b =? 32) eqn:Hb; to_arith.
    + split_and!; [lia | | | exact IH4].
      * intros [E | Hin]; [lia | auto].
      * intros P HP. apply IH3. apply Forall_cons in HP. tauto.
    + split_and!; [cbn; lia | intros H; exact H | auto |].
      intros ? ? [= <- _]. exact Hb.
Qed.

Lemma c_string_head (l : list Z) (b : Z) (l' : list Z) :
  c_string l = b :: l' -> exists l'', l = b :: l''.
Proof.
  destruct l as [| x l]; cbn; [discriminate |].
  destruct (x =? 0); [discriminate |]. intros [= <- _]. eauto.
Qed.

Lemma c_string_Forall (P : Z -> Prop) (l : list Z) :
  Forall P l -> Forall P (c_string l).
Proof.
  induction 1 as [| b l Hb _ IH]; cbn; [constructor |].
  destruct (b =? 0); constructor; assumption.
Qed.

Lemma reg_bytes_range (r : Z) : Forall (fun b => 0 <= b < 256) (reg_bytes r).
Proof.
  unfold reg_bytes.
  repeat apply Forall_cons_2; try apply Forall_nil_2;
    match goal with |- _ <= Z.land ?x 255 < _ => pose proof (land_255 x) end;
    lia.
Qed.

(** X21.  The brand string reported by the x86_64 identity probe is
    "Unknown CPU" whenever the highest basic leaf of CPUID leaf 0 is
    below 0x80000004; in every case it has at most 48 characters and
    does not start with a space. *)
Theorem x86_brand_string (hw : Z -> Z -> Z * Z * Z * Z) (info : cpu_info_t) :
  let b := brand_string (fst (boot_probe_cpu_info hw info)) in
  (max_basic_leaf hw < 2147483652 -> b = "Unknown CPU"%string)
  /\ (String.length b <= 48)%nat
  /\ (forall s, b <> String Ascii.Space s).
Proof.
  cbn zeta. unfold boot_probe_cpu_info, max_basic_leaf.
  cbn [cpuid_available negb].
  destruct (cpuid hw 0 0) as [[[eax0 ebx0] ecx0] edx0].
  destruct (cpuid hw 1 0) as [[[? ?] ?] ?].
  destruct (cpuid hw 2147483650 0) as [[[b0 b1] b2] b3].
  destruct (cpuid hw 2147483651 0) as [[[b4 b5] b6] b7].
  destruct (cpuid hw 2147483652 0) as [[[b8 b9] b10] b11].
  repeat match goal with
         | |- context [let '(_, _) := ?c in _] => destruct c
         end; cbn [fst brand_string].
  destruct (eax0 >=? 2147483652) eqn:Hext; geb_arith.
  2: { split_and!; [reflexivity | cbn; lia | discriminate]. }
  set (buf := concat (map reg_bytes [b0; b1; b2; b3; b4; b5; b6; b7; b8; b9;
                                     b10; b11]) ++ [0]).
  assert (Hlen : length buf = 49%nat) by reflexivity.
  assert (Hnul : In 0 buf).
  { unfold buf. apply in_or_app. right. left. reflexivity. }
  assert (Hrange : Forall (fun b => 0 <= b < 256) buf).
  { unfold buf. apply Forall_app. split.
    - apply Forall_concat. apply Forall_map.
      apply Forall_forall. intros. apply reg_bytes_range.
    - repeat constructor; lia. }
  destruct (skip_spaces_spec buf) as (Hl & Hin & Hall & Hhd).
  split_and!; [lia | |].
  - rewrite string_of_bytes_length.
    pose proof (c_string_length _ (Hin Hnul)). lia.
  - intros s Hs.
    destruct (c_string (skip_spaces buf)) as [| b l] eqn:Hc;
      [discriminate Hs |].
    pose proof (c_string_Forall _ _ (Hall _ Hrange)) as Hb.
    rewrite Hc in Hb. apply Forall_cons in Hb. destruct Hb as [Hb _].
    destruct (c_string_head _ _ _ Hc) as [l'' Hsk].
    apply Hhd in Hsk.
    unfold string_of_bytes in Hs. cbn [map string_of_list_ascii] in Hs.
    injection Hs as Hs _.
    apply (f_equal Ascii.nat_of_ascii) in Hs.
    rewrite Ascii.nat_ascii_embedding in Hs by lia.
    change (Ascii.nat_of_ascii Ascii.Space) with 32%nat in Hs. lia.
Qed.

(** X22.  The x86_64 side-channel probe reports MD_CLEAR exactly when the
    highest basic leaf is at least 7, the EAX register returned by leaf 7
    is itself at least 7, and bit 10 of that leaf's EDX is set; IBRS,
    STIBP and SSBD need only the highest basic leaf to be at least 7 and
    their bit (26, 27, 31) of the same EDX. *)
Theorem x86_md_clear_gate (hw : Z -> Z -> Z * Z * Z * Z)
    (scm : side_channel_mitigation_t) :
  let r := fst (boot_probe_side_channel_mitigation hw scm) in
  let '(eax7, _, _, edx7) := cpuid hw 7 0 in
  (md_clear r = true <->
     7 <= max_basic_leaf hw /\ 7 <= eax7 /\ bit edx7 10 = true)
  /\ (ibrs r = true <-> 7 <= max_basic_leaf hw /\ bit edx7 26 = true)
  /\ (stibp r = true <-> 7 <= max_basic_leaf hw /\ bit edx7 27 = true)
  /\ (ssbd r = true <-> 7 <= max_basic_leaf hw /\ bit edx7 31 = true).
Proof.
  cbn zeta. unfold boot_probe_side_channel_mitigation, max_basic_leaf.
  destruct (cpuid hw 0 0) as [[[eax0 ?] ?] ?].
  destruct (cpuid hw 7 0) as [[[eax7 ?] ?] edx7].
  destruct (eax0 >=? 7) eqn:H0; cbn [fst md_clear ibrs stibp ssbd];
    [destruct (eax7 >=? 7) eqn:H7 | rewrite H0];
    cbn [fst md_clear ibrs stibp ssbd]; geb_arith;
    split_and!; split; intros; split_and?; try lia; try tauto;
    try discriminate.
Qed.

End X86Props.
